(** * Motivation Widget: state store, default merge and tag persistence

    A shallow embedding of [Widget_front.py].

    - Values that travel through [json.load] and [json.dump] are terms of
      [json].  A Python [dict] is an association list in insertion order
      whose keys are pairwise distinct ([wf_json]); a [float] is a
      binary64 number.
    - Python exceptions are the [Err] branch of [result].  A handler of
      the widget is a function from the widget to the widget it leaves
      behind and its outcome ([M]), so that what a handler mutated before
      raising stays mutated.
    - The file system maps paths to places and places to contents; the
      contents of a file is a sequence of JSON tokens.  Opening a file
      can fail.
    - The Tk text widget is its text and its table of tags; a tag records
      its options and which characters carry it.  The font of a tag is
      a named font of Tk, which lives as long as the Python object that
      made it.  Answers of dialogs are arguments of the handlers that
      open them. *)

From Stdlib Require Import List String Ascii ZArith Bool Lia.
From Stdlib Require Import Floats DecimalString.
Import ListNotations.
Local Open Scope string_scope.
Local Open Scope Z_scope.

(** ** Exceptions *)

Inductive exn : Type :=
| AttributeError
| KeyError
| TypeError
| FileNotFoundError
| PermissionError
| OverflowError
| ValueError
| TclError.

Inductive result (A : Type) : Type :=
| Ok (a : A)
| Err (e : exn).
Arguments Ok {A} a.
Arguments Err {A} e.

Definition bind {A B : Type} (r : result A) (k : A -> result B) : result B :=
  match r with
  | Ok a => k a
  | Err e => Err e
  end.

Notation "x <- r ;; k" := (bind r (fun x => k))
  (at level 61, r at next level, right associativity).

(** ** JSON values *)

#[local] Unset Elimination Schemes.

Inductive json : Type :=
| JNull
| JBool (b : bool)
| JInt (z : Z)
| JFloat (f : float)
| JStr (s : string)
| JList (l : list json)
| JObj (o : list (string * json)).

#[local] Set Elimination Schemes.

Definition dict : Type := list (string * json).

Section JsonInduction.
Variable P : json -> Prop.
Hypothesis Hnull : P JNull.
Hypothesis Hbool : forall b, P (JBool b).
Hypothesis Hint : forall z, P (JInt z).
Hypothesis Hfloat : forall f, P (JFloat f).
Hypothesis Hstr : forall s, P (JStr s).
Hypothesis Hlist : forall l, Forall P l -> P (JList l).
Hypothesis Hobj : forall o, Forall (fun kv => P (snd kv)) o -> P (JObj o).

Fixpoint json_nested_ind (v : json) : P v :=
  match v with
  | JNull => Hnull
  | JBool b => Hbool b
  | JInt z => Hint z
  | JFloat f => Hfloat f
  | JStr s => Hstr s
  | JList l =>
      Hlist l ((fix go (l : list json) : Forall P l :=
                  match l with
                  | [] => Forall_nil P
                  | x :: t => Forall_cons x (json_nested_ind x) (go t)
                  end) l)
  | JObj o =>
      Hobj o ((fix go (o : dict) : Forall (fun kv => P (snd kv)) o :=
                 match o with
                 | [] => Forall_nil _
                 | kv :: t =>
                     Forall_cons (P := fun kv => P (snd kv)) kv
                       (json_nested_ind (snd kv)) (go t)
                 end) o)
  end.
End JsonInduction.

(** [isinstance(v, dict)] *)
Definition is_dict (v : json) : bool :=
  match v with
  | JObj _ => true
  | _ => false
  end.

(** ** Python dict operations on association lists *)

(** [k in d] *)
Fixpoint dict_mem (k : string) (d : dict) : bool :=
  match d with
  | [] => false
  | (k', _) :: t => if String.eqb k k' then true else dict_mem k t
  end.

(** [d.get(k)] *)
Fixpoint dict_get (k : string) (d : dict) : option json :=
  match d with
  | [] => None
  | (k', v) :: t => if String.eqb k k' then Some v else dict_get k t
  end.

(** [d.get(k, dflt)] *)
Definition dict_get_default (k : string) (dflt : json) (d : dict) : json :=
  match dict_get k d with
  | Some v => v
  | None => dflt
  end.

(** [d[k] = v]: an existing key keeps its position, a new key goes last. *)
Fixpoint dict_set (k : string) (v : json) (d : dict) : dict :=
  match d with
  | [] => [(k, v)]
  | (k', v') :: t =>
      if String.eqb k k' then (k', v) :: t else (k', v') :: dict_set k v t
  end.

(** [d.setdefault(k, v)] *)
Definition dict_setdefault (k : string) (v : json) (d : dict) : dict :=
  if dict_mem k d then d else dict_set k v d.

(** [d[k]] *)
Definition dict_item (k : string) (d : dict) : result json :=
  match dict_get k d with
  | Some v => Ok v
  | None => Err KeyError
  end.

(** Keys of a Python dict are pairwise distinct, at every depth. *)
Fixpoint keys_distinct (d : dict) : bool :=
  match d with
  | [] => true
  | (k, _) :: t => negb (dict_mem k t) && keys_distinct t
  end.

Fixpoint wf_json (v : json) : bool :=
  match v with
  | JList l =>
      (fix all (l : list json) : bool :=
         match l with
         | [] => true
         | x :: t => wf_json x && all t
         end) l
  | JObj o =>
      keys_distinct o &&
      (fix all (o : dict) : bool :=
         match o with
         | [] => true
         | (_, x) :: t => wf_json x && all t
         end) o
  | _ => true
  end.

Fixpoint wf_list (l : list json) : bool :=
  match l with
  | [] => true
  | x :: t => wf_json x && wf_list t
  end.

Fixpoint wf_values (o : dict) : bool :=
  match o with
  | [] => true
  | (_, x) :: t => wf_json x && wf_values t
  end.

(** Value found by following a list of keys through nested dicts. *)
Fixpoint get_path (p : list string) (v : json) : option json :=
  match p with
  | [] => Some v
  | k :: p' =>
      match v with
      | JObj o =>
          match dict_get k o with
          | Some x => get_path p' x
          | None => None
          end
      | _ => None
      end
  end.

(** ** Default settings *)

Definition DEFAULTS_colors : json :=
  JObj [ ("background", JStr "#0A1F44");
         ("text", JStr "#FFFFFF");
         ("accent", JStr "#FFD700");
         ("border", JStr "#222222") ].

Definition DEFAULTS_base_font : json :=
  JObj [ ("family", JStr "Segoe UI");
         ("size", JInt 16);
         ("weight", JStr "normal");
         ("slant", JStr "roman") ].

Definition DEFAULTS_content : json :=
  JObj [ ("text", JStr "");
         ("tags", JObj []) ].

Definition DEFAULTS : json :=
  JObj [ ("geometry", JStr "600x320+100+100");
         ("always_on_top", JBool true);
         ("alpha", JFloat 1.0%float);
         ("colors", DEFAULTS_colors);
         ("border_thickness", JInt 2);
         ("base_font", DEFAULTS_base_font);
         ("content", DEFAULTS_content) ].

(** ** [_apply_defaults]

    [deep_merge dst src] follows the nested Python function: it walks
    [src.items()], mutating [dst].  Calling [.get] or [.setdefault] on a
    value that is not a dict raises [AttributeError], and so does
    [src.items()] on a non-dict [src]. *)

Fixpoint deep_merge (dst : json) (src : json) {struct src} : result json :=
  match src with
  | JObj items =>
      (fix loop (items : dict) (dst : json) {struct items} : result json :=
         match items with
         | [] => Ok dst
         | (k, v) :: rest =>
             match dst with
             | JObj d =>
                 if is_dict v then
                   r <- deep_merge (dict_get_default k (JObj []) d) v ;;
                   loop rest (JObj (dict_set k r d))
                 else
                   loop rest (JObj (dict_setdefault k v d))
             | _ => Err AttributeError
             end
         end) items dst
  | _ => Err AttributeError
  end.

(** The loop of [deep_merge], named so that lemmas can speak about it. *)
Fixpoint merge_items (items : dict) (dst : json) : result json :=
  match items with
  | [] => Ok dst
  | (k, v) :: rest =>
      match dst with
      | JObj d =>
          if is_dict v then
            r <- deep_merge (dict_get_default k (JObj []) d) v ;;
            merge_items rest (JObj (dict_set k r d))
          else
            merge_items rest (JObj (dict_setdefault k v d))
      | _ => Err AttributeError
      end
  end.

(** [self.state = deep_merge(self.state if isinstance(self.state, dict)
    else {}, DEFAULTS)] *)
Definition _apply_defaults (state : json) : result json :=
  deep_merge (if is_dict state then state else JObj []) DEFAULTS.

(** [preserved a b]: every path present in [a] is still present in [b];
    a value that is not a dict is kept as it is, a dict stays a dict. *)
Definition preserved (a b : json) : Prop :=
  forall p v,
    get_path p a = Some v ->
    exists v', get_path p b = Some v' /\
               (if is_dict v then is_dict v' = true else v' = v).

(** [merge_ok dst src]: the shape condition under which [deep_merge dst
    src] returns.  Wherever [src] holds a non-empty dict, [dst] holds a
    dict or nothing. *)
Fixpoint merge_ok (dst src : json) {struct src} : bool :=
  match src with
  | JObj items =>
      match items with
      | [] => true
      | _ :: _ =>
          match dst with
          | JObj d =>
              (fix all (items : dict) : bool :=
                 match items with
                 | [] => true
                 | (k, v) :: rest =>
                     (if is_dict v
                      then merge_ok (dict_get_default k (JObj []) d) v
                      else true) && all rest
                 end) items
          | _ => false
          end
      end
  | _ => false
  end.

Fixpoint merge_ok_items (d items : dict) : bool :=
  match items with
  | [] => true
  | (k, v) :: rest =>
      (if is_dict v
       then merge_ok (dict_get_default k (JObj []) d) v
       else true) && merge_ok_items d rest
  end.

(** Python's [0.3]: the binary64 value nearest to three tenths. *)
Definition float_0_3 : float := 0x1.3333333333333p-2%float.

(** A partial document: opacity below the slider's range and one colour. *)
Definition partial_doc : json :=
  JObj [ ("alpha", JFloat float_0_3);
         ("colors", JObj [ ("text", JStr "#000000") ]) ].

(** ** The state file

    [json.dump] and [json.load] are modelled on JSON token sequences: the
    contents of a file is the sequence of tokens it spells.  White space,
    indentation, string escapes and the spelling of numbers lie below
    this model.  Contents that [json.load] rejects, such as an empty or a
    truncated file, are token sequences that [parse_value] rejects. *)

Inductive token : Type :=
| TLBrace
| TRBrace
| TLBracket
| TRBracket
| TColon
| TComma
| TNull
| TBool (b : bool)
| TInt (z : Z)
| TFloat (f : float)
| TStr (s : string).

(** [json.dump(data, f, indent=2)] *)
Fixpoint json_dump (v : json) : list token :=
  match v with
  | JNull => [TNull]
  | JBool b => [TBool b]
  | JInt z => [TInt z]
  | JFloat f => [TFloat f]
  | JStr s => [TStr s]
  | JList [] => [TLBracket; TRBracket]
  | JList (x :: t) =>
      TLBracket :: json_dump x ++
        (fix tail (t : list json) : list token :=
           match t with
           | [] => [TRBracket]
           | y :: t' => TComma :: json_dump y ++ tail t'
           end) t
  | JObj [] => [TLBrace; TRBrace]
  | JObj ((k, x) :: t) =>
      TLBrace :: TStr k :: TColon :: json_dump x ++
        (fix tail (t : dict) : list token :=
           match t with
           | [] => [TRBrace]
           | (k', y) :: t' =>
               TComma :: TStr k' :: TColon :: json_dump y ++ tail t'
           end) t
  end%list.

Fixpoint dump_list_tail (t : list json) : list token :=
  match t with
  | [] => [TRBracket]
  | y :: t' => TComma :: json_dump y ++ dump_list_tail t'
  end%list.

Fixpoint dump_obj_tail (t : dict) : list token :=
  match t with
  | [] => [TRBrace]
  | (k', y) :: t' =>
      TComma :: TStr k' :: TColon :: json_dump y ++ dump_obj_tail t'
  end%list.

(** The decoder builds a dict from the pairs of an object in order, so a
    repeated key keeps its first position and its last value. *)
Definition dict_of_pairs (pairs : dict) : dict :=
  fold_left (fun d kv => dict_set (fst kv) (snd kv) d) pairs [].

(** Recursive-descent decoder; [n] bounds the number of nested calls. *)
Fixpoint parse_value (n : nat) (ts : list token)
  : option (json * list token) :=
  match n with
  | O => None
  | S n' =>
      match ts with
      | TNull :: r => Some (JNull, r)
      | TBool b :: r => Some (JBool b, r)
      | TInt z :: r => Some (JInt z, r)
      | TFloat f :: r => Some (JFloat f, r)
      | TStr s :: r => Some (JStr s, r)
      | TLBracket :: r =>
          match r with
          | TRBracket :: r' => Some (JList [], r')
          | _ =>
              match parse_value n' r with
              | Some (x, r1) =>
                  match parse_list_tail n' r1 with
                  | Some (xs, r2) => Some (JList (x :: xs), r2)
                  | None => None
                  end
              | None => None
              end
          end
      | TLBrace :: r =>
          match r with
          | TRBrace :: r' => Some (JObj [], r')
          | TStr k :: TColon :: r' =>
              match parse_value n' r' with
              | Some (x, r1) =>
                  match parse_obj_tail n' r1 with
                  | Some (kvs, r2) =>
                      Some (JObj (dict_of_pairs ((k, x) :: kvs)), r2)
                  | None => None
                  end
              | None => None
              end
          | _ => None
          end
      | _ => None
      end
  end
with parse_list_tail (n : nat) (ts : list token)
  : option (list json * list token) :=
  match n with
  | O => None
  | S n' =>
      match ts with
      | TRBracket :: r => Some ([], r)
      | TComma :: r =>
          match parse_value n' r with
          | Some (x, r1) =>
              match parse_list_tail n' r1 with
              | Some (xs, r2) => Some (x :: xs, r2)
              | None => None
              end
          | None => None
          end
      | _ => None
      end
  end
with parse_obj_tail (n : nat) (ts : list token)
  : option (dict * list token) :=
  match n with
  | O => None
  | S n' =>
      match ts with
      | TRBrace :: r => Some ([], r)
      | TComma :: TStr k :: TColon :: r =>
          match parse_value n' r with
          | Some (x, r1) =>
              match parse_obj_tail n' r1 with
              | Some (kvs, r2) => Some ((k, x) :: kvs, r2)
              | None => None
              end
          | None => None
          end
      | _ => None
      end
  end.

(** [json.load(f)]: one value, then end of input; [None] stands for the
    decoder's exception. *)
Definition json_load (c : list token) : option json :=
  match parse_value (S (List.length c)) c with
  | Some (v, []) => Some v
  | _ => None
  end.

(** The file system as seen by the program.  A path leads to a place
    where a file can be, or nowhere when a directory on the way is
    missing; two spellings of one path lead to the same place.  A place
    holds the contents of a file or nothing, and grants or refuses
    reading and writing.  Directories and other kinds of files are not
    modelled. *)
Record store : Type := mkStore {
  locate : string -> option nat;
  contents : nat -> option (list token);
  can_read : nat -> bool;
  can_write : nat -> bool
}.

(** What the file at [path] holds, if there is one. *)
Definition file_at (fs : store) (path : string) : option (list token) :=
  match locate fs path with
  | Some i => contents fs i
  | None => None
  end.

(** [os.path.exists(path)] *)
Definition path_exists (fs : store) (path : string) : bool :=
  match file_at fs path with
  | Some _ => true
  | None => false
  end.

(** The file system in which the place [i] holds [c]. *)
Definition put (fs : store) (i : nat) (c : list token) : store :=
  mkStore (locate fs)
    (fun j => if Nat.eqb j i then Some c else contents fs j)
    (can_read fs) (can_write fs).

(** [with open(path, "w") as f: f.write(c)]; [open] raises when the path
    leads nowhere or the place refuses writing. *)
Definition write_file (fs : store) (path : string) (c : list token)
  : store * result unit :=
  match locate fs path with
  | None => (fs, Err FileNotFoundError)
  | Some i =>
      if can_write fs i then (put fs i c, Ok tt)
      else (fs, Err PermissionError)
  end.

(** [open(path, "r")] raises when there is no file or the place refuses
    reading. *)
Definition open_read (fs : store) (path : string) : result (list token) :=
  match locate fs path with
  | None => Err FileNotFoundError
  | Some i =>
      match contents fs i with
      | None => Err FileNotFoundError
      | Some c => if can_read fs i then Ok c else Err PermissionError
      end
  end.

Definition STATE_FILE : string := "widget_state.json".

Definition ensure_state_file (fs : store) (path : string)
  : store * result unit :=
  if negb (path_exists fs path)
  then write_file fs path (json_dump (JObj []))
  else (fs, Ok tt).

(** Returns the file system left behind and the value returned or the
    exception raised.  Both calls of [open] are outside the [try]. *)
Definition load_state (fs : store) (path : string) : store * result json :=
  let '(fs1, r) := ensure_state_file fs path in
  (fs1,
   _ <- r ;;
   c <- open_read fs1 path ;;
   match json_load c with
   | Some v => Ok v
   | None => Ok (JObj [])
   end).

Definition save_state (fs : store) (path : string) (data : json)
  : store * result unit :=
  write_file fs path (json_dump data).

(** The first two statements of [MotivationWidget.__init__] that touch
    the state: [self.state = load_state(STATE_FILE)] and
    [self._apply_defaults()]. *)
Definition startup_state (fs : store) : store * result json :=
  let '(fs1, r) := load_state fs STATE_FILE in
  (fs1, s <- r ;; _apply_defaults s).

(** [open(path, "w")] and [open(path, "r")] are granted. *)
Definition writable (fs : store) (path : string) : bool :=
  match locate fs path with
  | Some i => can_write fs i
  | None => false
  end.

Definition readable (fs : store) (path : string) : bool :=
  match locate fs path with
  | Some i => can_read fs i
  | None => false
  end.

(** A directory with no file in it yet.  The state file can be reached
    under two spellings, "notes.json" is another file, "locked.json"
    can be neither read nor written, and every other path leads
    through a directory that does not exist. *)
Definition sample_files : store :=
  mkStore
    (fun p =>
       if String.eqb p "widget_state.json" then Some 0%nat
       else if String.eqb p "./widget_state.json" then Some 0%nat
       else if String.eqb p "notes.json" then Some 1%nat
       else if String.eqb p "locked.json" then Some 2%nat
       else None)
    (fun _ => None)
    (fun i => negb (Nat.eqb i 2%nat))
    (fun i => negb (Nat.eqb i 2%nat)).

(** Tokens that can begin a JSON value. *)
Definition starts_value (t : token) : bool :=
  match t with
  | TRBrace | TRBracket | TColon | TComma => false
  | _ => true
  end.

(** Opacity outside the slider's range [[0.5, 1.0]]. *)
Definition alpha_in_range (a : json) : bool :=
  match a with
  | JFloat f => (PrimFloat.leb 0.5%float f) && (PrimFloat.leb f 1.0%float)
  | JInt z => Z.eqb z 1
  | _ => false
  end.

Definition alpha_out_of_range (a : json) : bool :=
  match a with
  | JFloat _ | JInt _ => negb (alpha_in_range a)
  | _ => false
  end.

(** ** The widget

    Tk objects are modelled by the part of their state the handlers read
    or write. *)

(** [clamp(v, lo, hi)] *)
Definition clamp (v lo hi : Z) : Z := Z.max lo (Z.min hi v).

(** [safe_int(x, default)]; [ix] is the outcome of [int(x)], [None] when
    it raises. *)
Definition safe_int (ix : option Z) (default : Z) : Z :=
  match ix with
  | Some z => z
  | None => default
  end.

Definition string_of_Z (z : Z) : string := NilZero.string_of_int (Z.to_int z).

Definition string_of_nat (n : nat) : string :=
  NilZero.string_of_uint (Nat.to_uint n).

(** A [tkfont.Font] by its options; [actual] is taken to report the
    options as configured. *)
Record font : Type := mkFont {
  f_family : string;
  f_size : Z;
  f_weight : string;
  f_slant : string;
  f_underline : Z;
  f_overstrike : Z
}.

(** A text index "line.char": lines count from 1, characters from 0. *)
Record index : Type := mkIndex {
  i_line : nat;
  i_char : nat
}.

Definition index_to_string (i : index) : string :=
  string_of_nat (i_line i) ++ "." ++ string_of_nat (i_char i).

(** A tag of the text widget: its options and, for each character of the
    buffer, whether the character carries the tag.  The font of a tag
    is a named font that one [tkfont.Font] object made for this tag
    alone.  [t_font_alive] tells whether that object is alive.  When
    Python collects it, its [__del__] runs [font delete]: the tag goes
    on displaying with the font's last options, but [font names] no
    longer lists the font. *)
Record tag_info : Type := mkTag {
  t_font : option font;
  t_foreground : string;
  t_background : string;
  t_cover : list bool;
  t_font_alive : bool
}.

Definition tag_table : Type := list (string * tag_info).

(** Window geometry "WxH+X+Y". *)
Record geometry : Type := mkGeometry {
  g_width : Z;
  g_height : Z;
  g_x : Z;
  g_y : Z
}.

Definition geometry_to_string (g : geometry) : string :=
  string_of_Z (g_width g) ++ "x" ++ string_of_Z (g_height g) ++
  "+" ++ string_of_Z (g_x g) ++ "+" ++ string_of_Z (g_y g).

(** Pointer event: [e.x_root], [e.y_root]. *)
Record event : Type := mkEvent {
  x_root : Z;
  y_root : Z
}.

Inductive dialog : Type :=
| AskColor (title : string)
| AskOpenFilename (title : string)
| ShowError (title : string) (cause : exn).

(** The application object [MotivationWidget] with the Tk objects it
    owns, the file system and the dialogs shown so far (oldest first).
    [base_size_var] and [border_var] hold what [get()] gives on them:
    the integer in the spin box, or the exception raised when the box
    holds none, which is [TclError], or [OverflowError] for an infinite
    number.  [base_font] is the named font that [self.base_font] and
    the text widget share. *)
Record widget : Type := mkWidget {
  state : json;                         (* self.state *)
  files : store;
  text_chars : string;                  (* self.text, "1.0" to "end-1c" *)
  text_tags : tag_table;                (* lowest priority first *)
  text_fg : string;                     (* self.text["fg"] *)
  text_insertbackground : string;       (* self.text["insertbackground"] *)
  base_font : font;                     (* self.base_font *)
  base_font_var : string;               (* self.base_font_var *)
  base_size_var : result Z;             (* self.base_size_var *)
  font_families : list string;          (* self.font_families *)
  font_combo_values : list string;      (* self.font_combo["values"] *)
  border_var : result Z;                (* self.border_var *)
  alpha_var : float;                    (* self.alpha_var *)
  container_bg : string;                (* self.container["bg"] *)
  root_bg : string;                     (* self.root["bg"] *)
  root_topmost : bool;                  (* self.root.attributes("-topmost") *)
  root_geometry : geometry;             (* self.root.geometry() *)
  start_w : Z;                          (* self._start_w *)
  start_h : Z;                          (* self._start_h *)
  start_rx : Z;                         (* self._start_rx *)
  start_ry : Z;                         (* self._start_ry *)
  dialogs : list dialog
}.

Definition set_state (v : json) (w : widget) : widget :=
  mkWidget v (files w) (text_chars w) (text_tags w) (text_fg w)
    (text_insertbackground w) (base_font w) (base_font_var w)
    (base_size_var w) (font_families w) (font_combo_values w) (border_var w)
    (alpha_var w) (container_bg w) (root_bg w) (root_topmost w)
    (root_geometry w) (start_w w) (start_h w) (start_rx w) (start_ry w)
    (dialogs w).

Definition set_files (v : store) (w : widget) : widget :=
  mkWidget (state w) v (text_chars w) (text_tags w) (text_fg w)
    (text_insertbackground w) (base_font w) (base_font_var w)
    (base_size_var w) (font_families w) (font_combo_values w) (border_var w)
    (alpha_var w) (container_bg w) (root_bg w) (root_topmost w)
    (root_geometry w) (start_w w) (start_h w) (start_rx w) (start_ry w)
    (dialogs w).

Definition set_text_tags (v : tag_table) (w : widget) : widget :=
  mkWidget (state w) (files w) (text_chars w) v (text_fg w)
    (text_insertbackground w) (base_font w) (base_font_var w)
    (base_size_var w) (font_families w) (font_combo_values w) (border_var w)
    (alpha_var w) (container_bg w) (root_bg w) (root_topmost w)
    (root_geometry w) (start_w w) (start_h w) (start_rx w) (start_ry w)
    (dialogs w).

Definition set_alpha_var (v : float) (w : widget) : widget :=
  mkWidget (state w) (files w) (text_chars w) (text_tags w) (text_fg w)
    (text_insertbackground w) (base_font w) (base_font_var w)
    (base_size_var w) (font_families w) (font_combo_values w) (border_var w)
    v (container_bg w) (root_bg w) (root_topmost w)
    (root_geometry w) (start_w w) (start_h w) (start_rx w) (start_ry w)
    (dialogs w).

Definition set_base_font (v : font) (w : widget) : widget :=
  mkWidget (state w) (files w) (text_chars w) (text_tags w) (text_fg w)
    (text_insertbackground w) v (base_font_var w) (base_size_var w)
    (font_families w) (font_combo_values w) (border_var w) (alpha_var w)
    (container_bg w) (root_bg w) (root_topmost w) (root_geometry w)
    (start_w w) (start_h w) (start_rx w) (start_ry w) (dialogs w).

Definition set_base_font_var (v : string) (w : widget) : widget :=
  mkWidget (state w) (files w) (text_chars w) (text_tags w) (text_fg w)
    (text_insertbackground w) (base_font w) v (base_size_var w)
    (font_families w) (font_combo_values w) (border_var w) (alpha_var w)
    (container_bg w) (root_bg w) (root_topmost w) (root_geometry w)
    (start_w w) (start_h w) (start_rx w) (start_ry w) (dialogs w).

Definition set_font_families (v : list string) (w : widget) : widget :=
  mkWidget (state w) (files w) (text_chars w) (text_tags w) (text_fg w)
    (text_insertbackground w) (base_font w) (base_font_var w)
    (base_size_var w) v (font_combo_values w) (border_var w) (alpha_var w)
    (container_bg w) (root_bg w) (root_topmost w) (root_geometry w)
    (start_w w) (start_h w) (start_rx w) (start_ry w) (dialogs w).

Definition set_font_combo_values (v : list string) (w : widget) : widget :=
  mkWidget (state w) (files w) (text_chars w) (text_tags w) (text_fg w)
    (text_insertbackground w) (base_font w) (base_font_var w)
    (base_size_var w) (font_families w) v (border_var w) (alpha_var w)
    (container_bg w) (root_bg w) (root_topmost w) (root_geometry w)
    (start_w w) (start_h w) (start_rx w) (start_ry w) (dialogs w).

Definition set_root_geometry (v : geometry) (w : widget) : widget :=
  mkWidget (state w) (files w) (text_chars w) (text_tags w) (text_fg w)
    (text_insertbackground w) (base_font w) (base_font_var w)
    (base_size_var w) (font_families w) (font_combo_values w) (border_var w)
    (alpha_var w) (container_bg w) (root_bg w) (root_topmost w) v
    (start_w w) (start_h w) (start_rx w) (start_ry w) (dialogs w).

Definition set_start_w (v : Z) (w : widget) : widget :=
  mkWidget (state w) (files w) (text_chars w) (text_tags w) (text_fg w)
    (text_insertbackground w) (base_font w) (base_font_var w)
    (base_size_var w) (font_families w) (font_combo_values w) (border_var w)
    (alpha_var w) (container_bg w) (root_bg w) (root_topmost w)
    (root_geometry w) v (start_h w) (start_rx w) (start_ry w) (dialogs w).

Definition set_start_h (v : Z) (w : widget) : widget :=
  mkWidget (state w) (files w) (text_chars w) (text_tags w) (text_fg w)
    (text_insertbackground w) (base_font w) (base_font_var w)
    (base_size_var w) (font_families w) (font_combo_values w) (border_var w)
    (alpha_var w) (container_bg w) (root_bg w) (root_topmost w)
    (root_geometry w) (start_w w) v (start_rx w) (start_ry w) (dialogs w).

Definition set_start_rx (v : Z) (w : widget) : widget :=
  mkWidget (state w) (files w) (text_chars w) (text_tags w) (text_fg w)
    (text_insertbackground w) (base_font w) (base_font_var w)
    (base_size_var w) (font_families w) (font_combo_values w) (border_var w)
    (alpha_var w) (container_bg w) (root_bg w) (root_topmost w)
    (root_geometry w) (start_w w) (start_h w) v (start_ry w) (dialogs w).

Definition set_start_ry (v : Z) (w : widget) : widget :=
  mkWidget (state w) (files w) (text_chars w) (text_tags w) (text_fg w)
    (text_insertbackground w) (base_font w) (base_font_var w)
    (base_size_var w) (font_families w) (font_combo_values w) (border_var w)
    (alpha_var w) (container_bg w) (root_bg w) (root_topmost w)
    (root_geometry w) (start_w w) (start_h w) (start_rx w) v (dialogs w).

Definition set_dialogs (v : list dialog) (w : widget) : widget :=
  mkWidget (state w) (files w) (text_chars w) (text_tags w) (text_fg w)
    (text_insertbackground w) (base_font w) (base_font_var w)
    (base_size_var w) (font_families w) (font_combo_values w) (border_var w)
    (alpha_var w) (container_bg w) (root_bg w) (root_topmost w)
    (root_geometry w) (start_w w) (start_h w) (start_rx w) (start_ry w)
    v.

(** ** Handlers

    A handler runs on the widget and leaves a widget behind, together
    with its return value or the exception it raised.  What it mutated
    before raising stays mutated. *)

Definition M (A : Type) : Type := widget -> widget * result A.

Definition ret {A : Type} (a : A) : M A := fun w => (w, Ok a).

Definition raise {A : Type} (e : exn) : M A := fun w => (w, Err e).

Definition mbind {A B : Type} (c : M A) (k : A -> M B) : M B :=
  fun w =>
    match c w with
    | (w1, Ok a) => k a w1
    | (w1, Err e) => (w1, Err e)
    end.

(** [try: c  except: h] *)
Definition try_except {A : Type} (c : M A) (h : exn -> M A) : M A :=
  fun w =>
    match c w with
    | (w1, Ok a) => (w1, Ok a)
    | (w1, Err e) => h e w1
    end.

Definition gets {A : Type} (f : widget -> A) : M A := fun w => (w, Ok (f w)).

Definition modify (f : widget -> widget) : M unit := fun w => (f w, Ok tt).

Definition lift {A : Type} (r : result A) : M A := fun w => (w, r).

Notation "x <-- c ;; k" := (mbind c (fun x => k))
  (at level 61, c at next level, right associativity).
Notation "c ;;; k" := (mbind c (fun _ => k))
  (at level 61, right associativity).

(** [IntVar.get()] *)
Definition intvar_get (v : result Z) : M Z :=
  match v with
  | Ok z => ret z
  | Err e => raise e
  end.

(** *** The text buffer and its indices *)

Definition newline : ascii := "010"%char.

(** The characters of the buffer: the text, then Tk's final newline. *)
Definition buffer (text : string) : list ascii :=
  (list_ascii_of_string text ++ [newline])%list.

(** Line (from 0) and character of the position [n] characters into [s]. *)
Fixpoint position_of (s : list ascii) (n : nat) : nat * nat :=
  match n, s with
  | S n', a :: s' =>
      let '(l, c) := position_of s' n' in
      if Ascii.eqb a newline then (S l, c)
      else match l with
           | O => (O, S c)
           | S _ => (l, c)
           end
  | _, _ => (O, O)
  end.

Definition index_of_offset (s : list ascii) (n : nat) : index :=
  let '(l, c) := position_of s n in mkIndex (S l) c.

(** Offset of character [c] of line [l] (from 0); a character past the
    end of its line is the line's newline, a line past the last one is
    the end of the buffer. *)
Fixpoint offset_of (s : list ascii) (l c : nat) : nat :=
  match s with
  | [] => O
  | a :: s' =>
      match l with
      | S l' =>
          if Ascii.eqb a newline then S (offset_of s' l' c)
          else S (offset_of s' l c)
      | O =>
          match c with
          | O => O
          | S c' => if Ascii.eqb a newline then O else S (offset_of s' O c')
          end
      end
  end.

Definition offset_of_index (s : list ascii) (i : index) : nat :=
  match i_line i with
  | O => O
  | S l => offset_of s l (i_char i)
  end.

(** *** Tags *)

(** Maximal runs of tagged characters, as offset pairs [(start, end)];
    [pos] is the offset of the head of [cov], [run] the start of the run
    that is open at [pos]. *)
Fixpoint runs (cov : list bool) (pos : nat) (run : option nat)
  : list (nat * nat) :=
  match cov with
  | [] =>
      match run with
      | Some s => [(s, pos)]
      | None => []
      end
  | true :: t =>
      match run with
      | Some s => runs t (S pos) (Some s)
      | None => runs t (S pos) (Some pos)
      end
  | false :: t =>
      match run with
      | Some s => (s, pos) :: runs t (S pos) None
      | None => runs t (S pos) None
      end
  end.

(** Tag every character from offset [s] up to offset [e]; [pos] is the
    offset of the head of [cov]. *)
Fixpoint mark (pos s e : nat) (cov : list bool) : list bool :=
  match cov with
  | [] => []
  | b :: t => (b || (Nat.leb s pos && Nat.ltb pos e)) :: mark (S pos) s e t
  end.

Definition blank_tag (n : nat) : tag_info :=
  mkTag None "" "" (repeat false n) false.

Fixpoint tag_find (tag : string) (tags : tag_table) : option tag_info :=
  match tags with
  | [] => None
  | (name, info) :: t =>
      if String.eqb tag name then Some info else tag_find tag t
  end.

(** Change a tag in place; a tag that does not exist yet is created
    blank, above all others, and then changed. *)
Fixpoint tag_update (n : nat) (tag : string) (f : tag_info -> tag_info)
  (tags : tag_table) : tag_table :=
  match tags with
  | [] => [(tag, f (blank_tag n))]
  | (name, info) :: t =>
      if String.eqb tag name then (name, f info) :: t
      else (name, info) :: tag_update n tag f t
  end.

Definition buffer_length (w : widget) : nat :=
  List.length (buffer (text_chars w)).

(** The tag gets the font of a [tkfont.Font] object that is alive. *)
Definition set_t_font (f : font) (t : tag_info) : tag_info :=
  mkTag (Some f) (t_foreground t) (t_background t) (t_cover t) true.

Definition set_t_foreground (c : string) (t : tag_info) : tag_info :=
  mkTag (t_font t) c (t_background t) (t_cover t) (t_font_alive t).


Definition set_t_cover (cov : list bool) (t : tag_info) : tag_info :=
  mkTag (t_font t) (t_foreground t) (t_background t) cov (t_font_alive t).

(** The [tkfont.Font] object behind the font of the tag is collected. *)
Definition drop_font (t : tag_info) : tag_info :=
  mkTag (t_font t) (t_foreground t) (t_background t) (t_cover t) false.

Fixpoint release_font (tag : string) (tags : tag_table) : tag_table :=
  match tags with
  | [] => []
  | (name, info) :: t =>
      if String.eqb tag name then (name, drop_font info) :: t
      else (name, info) :: release_font tag t
  end.

(** [self.text.tag_configure(tag, font=f)] and its siblings *)
Definition tag_configure (tag : string) (f : tag_info -> tag_info) : M unit :=
  modify (fun w =>
            set_text_tags (tag_update (buffer_length w) tag f (text_tags w)) w).

(** [self.text.tag_add(tag, start, end)] *)
Definition tag_add (tag : string) (i1 i2 : index) : M unit :=
  modify (fun w =>
            let s := offset_of_index (buffer (text_chars w)) i1 in
            let e := offset_of_index (buffer (text_chars w)) i2 in
            set_text_tags
              (tag_update (buffer_length w) tag
                 (fun t => set_t_cover (mark 0 s e (t_cover t)) t)
                 (text_tags w)) w).

(** [self.text.tag_names()] *)
Definition tag_names (w : widget) : list string := map fst (text_tags w).

(** [self.text.tag_ranges(tag)], as pairs of indices *)
Definition tag_ranges (w : widget) (tag : string) : list (index * index) :=
  match tag_find tag (text_tags w) with
  | Some info =>
      map (fun se => (index_of_offset (buffer (text_chars w)) (fst se),
                      index_of_offset (buffer (text_chars w)) (snd se)))
        (runs (t_cover info) 0 None)
  | None => []
  end.

(** A local variable that holds the [tkfont.Font] object of the tag
    [held] goes out of scope or is bound to another object: the object
    is collected. *)
Definition font_collected (held : option string) : M unit :=
  match held with
  | Some tag =>
      modify (fun w => set_text_tags (release_font tag (text_tags w)) w)
  | None => ret tt
  end.

(** [self.text.tag_cget(tag, option)]; an option that is not set reads as
    the empty string, here [None] for the font. *)
Definition tag_cget_font (w : widget) (tag : string) : option font :=
  match tag_find tag (text_tags w) with
  | Some info => t_font info
  | None => None
  end.

(** [tkfont.Font(name=font_name, exists=True)] for the font of a tag:
    it raises [TclError] when [font names] does not list the name. *)
Definition font_of_tag (w : widget) (tag : string) (f : font) : result font :=
  match tag_find tag (text_tags w) with
  | Some info => if t_font_alive info then Ok f else Err TclError
  | None => Err TclError
  end.

Definition tag_cget_foreground (w : widget) (tag : string) : string :=
  match tag_find tag (text_tags w) with
  | Some info => t_foreground info
  | None => ""
  end.

Definition tag_cget_background (w : widget) (tag : string) : string :=
  match tag_find tag (text_tags w) with
  | Some info => t_background info
  | None => ""
  end.

(** [self.text.index("sel.first")] and [self.text.index("sel.last")]
    raise [TclError] when nothing is selected. *)
Definition index_sel_first : M index :=
  fun w =>
    match tag_ranges w "sel" with
    | [] => (w, Err TclError)
    | (s, _) :: _ => (w, Ok s)
    end.

Definition index_sel_last : M index :=
  fun w =>
    match rev (tag_ranges w "sel") with
    | [] => (w, Err TclError)
    | (_, e) :: _ => (w, Ok e)
    end.

(** [_get_selection]: [(start, end)], or [(None, None)] rendered as
    [None]. *)
Definition _get_selection : M (option (index * index)) :=
  try_except
    (start <-- index_sel_first ;;
     end_ <-- index_sel_last ;;
     ret (Some (start, end_)))
    (fun e =>
       match e with
       | TclError => ret None
       | _ => raise e
       end).

(** *** Capturing and restoring tags *)

(** The [cfg] dict of a captured tag: each key is present or absent. *)
Record tag_config : Type := mkConfig {
  cfg_font : option font;
  cfg_foreground : option string;
  cfg_background : option string
}.

(** [{"config": cfg, "ranges": ranges}] *)
Record tag_entry : Type := mkEntry {
  e_config : tag_config;
  e_ranges : list (index * index)
}.

(** The dict [tags]: tag name to entry, in insertion order. *)
Definition tag_map : Type := list (string * tag_entry).

(** [tags[tag] = entry] *)
Fixpoint tag_map_set (tag : string) (entry : tag_entry) (tags : tag_map)
  : tag_map :=
  match tags with
  | [] => [(tag, entry)]
  | (name, old) :: t =>
      if String.eqb tag name then (name, entry) :: t
      else (name, old) :: tag_map_set tag entry t
  end.

(** [_font_to_dict]: the six options of the font, each under its key. *)
Definition _font_to_dict (f : font) : font :=
  mkFont (f_family f) (f_size f) (f_weight f) (f_slant f)
         (f_underline f) (f_overstrike f).


(** A colour option that is set reads as a non-empty string. *)
Definition option_of_color (c : string) : option string :=
  if String.eqb c "" then None else Some c.

Definition config_is_empty (cfg : tag_config) : bool :=
  match cfg_font cfg, cfg_foreground cfg, cfg_background cfg with
  | None, None, None => true
  | _, _, _ => false
  end.

Definition ranges_is_empty (r : list (index * index)) : bool :=
  match r with
  | [] => true
  | _ :: _ => false
  end.

(** [cfg or ranges] *)
Definition entry_nonempty (entry : tag_entry) : bool :=
  negb (config_is_empty (e_config entry))
  || negb (ranges_is_empty (e_ranges entry)).

(** Body of the loop of [_capture_tags] for one tag.  The font is
    looked up inside [try ... except: pass]. *)
Definition capture_tag (w : widget) (tag : string) : tag_entry :=
  mkEntry
    (mkConfig
       (match tag_cget_font w tag with
        | Some name =>
            match font_of_tag w tag name with
            | Ok f => Some (_font_to_dict f)
            | Err _ => None
            end
        | None => None
        end)
       (option_of_color (tag_cget_foreground w tag))
       (option_of_color (tag_cget_background w tag)))
    (tag_ranges w tag).

Fixpoint capture_loop (w : widget) (names : list string) (tags : tag_map)
  : tag_map :=
  match names with
  | [] => tags
  | tag :: rest =>
      if String.eqb tag "sel" then capture_loop w rest tags
      else
        let entry := capture_tag w tag in
        if entry_nonempty entry
        then capture_loop w rest (tag_map_set tag entry tags)
        else capture_loop w rest tags
  end.

Definition _capture_tags (w : widget) : tag_map :=
  capture_loop w (tag_names w) [].






(** The tag-to-ranges part of a captured mapping. *)
Definition ranges_of (tags : tag_map) : list (string * list (index * index)) :=
  map (fun te => (fst te, e_ranges (snd te))) tags.

(** *** Saving *)

Definition font_to_json (f : font) : json :=
  JObj [ ("family", JStr (f_family f));
         ("size", JInt (f_size f));
         ("weight", JStr (f_weight f));
         ("slant", JStr (f_slant f));
         ("underline", JInt (f_underline f));
         ("overstrike", JInt (f_overstrike f)) ].

Definition config_to_json (cfg : tag_config) : json :=
  JObj ((match cfg_font cfg with
         | Some f => [("font", font_to_json f)]
         | None => []
         end ++
         match cfg_foreground cfg with
         | Some c => [("foreground", JStr c)]
         | None => []
         end ++
         match cfg_background cfg with
         | Some c => [("background", JStr c)]
         | None => []
         end)%list).

Definition entry_to_json (e : tag_entry) : json :=
  JObj [ ("config", config_to_json (e_config e));
         ("ranges",
          JList (map (fun se => JList [ JStr (index_to_string (fst se));
                                        JStr (index_to_string (snd se)) ])
                   (e_ranges e))) ].

Definition tags_to_json (tags : tag_map) : json :=
  JObj (map (fun te => (fst te, entry_to_json (snd te))) tags).

(** [st[k] = v] *)
Definition set_item (k : string) (v : json) (st : json) : result json :=
  match st with
  | JObj d => Ok (JObj (dict_set k v d))
  | _ => Err TypeError
  end.

(** [st[k1][k2] = v] *)
Definition set_item2 (k1 k2 : string) (v : json) (st : json) : result json :=
  match st with
  | JObj d =>
      match dict_get k1 d with
      | Some (JObj d1) => Ok (JObj (dict_set k1 (JObj (dict_set k2 v d1)) d))
      | Some _ => Err TypeError
      | None => Err KeyError
      end
  | _ => Err TypeError
  end.

(** [self.state[k] = v] *)
Definition state_set (k : string) (v : json) : M unit :=
  fun w =>
    match set_item k v (state w) with
    | Ok s => (set_state s w, Ok tt)
    | Err e => (w, Err e)
    end.

(** [self.state[k1][k2] = v] *)
Definition state_set2 (k1 k2 : string) (v : json) : M unit :=
  fun w =>
    match set_item2 k1 k2 v (state w) with
    | Ok s => (set_state s w, Ok tt)
    | Err e => (w, Err e)
    end.

(** [save_state(STATE_FILE, self.state)] *)
Definition save_state_file : M unit :=
  fun w =>
    match save_state (files w) STATE_FILE (state w) with
    | (fs, r) => (set_files fs w, r)
    end.

Definition save_all : M unit :=
  txt <-- gets text_chars ;;
  state_set2 "content" "text" (JStr txt) ;;;
  tags <-- gets _capture_tags ;;
  state_set2 "content" "tags" (tags_to_json tags) ;;;
  bg <-- gets container_bg ;;
  state_set2 "colors" "background" (JStr bg) ;;;
  fg <-- gets text_fg ;;
  state_set2 "colors" "text" (JStr fg) ;;;
  accent <-- gets text_insertbackground ;;
  state_set2 "colors" "accent" (JStr accent) ;;;
  border <-- gets root_bg ;;
  state_set2 "colors" "border" (JStr border) ;;;
  bv <-- gets border_var ;;
  thickness <-- intvar_get bv ;;
  state_set "border_thickness" (JInt thickness) ;;;
  alpha <-- gets alpha_var ;;
  state_set "alpha" (JFloat alpha) ;;;
  top <-- gets root_topmost ;;
  state_set "always_on_top" (JBool top) ;;;
  bf <-- gets base_font ;;
  state_set2 "base_font" "family" (JStr (f_family bf)) ;;;
  state_set2 "base_font" "size" (JInt (f_size bf)) ;;;
  state_set2 "base_font" "weight" (JStr (f_weight bf)) ;;;
  state_set2 "base_font" "slant" (JStr (f_slant bf)) ;;;
  g <-- gets root_geometry ;;
  try_except (state_set "geometry" (JStr (geometry_to_string g)))
    (fun _ => ret tt) ;;;
  save_state_file.

(** *** Style actions on the selection

    [apply_bold] and [apply_size] keep the font object they make in a
    local variable.  It is alive while [save_all] runs and is collected
    when the action returns; when the action raises, the traceback
    keeps the local variables, and the font with them, alive. *)

Definition set_f_weight (weight : string) (f : font) : font :=
  mkFont (f_family f) (f_size f) weight (f_slant f)
         (f_underline f) (f_overstrike f).

Definition set_f_size (size : Z) (f : font) : font :=
  mkFont (f_family f) size (f_weight f) (f_slant f)
         (f_underline f) (f_overstrike f).

Definition set_f_family_size (family : string) (size : Z) (f : font) : font :=
  mkFont family size (f_weight f) (f_slant f)
         (f_underline f) (f_overstrike f).

Definition show (d : dialog) : M unit :=
  modify (fun w => set_dialogs (dialogs w ++ [d])%list w).

Definition apply_bold : M unit :=
  sel <-- _get_selection ;;
  match sel with
  | None => ret tt
  | Some (start, end_) =>
      b <-- gets base_font ;;
      tag_configure "bold" (set_t_font (set_f_weight "bold" b)) ;;;
      tag_add "bold" start end_ ;;;
      save_all ;;;
      font_collected (Some "bold")
  end.

Definition apply_size (delta : Z) : M unit :=
  sel <-- _get_selection ;;
  match sel with
  | None => ret tt
  | Some (start, end_) =>
      base <-- gets base_font ;;
      let new_size := clamp (f_size base + delta) 8 96 in
      let tag_name := "size_" ++ string_of_Z new_size in
      tag_configure tag_name (set_t_font (set_f_size new_size base)) ;;;
      tag_add tag_name start end_ ;;;
      save_all ;;;
      font_collected (Some tag_name)
  end.

(** [answer] is what the colour chooser returns as its second component:
    the colour picked, or [None] when the user cancels. *)
Definition apply_color (answer : option string) : M unit :=
  sel <-- _get_selection ;;
  match sel with
  | None => ret tt
  | Some (start, end_) =>
      show (AskColor "Pick text color") ;;;
      match answer with
      | None => ret tt
      | Some color =>
          if String.eqb color "" then ret tt
          else
            let tag_name := "color_" ++ color in
            tag_configure tag_name (set_t_foreground color) ;;;
            tag_add tag_name start end_ ;;;
            save_all
      end
  end.

(** *** Fonts *)

Definition on_base_font_change : M unit :=
  fam <-- gets base_font_var ;;
  sv <-- gets base_size_var ;;
  raw <-- intvar_get sv ;;
  let size := clamp (safe_int (Some raw) 16) 8 96 in
  modify (fun w => set_base_font (set_f_family_size fam size (base_font w)) w) ;;;
  state_set2 "base_font" "family" (JStr fam) ;;;
  state_set2 "base_font" "size" (JInt size) ;;;
  save_all.

Fixpoint string_mem (s : string) (l : list string) : bool :=
  match l with
  | [] => false
  | x :: t => if String.eqb s x then true else string_mem s t
  end.

Fixpoint insert_sorted (s : string) (l : list string) : list string :=
  match l with
  | [] => [s]
  | x :: t => if String.leb s x then s :: l else x :: insert_sorted s t
  end.

(** [list.sort()] on strings *)
Definition sort_strings (l : list string) : list string :=
  fold_right insert_sorted [] l.

(** [tkfont.Font(file=path)]: tkinter turns the keyword into the option
    [-file] of Tk's [font create], which has no such option, so the
    call raises [TclError] whatever the file holds. *)
Definition font_create_file (path : string) : result font := Err TclError.

(** [answer] is what the file chooser returns: the path picked, or the
    empty string when the user cancels. *)
Definition load_ttf (answer : string) : M unit :=
  show (AskOpenFilename "Load a .ttf font") ;;;
  if String.eqb answer "" then ret tt
  else
    try_except
      (tmp <-- lift (font_create_file answer) ;;
       let fam := f_family tmp in
       known <-- gets font_families ;;
       (if string_mem fam known then ret tt
        else
          let sorted := sort_strings (known ++ [fam])%list in
          modify (set_font_families sorted) ;;;
          modify (set_font_combo_values sorted)) ;;;
       modify (set_base_font_var fam) ;;;
       on_base_font_change)
      (fun e => show (ShowError "Font load failed" e)).

(** *** Resize *)

Definition _start_resize (e : event) : M unit :=
  modify (fun w => set_start_w (g_width (root_geometry w)) w) ;;;
  modify (fun w => set_start_h (g_height (root_geometry w)) w) ;;;
  modify (set_start_rx (x_root e)) ;;;
  modify (set_start_ry (y_root e)).

(** The [w] and [h] that [_do_resize] computes. *)
Definition resize_size (w : widget) (e : event) : Z * Z :=
  let dx := x_root e - start_rx w in
  let dy := y_root e - start_ry w in
  (clamp (start_w w + dx) 320 1600, clamp (start_h w + dy) 180 1200).

Definition _do_resize (e : event) : M unit :=
  modify (fun w =>
            let '(width, height) := resize_size w e in
            set_root_geometry
              (mkGeometry width height
                 (g_x (root_geometry w)) (g_y (root_geometry w))) w).

(** *** A sample widget

    The text "Hello" with "He" in bold and nothing selected, over the
    default document.  No handler is running, so the font object that
    made the bold font has been collected. *)

Definition sample_font : font :=
  mkFont "Segoe UI" 16 "normal" "roman" 0 0.

Definition sample_widget : widget :=
  mkWidget DEFAULTS sample_files "Hello"
    [ ("sel", blank_tag 6);
      ("bold", mkTag (Some (set_f_weight "bold" sample_font)) "" ""
                 [true; true; false; false; false; false] false) ]
    "#FFFFFF" "#FFD700" sample_font "Segoe UI" (Ok 16)
    ["Arial"; "Segoe UI"] ["Arial"; "Segoe UI"] (Ok 2) 1.0%float
    "#0A1F44" "#222222" true (mkGeometry 600 320 100 100)
    600 320 0 0 [].

(** *** Auxiliary notions for the tag lemmas *)



Fixpoint distinct (l : list string) : bool :=
  match l with
  | [] => true
  | x :: t => negb (string_mem x t) && distinct t
  end.

(** Tag names are pairwise distinct and every tag records one flag per
    character of a buffer of [n] characters. *)
Definition wf_tags (n : nat) (tags : tag_table) : bool :=
  distinct (map fst tags) &&
  forallb (fun ti => Nat.eqb (List.length (t_cover (snd ti))) n) tags.

Definition wf_widget (w : widget) : bool :=
  wf_tags (buffer_length w) (text_tags w).

(** What [_capture_tags] records for a tag with options and cover
    [info] in the buffer [buf]. *)
Definition info_entry (buf : list ascii) (info : tag_info) : tag_entry :=
  mkEntry
    (mkConfig
       (match t_font info with
        | Some f => if t_font_alive info then Some (_font_to_dict f) else None
        | None => None
        end)
       (option_of_color (t_foreground info))
       (option_of_color (t_background info)))
    (map (fun se => (index_of_offset buf (fst se), index_of_offset buf (snd se)))
       (runs (t_cover info) 0 None)).

(** The tags that [_capture_tags] records: all but the selection, and
    only those with some option set or some range. *)
Definition kept (buf : list ascii) (ti : string * tag_info) : bool :=
  negb (String.eqb (fst ti) "sel") &&
  entry_nonempty (info_entry buf (snd ti)).

Definition captured (buf : list ascii) (tags : tag_table) : tag_map :=
  map (fun ti => (fst ti, info_entry buf (snd ti))) (filter (kept buf) tags).














(** The sample widget with all of "Hello" selected and no bold yet. *)
Definition sample_selected : widget :=
  set_text_tags
    [ ("sel", mkTag None "" "" [true; true; true; true; true; false] false) ]
    sample_widget.

(** ** Notions used by the further properties *)

(** The three sections of the state that [save_all] subscripts twice. *)
Definition section_key (k : string) : bool :=
  String.eqb k "content" || String.eqb k "colors" || String.eqb k "base_font".

(** [d[k]] is a dict. *)
Definition dict_at (k : string) (d : dict) : bool :=
  match dict_get k d with
  | Some (JObj _) => true
  | _ => false
  end.

(** The state is a dict in which "content", "colors" and "base_font" are
    dicts, as [_apply_defaults] leaves it. *)
Definition state_shape (st : json) : bool :=
  match st with
  | JObj d => dict_at "content" d && dict_at "colors" d && dict_at "base_font" d
  | _ => false
  end.

(** [st[k]] is a dict. *)
Definition sect (k : string) (st : json) : bool :=
  match st with
  | JObj d => dict_at k d
  | _ => false
  end.

(** What [save_all] needs to return: a state of that shape, a number in
    the border box and a state file that can be written. *)
Definition can_save (w : widget) : bool :=
  state_shape (state w)
  && match border_var w with Ok _ => true | Err _ => false end
  && writable (files w) STATE_FILE.

(** The handler returns: it raises nothing. *)
Definition returns {A : Type} (c : M A) (w : widget) : bool :=
  match snd (c w) with
  | Ok _ => true
  | Err _ => false
  end.

(** The handler returns only from a widget on which [P] holds. *)
Definition needs {A : Type} (P : widget -> bool) (c : M A) : Prop :=
  forall w, returns c w = true -> P w = true.

(** Only [self.state] and the file system differ between [w] and [w']. *)
Definition same_widgets (w w' : widget) : Prop :=
  exists st fs, w' = set_files fs (set_state st w).

(** A handler that changes nothing but [self.state] and the file
    system, whatever its outcome. *)
Definition frames {A : Type} (c : M A) : Prop :=
  forall w, same_widgets w (fst (c w)).

(** [c], run on [w] with a state and a file system that satisfy [P],
    has the outcome [r], changes nothing but the state and the file
    system, and leaves them satisfying [Q]. *)
Definition runs_to (P : json -> store -> Prop) (c : M unit)
  (r : result unit) (Q : json -> store -> Prop) (w : widget) : Prop :=
  P (state w) (files w) ->
  exists st' fs',
    c w = (set_files fs' (set_state st' w), r) /\ Q st' fs'.

(** The state holds each of the listed values at its path. *)
Fixpoint holds (facts : list (list string * json)) (st : json) : Prop :=
  match facts with
  | [] => True
  | (p, v) :: rest => get_path p st = Some v /\ holds rest st
  end.

(** The path [p], of one or two keys, is not written by [st[k] = v]. *)
Definition apart1 (k : string) (p : list string) : bool :=
  match p with
  | [a] | [a; _] => negb (String.eqb a k)
  | _ => false
  end.

(** The path [p], of one or two keys, is not written by
    [st[k1][k2] = v]. *)
Definition apart2 (k1 k2 : string) (p : list string) : bool :=
  match p with
  | [a] => negb (String.eqb a k1)
  | [a; b] => negb (String.eqb a k1 && String.eqb b k2)
  | _ => false
  end.

(** What [save_all] needs of the state and what it keeps while it
    writes into it: the shape, the well-formedness when the state had it
    at the start ([wf0]), the file system, and the values written so
    far. *)
Definition saving (wf0 : bool) (fs : store)
  (facts : list (list string * json)) (st : json) (fs' : store) : Prop :=
  state_shape st = true /\
  (wf0 = true -> wf_json st = true) /\
  fs' = fs /\
  holds facts st.

(** The values [save_all] writes into the state, last written first;
    [thickness] is what the border variable holds. *)
Definition saved_fields (w : widget) (thickness : Z)
  : list (list string * json) :=
  [ (["geometry"], JStr (geometry_to_string (root_geometry w)));
    (["base_font"; "slant"], JStr (f_slant (base_font w)));
    (["base_font"; "weight"], JStr (f_weight (base_font w)));
    (["base_font"; "size"], JInt (f_size (base_font w)));
    (["base_font"; "family"], JStr (f_family (base_font w)));
    (["always_on_top"], JBool (root_topmost w));
    (["alpha"], JFloat (alpha_var w));
    (["border_thickness"], JInt thickness);
    (["colors"; "border"], JStr (root_bg w));
    (["colors"; "accent"], JStr (text_insertbackground w));
    (["colors"; "text"], JStr (text_fg w));
    (["colors"; "background"], JStr (container_bg w));
    (["content"; "tags"], tags_to_json (_capture_tags w));
    (["content"; "text"], JStr (text_chars w)) ].

(** The sample widget with a border box that holds no integer. *)
Definition sample_bad_border : widget :=
  mkWidget DEFAULTS sample_files "Hello"
    [ ("sel", blank_tag 6) ]
    "#FFFFFF" "#FFD700" sample_font "Segoe UI" (Ok 16)
    ["Arial"; "Segoe UI"] ["Arial"; "Segoe UI"] (Err TclError) 1.0%float
    "#0A1F44" "#222222" true (mkGeometry 600 320 100 100)
    600 320 0 0 [].

(** Which characters are selected: the cover of the tag "sel". *)
Definition sel_cover (w : widget) : list bool :=
  match tag_find "sel" (text_tags w) with
  | Some info => t_cover info
  | None => []
  end.

(** The offsets of "sel.first" and "sel.last", when something is
    selected. *)
Definition selection_span (w : widget) : option (nat * nat) :=
  match runs (sel_cover w) 0 None with
  | [] => None
  | (a, e) :: rest => Some (a, snd (last rest (a, e)))
  end.

(** The character at offset [i] carries the tag [tag]. *)
Definition tag_covers (w : widget) (tag : string) (i : nat) : bool :=
  match tag_find tag (text_tags w) with
  | Some info => nth i (t_cover info) false
  | None => false
  end.

(** The sample widget with "ell" selected. *)
Definition sample_ell : widget :=
  set_text_tags
    [ ("sel", mkTag None "" "" [false; true; true; true; false; false] false);
      ("bold", mkTag (Some (set_f_weight "bold" sample_font)) "" ""
                 [true; true; false; false; false; false] false) ]
    sample_widget.

(** The tag table after a style action: the tag [tag] is configured by
    [f] and takes the characters from offset [a] up to offset [b]. *)
Definition style_tags (n : nat) (tag : string) (f : tag_info -> tag_info)
  (a b : nat) (tags : tag_table) : tag_table :=
  tag_update n tag
    (fun t => set_t_cover (mark 0 a b (t_cover (f t))) (f t)) tags.

(** The configuration [f] of a tag whose font object is collected when
    the action returns, which it does when [b] holds. *)
Definition collected_if (b : bool) (f : tag_info -> tag_info)
  (t : tag_info) : tag_info :=
  if b then drop_font (f t) else f t.

(** A handler that leaves the component [proj] of the widget as it was,
    whatever its outcome. *)
Definition keeps {A B : Type} (proj : widget -> B) (c : M A) : Prop :=
  forall w, proj (fst (c w)) = proj w.

(** Handlers run one after the other, as the event loop dispatches
    them; the first exception ends the run. *)
Fixpoint do_all (cs : list (M unit)) : M unit :=
  match cs with
  | [] => ret tt
  | c :: rest => c ;;; do_all rest
  end.

(** [_on_configure] *)
Definition _on_configure : M unit :=
  try_except
    (g <-- gets root_geometry ;;
     state_set "geometry" (JStr (geometry_to_string g)) ;;;
     save_state_file)
    (fun _ => ret tt).


(** ** The rest of the window

    The handlers below also touch what the widget record leaves out:
    the drag offsets, the window's opacity and visibility, the pin
    button, the packing of the container and the backgrounds of the
    other panels. *)

Definition set_text_fg (v : string) (w : widget) : widget :=
  mkWidget (state w) (files w) (text_chars w) (text_tags w) v
    (text_insertbackground w) (base_font w) (base_font_var w)
    (base_size_var w) (font_families w) (font_combo_values w) (border_var w)
    (alpha_var w) (container_bg w) (root_bg w) (root_topmost w)
    (root_geometry w) (start_w w) (start_h w) (start_rx w) (start_ry w)
    (dialogs w).

Definition set_text_insertbackground (v : string) (w : widget) : widget :=
  mkWidget (state w) (files w) (text_chars w) (text_tags w) (text_fg w)
    v (base_font w) (base_font_var w)
    (base_size_var w) (font_families w) (font_combo_values w) (border_var w)
    (alpha_var w) (container_bg w) (root_bg w) (root_topmost w)
    (root_geometry w) (start_w w) (start_h w) (start_rx w) (start_ry w)
    (dialogs w).

Definition set_container_bg (v : string) (w : widget) : widget :=
  mkWidget (state w) (files w) (text_chars w) (text_tags w) (text_fg w)
    (text_insertbackground w) (base_font w) (base_font_var w)
    (base_size_var w) (font_families w) (font_combo_values w) (border_var w)
    (alpha_var w) v (root_bg w) (root_topmost w)
    (root_geometry w) (start_w w) (start_h w) (start_rx w) (start_ry w)
    (dialogs w).

Definition set_root_bg (v : string) (w : widget) : widget :=
  mkWidget (state w) (files w) (text_chars w) (text_tags w) (text_fg w)
    (text_insertbackground w) (base_font w) (base_font_var w)
    (base_size_var w) (font_families w) (font_combo_values w) (border_var w)
    (alpha_var w) (container_bg w) v (root_topmost w)
    (root_geometry w) (start_w w) (start_h w) (start_rx w) (start_ry w)
    (dialogs w).

Definition set_root_topmost (v : bool) (w : widget) : widget :=
  mkWidget (state w) (files w) (text_chars w) (text_tags w) (text_fg w)
    (text_insertbackground w) (base_font w) (base_font_var w)
    (base_size_var w) (font_families w) (font_combo_values w) (border_var w)
    (alpha_var w) (container_bg w) (root_bg w) v
    (root_geometry w) (start_w w) (start_h w) (start_rx w) (start_ry w)
    (dialogs w).

(** The whole application object: the widget record and the rest.
    [container_packed] tells whether the container is managed by
    [pack]; [container_pad] is its [padx], which is also its [pady]. *)
Record motivation_widget : Type := mkApp {
  core : widget;
  drag_offx : Z;                        (* self._drag_offx *)
  drag_offy : Z;                        (* self._drag_offy *)
  root_alpha : float;                   (* the opacity asked of the window *)
  root_shown : bool;                    (* false once withdrawn *)
  root_alive : bool;                    (* false once destroyed *)
  pin_btn_text : string;                (* self.pin_btn["text"] *)
  container_packed : bool;
  container_pad : Z;
  titlebar_bg : string;                 (* self.titlebar["bg"] *)
  toolbar_bg : string;                  (* self.toolbar["bg"] *)
  title_label_bg : string;              (* self.title_label["bg"] *)
  close_btn_bg : string;                (* self.close_btn["bg"] *)
  min_btn_bg : string;                  (* self.min_btn["bg"] *)
  resize_grip_bg : string;              (* self.resize_grip["bg"] *)
  text_bg : string                      (* self.text["bg"] *)
}.

Definition set_core (v : widget) (a : motivation_widget)
  : motivation_widget :=
  mkApp v (drag_offx a) (drag_offy a) (root_alpha a) (root_shown a)
    (root_alive a) (pin_btn_text a) (container_packed a) (container_pad a)
    (titlebar_bg a) (toolbar_bg a) (title_label_bg a) (close_btn_bg a)
    (min_btn_bg a) (resize_grip_bg a) (text_bg a).

Definition set_drag_offx (v : Z) (a : motivation_widget)
  : motivation_widget :=
  mkApp (core a) v (drag_offy a) (root_alpha a) (root_shown a)
    (root_alive a) (pin_btn_text a) (container_packed a) (container_pad a)
    (titlebar_bg a) (toolbar_bg a) (title_label_bg a) (close_btn_bg a)
    (min_btn_bg a) (resize_grip_bg a) (text_bg a).

Definition set_drag_offy (v : Z) (a : motivation_widget)
  : motivation_widget :=
  mkApp (core a) (drag_offx a) v (root_alpha a) (root_shown a)
    (root_alive a) (pin_btn_text a) (container_packed a) (container_pad a)
    (titlebar_bg a) (toolbar_bg a) (title_label_bg a) (close_btn_bg a)
    (min_btn_bg a) (resize_grip_bg a) (text_bg a).

Definition set_root_alpha (v : float) (a : motivation_widget)
  : motivation_widget :=
  mkApp (core a) (drag_offx a) (drag_offy a) v (root_shown a)
    (root_alive a) (pin_btn_text a) (container_packed a) (container_pad a)
    (titlebar_bg a) (toolbar_bg a) (title_label_bg a) (close_btn_bg a)
    (min_btn_bg a) (resize_grip_bg a) (text_bg a).

Definition set_root_shown (v : bool) (a : motivation_widget)
  : motivation_widget :=
  mkApp (core a) (drag_offx a) (drag_offy a) (root_alpha a) v
    (root_alive a) (pin_btn_text a) (container_packed a) (container_pad a)
    (titlebar_bg a) (toolbar_bg a) (title_label_bg a) (close_btn_bg a)
    (min_btn_bg a) (resize_grip_bg a) (text_bg a).

Definition set_root_alive (v : bool) (a : motivation_widget)
  : motivation_widget :=
  mkApp (core a) (drag_offx a) (drag_offy a) (root_alpha a) (root_shown a)
    v (pin_btn_text a) (container_packed a) (container_pad a)
    (titlebar_bg a) (toolbar_bg a) (title_label_bg a) (close_btn_bg a)
    (min_btn_bg a) (resize_grip_bg a) (text_bg a).

Definition set_pin_btn_text (v : string) (a : motivation_widget)
  : motivation_widget :=
  mkApp (core a) (drag_offx a) (drag_offy a) (root_alpha a) (root_shown a)
    (root_alive a) v (container_packed a) (container_pad a)
    (titlebar_bg a) (toolbar_bg a) (title_label_bg a) (close_btn_bg a)
    (min_btn_bg a) (resize_grip_bg a) (text_bg a).

Definition set_container_packed (v : bool) (a : motivation_widget)
  : motivation_widget :=
  mkApp (core a) (drag_offx a) (drag_offy a) (root_alpha a) (root_shown a)
    (root_alive a) (pin_btn_text a) v (container_pad a)
    (titlebar_bg a) (toolbar_bg a) (title_label_bg a) (close_btn_bg a)
    (min_btn_bg a) (resize_grip_bg a) (text_bg a).

Definition set_container_pad (v : Z) (a : motivation_widget)
  : motivation_widget :=
  mkApp (core a) (drag_offx a) (drag_offy a) (root_alpha a) (root_shown a)
    (root_alive a) (pin_btn_text a) (container_packed a) v
    (titlebar_bg a) (toolbar_bg a) (title_label_bg a) (close_btn_bg a)
    (min_btn_bg a) (resize_grip_bg a) (text_bg a).

Definition set_titlebar_bg (v : string) (a : motivation_widget)
  : motivation_widget :=
  mkApp (core a) (drag_offx a) (drag_offy a) (root_alpha a) (root_shown a)
    (root_alive a) (pin_btn_text a) (container_packed a) (container_pad a)
    v (toolbar_bg a) (title_label_bg a) (close_btn_bg a)
    (min_btn_bg a) (resize_grip_bg a) (text_bg a).

Definition set_toolbar_bg (v : string) (a : motivation_widget)
  : motivation_widget :=
  mkApp (core a) (drag_offx a) (drag_offy a) (root_alpha a) (root_shown a)
    (root_alive a) (pin_btn_text a) (container_packed a) (container_pad a)
    (titlebar_bg a) v (title_label_bg a) (close_btn_bg a)
    (min_btn_bg a) (resize_grip_bg a) (text_bg a).

Definition set_title_label_bg (v : string) (a : motivation_widget)
  : motivation_widget :=
  mkApp (core a) (drag_offx a) (drag_offy a) (root_alpha a) (root_shown a)
    (root_alive a) (pin_btn_text a) (container_packed a) (container_pad a)
    (titlebar_bg a) (toolbar_bg a) v (close_btn_bg a)
    (min_btn_bg a) (resize_grip_bg a) (text_bg a).

Definition set_close_btn_bg (v : string) (a : motivation_widget)
  : motivation_widget :=
  mkApp (core a) (drag_offx a) (drag_offy a) (root_alpha a) (root_shown a)
    (root_alive a) (pin_btn_text a) (container_packed a) (container_pad a)
    (titlebar_bg a) (toolbar_bg a) (title_label_bg a) v
    (min_btn_bg a) (resize_grip_bg a) (text_bg a).

Definition set_min_btn_bg (v : string) (a : motivation_widget)
  : motivation_widget :=
  mkApp (core a) (drag_offx a) (drag_offy a) (root_alpha a) (root_shown a)
    (root_alive a) (pin_btn_text a) (container_packed a) (container_pad a)
    (titlebar_bg a) (toolbar_bg a) (title_label_bg a) (close_btn_bg a)
    v (resize_grip_bg a) (text_bg a).

Definition set_resize_grip_bg (v : string) (a : motivation_widget)
  : motivation_widget :=
  mkApp (core a) (drag_offx a) (drag_offy a) (root_alpha a) (root_shown a)
    (root_alive a) (pin_btn_text a) (container_packed a) (container_pad a)
    (titlebar_bg a) (toolbar_bg a) (title_label_bg a) (close_btn_bg a)
    (min_btn_bg a) v (text_bg a).

Definition set_text_bg (v : string) (a : motivation_widget)
  : motivation_widget :=
  mkApp (core a) (drag_offx a) (drag_offy a) (root_alpha a) (root_shown a)
    (root_alive a) (pin_btn_text a) (container_packed a) (container_pad a)
    (titlebar_bg a) (toolbar_bg a) (title_label_bg a) (close_btn_bg a)
    (min_btn_bg a) (resize_grip_bg a) v.

(** Handlers on the whole application. *)
Definition MA (A : Type) : Type :=
  motivation_widget -> motivation_widget * result A.

Definition aret {A : Type} (x : A) : MA A := fun a => (a, Ok x).

Definition araise {A : Type} (e : exn) : MA A := fun a => (a, Err e).

Definition abind {A B : Type} (c : MA A) (k : A -> MA B) : MA B :=
  fun a =>
    match c a with
    | (a1, Ok x) => k x a1
    | (a1, Err e) => (a1, Err e)
    end.

Definition amodify (f : motivation_widget -> motivation_widget) : MA unit :=
  fun a => (f a, Ok tt).

(** A handler of the widget record, run inside the application. *)
Definition on_core {A : Type} (c : M A) : MA A :=
  fun a =>
    match c (core a) with
    | (w, r) => (set_core w a, r)
    end.

Notation "x <~~ c ;; k" := (abind c (fun x => k))
  (at level 61, c at next level, right associativity).
Notation "c ;;~ k" := (abind c (fun _ => k))
  (at level 61, right associativity).

(** *** Window movement *)

Definition _start_move (e : event) : MA unit :=
  amodify (fun a => set_drag_offx (x_root e - g_x (root_geometry (core a))) a) ;;~
  amodify (fun a => set_drag_offy (y_root e - g_y (root_geometry (core a))) a).

(** [self.root.geometry(f"+{x}+{y}")] moves the window and keeps its
    size. *)
Definition _do_move (e : event) : MA unit :=
  amodify (fun a =>
             let x := x_root e - drag_offx a in
             let y := y_root e - drag_offy a in
             let g := root_geometry (core a) in
             set_core
               (set_root_geometry (mkGeometry (g_width g) (g_height g) x y)
                  (core a)) a).

(** *** Colour, border, opacity, pin *)

(** [answer] is what the colour chooser returns as its second
    component. *)
Definition pick_color (which : string) (answer : option string) : MA unit :=
  on_core (show (AskColor ("Pick " ++ which ++ " color"))) ;;~
  match answer with
  | None => aret tt
  | Some color =>
      if String.eqb color "" then aret tt
      else
        on_core (state_set2 "colors" which (JStr color)) ;;~
        (if String.eqb which "background" then
           on_core (modify (set_container_bg color)) ;;~
           amodify (set_titlebar_bg color) ;;~
           amodify (set_toolbar_bg color) ;;~
           amodify (set_title_label_bg color) ;;~
           amodify (set_close_btn_bg color) ;;~
           amodify (set_min_btn_bg color) ;;~
           amodify (set_resize_grip_bg color) ;;~
           amodify (set_text_bg color)
         else if String.eqb which "text" then
           on_core (modify (set_text_fg color))
         else if String.eqb which "accent" then
           on_core (modify (set_text_insertbackground color))
         else if String.eqb which "border" then
           on_core (modify (set_root_bg color))
         else aret tt) ;;~
        on_core save_all
  end.

(** [self.border_var.get()] raises before [safe_int] is entered when the
    box holds no integer.  [pack] refuses a negative padding with a
    [TclError], after [pack_forget] has taken the container out. *)
Definition apply_border : MA unit :=
  bv <~~ on_core (gets border_var) ;;
  raw <~~ on_core (intvar_get bv) ;;
  let val := safe_int (Some raw) 2 in
  on_core (state_set "border_thickness" (JInt val)) ;;~
  amodify (set_container_packed false) ;;~
  (if val <? 0 then araise TclError
   else
     amodify (fun a => set_container_pad val (set_container_packed true a))) ;;~
  on_core save_all.

(** [self.root.attributes("-alpha", a)]: Tcl takes every number but
    NaN, for which it raises [TclError]. *)
Definition wm_alpha (a : float) : MA unit :=
  if PrimFloat.is_nan a then araise TclError
  else amodify (set_root_alpha a).

Definition on_alpha_change : MA unit :=
  alpha <~~ on_core (gets alpha_var) ;;
  on_core (state_set "alpha" (JFloat alpha)) ;;~
  wm_alpha alpha ;;~
  on_core save_all.

(** [bool(v)] *)
Definition py_bool (v : json) : bool :=
  match v with
  | JNull => false
  | JBool b => b
  | JInt z => negb (z =? 0)
  | JFloat f => negb (PrimFloat.eqb f 0)
  | JStr s => negb (String.eqb s "")
  | JList l => match l with [] => false | _ => true end
  | JObj o => match o with [] => false | _ => true end
  end.

(** [self.state[k]] *)
Definition state_item (k : string) : M json :=
  fun w =>
    (w, match state w with
        | JObj d => dict_item k d
        | _ => Err TypeError
        end).

Definition toggle_pin : MA unit :=
  cur <~~ on_core (state_item "always_on_top") ;;
  let new := negb (py_bool cur) in
  on_core (state_set "always_on_top" (JBool new)) ;;~
  on_core (modify (set_root_topmost new)) ;;~
  amodify (set_pin_btn_text (if new then "📌" else "📍")) ;;~
  on_core save_all.

(** *** The opacity at startup *)

(** [float(z)] for an integer: the nearest binary64 number, and
    [OverflowError] when that is out of range. *)
Definition float_of_Z (z : Z) : result float :=
  let f := SF2Prim (binary_normalize prec emax z 0 false) in
  if PrimFloat.is_infinity f then Err OverflowError else Ok f.

(** [float(v)] for a value of the state.  [fstr] is what [float] makes
    of a string: the number it spells, or [ValueError]. *)
Definition py_float (fstr : string -> result float) (v : json)
  : result float :=
  match v with
  | JFloat f => Ok f
  | JInt z => float_of_Z z
  | JBool b => Ok (if b then 1.0%float else 0.0%float)
  | JStr s => fstr s
  | JNull | JList _ | JObj _ => Err TypeError
  end.

(** The statements of [MotivationWidget.__init__] that read the
    opacity:
    [self.root.attributes("-alpha", float(self.state["alpha"]))],
    [self.alpha_var = tk.DoubleVar(value=float(self.state["alpha"]))]
    and the scale made on that variable, from 0.5 to 1.0.  The
    statements between them build the window and the toolbar.  [scale v]
    is what the scale leaves in a variable that holds [v] when it is
    made. *)
Definition init_alpha (fstr : string -> result float)
  (scale : float -> float) : MA unit :=
  v <~~ on_core (state_item "alpha") ;;
  a <~~ on_core (lift (py_float fstr v)) ;;
  wm_alpha a ;;~
  v' <~~ on_core (state_item "alpha") ;;
  a' <~~ on_core (lift (py_float fstr v')) ;;
  on_core (modify (set_alpha_var (scale a'))).

(** A Tk scale from [lo] to [hi] fits the value of its variable into
    its range when it is made, and writes it back.  It also rounds the
    value to its resolution, which is left out: [v] is a multiple of
    the resolution. *)
Definition scale_fit (lo hi v : float) : float :=
  if PrimFloat.ltb v lo then lo
  else if PrimFloat.ltb hi v then hi
  else v.

(** *** Minimize and close *)

Definition on_minimize : MA unit :=
  on_core save_all ;;~
  amodify (set_root_shown false).

Definition on_close : MA unit :=
  on_core save_all ;;~
  amodify (set_root_alive false).

(** The application around the sample widget, as [__init__] leaves it. *)
Definition sample_app : motivation_widget :=
  mkApp sample_widget 0 0 1.0%float true true "📌" true 2
    "#0A1F44" "#0A1F44" "#0A1F44" "#0A1F44" "#0A1F44" "#0A1F44" "#0A1F44".

(** A state file that holds the partial document, opacity 0.3. *)
Definition low_alpha_files : store :=
  put sample_files 0 (json_dump partial_doc).

(** The sample application with the state [st] and the files [fs]. *)
Definition sample_app_with (st : json) (fs : store) : motivation_widget :=
  set_core (set_files fs (set_state st sample_widget)) sample_app.

(** Application handlers run one after the other. *)
Fixpoint ado_all (cs : list (MA unit)) : MA unit :=
  match cs with
  | [] => aret tt
  | c :: rest => c ;;~ ado_all rest
  end.

(** The backgrounds of the eight panels that show the background
    colour. *)
Definition panel_backgrounds (a : motivation_widget) : list string :=
  [ container_bg (core a); titlebar_bg a; toolbar_bg a; title_label_bg a;
    close_btn_bg a; min_btn_bg a; resize_grip_bg a; text_bg a ].

(** The names under which the toolbar buttons call [pick_color]. *)
Definition color_names : list string :=
  [ "background"; "text"; "accent"; "border" ].

(** The widget option that shows the colour of that name. *)
Definition shown_color (which : string) (w : widget) : option string :=
  if String.eqb which "background" then Some (container_bg w)
  else if String.eqb which "text" then Some (text_fg w)
  else if String.eqb which "accent" then Some (text_insertbackground w)
  else if String.eqb which "border" then Some (root_bg w)
  else None.
(** * Properties *)

Lemma deep_merge_unfold (dst : json) (items : dict) :
  deep_merge dst (JObj items) = merge_items items dst.
Proof.
  reflexivity.
Qed.

Lemma wf_json_obj (o : dict) :
  wf_json (JObj o) = keys_distinct o && wf_values o.
Proof.
  reflexivity.
Qed.

Lemma wf_json_list (l : list json) : wf_json (JList l) = wf_list l.
Proof.
  reflexivity.
Qed.

(** C10: a loaded state that is not a JSON object is replaced by the empty
    document before merging, so the result is exactly the default
    document. *)
Theorem apply_defaults_non_object (state : json) :
  is_dict state = false -> _apply_defaults state = Ok DEFAULTS.
Proof.
  intros H. unfold _apply_defaults. rewrite H. reflexivity.
Qed.

Lemma apply_defaults_non_object_witness :
  is_dict (JList [JInt 1; JStr "x"]) = false /\
  _apply_defaults (JList [JInt 1; JStr "x"]) = Ok DEFAULTS.
Proof.
  split; [reflexivity|].
  apply (apply_defaults_non_object (JList [JInt 1; JStr "x"])). reflexivity.
Defined.

(** ** Association-list facts *)

Lemma dict_mem_get (k : string) (d : dict) :
  dict_mem k d = match dict_get k d with Some _ => true | None => false end.
Proof.
  induction d as [|[k' v] t IH]; simpl; [reflexivity|].
  destruct (String.eqb k k'); [reflexivity|exact IH].
Qed.

Lemma dict_get_set_same (k : string) (v : json) (d : dict) :
  dict_get k (dict_set k v d) = Some v.
Proof.
  induction d as [|[k' v'] t IH]; simpl.
  - rewrite String.eqb_refl. reflexivity.
  - destruct (String.eqb k k') eqn:E; simpl; rewrite E; [reflexivity|exact IH].
Qed.

Lemma dict_get_set_other (k k' : string) (v : json) (d : dict) :
  String.eqb k' k = false ->
  dict_get k' (dict_set k v d) = dict_get k' d.
Proof.
  intros Hne.
  induction d as [|[k0 v0] t IH]; simpl.
  - rewrite Hne. reflexivity.
  - destruct (String.eqb k k0) eqn:E; simpl.
    + apply String.eqb_eq in E. subst k0. rewrite Hne. reflexivity.
    + destruct (String.eqb k' k0); [reflexivity|exact IH].
Qed.

Lemma dict_get_setdefault_same (k : string) (v : json) (d : dict) :
  dict_get k (dict_setdefault k v d) = Some (dict_get_default k v d).
Proof.
  unfold dict_setdefault, dict_get_default.
  rewrite dict_mem_get.
  destruct (dict_get k d) eqn:E.
  - exact E.
  - apply dict_get_set_same.
Qed.

Lemma dict_get_setdefault_other (k k' : string) (v : json) (d : dict) :
  String.eqb k' k = false ->
  dict_get k' (dict_setdefault k v d) = dict_get k' d.
Proof.
  intros Hne. unfold dict_setdefault.
  destruct (dict_mem k d); [reflexivity|].
  apply dict_get_set_other. exact Hne.
Qed.

Lemma dict_set_absent (k : string) (v : json) (d : dict) :
  dict_mem k d = false -> dict_set k v d = (d ++ [(k, v)])%list.
Proof.
  induction d as [|[k' v'] t IH]; simpl; [reflexivity|].
  destruct (String.eqb k k'); [discriminate|].
  intros H. rewrite (IH H). reflexivity.
Qed.

Lemma dict_mem_app (k : string) (d1 d2 : dict) :
  dict_mem k (d1 ++ d2)%list = dict_mem k d1 || dict_mem k d2.
Proof.
  induction d1 as [|[k' v] t IH]; simpl; [reflexivity|].
  destruct (String.eqb k k'); [reflexivity|exact IH].
Qed.

Lemma get_path_leaf (p : list string) (v x : json) :
  is_dict v = false -> get_path p v = Some x -> p = [] /\ x = v.
Proof.
  destruct p as [|k p']; simpl.
  - intros _ H. injection H as <-. split; reflexivity.
  - destruct v; simpl; discriminate.
Qed.

Lemma dict_get_In (k : string) (v : json) (d : dict) :
  dict_get k d = Some v -> In (k, v) d.
Proof.
  induction d as [|[k' v'] t IH]; simpl; [discriminate|].
  destruct (String.eqb k k') eqn:E.
  - apply String.eqb_eq in E. subst k'. intros H. injection H as ->.
    left. reflexivity.
  - intros H. right. exact (IH H).
Qed.

Lemma wf_values_In (k : string) (v : json) (d : dict) :
  wf_values d = true -> In (k, v) d -> wf_json v = true.
Proof.
  induction d as [|[k' v'] t IH]; simpl; [intros _ []|].
  intros H [Heq|Hin]; apply andb_prop in H as [H1 H2].
  - injection Heq as _ <-. exact H1.
  - exact (IH H2 Hin).
Qed.

(** ** [deep_merge]: shape of the result *)

Lemma merge_items_obj (items d : dict) (r : json) :
  merge_items items (JObj d) = Ok r -> is_dict r = true.
Proof.
  revert d. induction items as [|[k v] rest IH]; intros d; simpl.
  - intros H. injection H as <-. reflexivity.
  - destruct (is_dict v).
    + destruct (deep_merge _ v); simpl; [apply IH|discriminate].
    + apply IH.
Qed.

Lemma deep_merge_non_dict (dst src r : json) :
  is_dict dst = false -> deep_merge dst src = Ok r -> r = dst /\ src = JObj [].
Proof.
  intros Hd. destruct src; simpl; try discriminate.
  destruct o as [|[k v] rest].
  - intros H. injection H as <-. split; reflexivity.
  - destruct dst; simpl in *; discriminate.
Qed.

(** ** [deep_merge] never overwrites what the document holds *)

Lemma preserved_refl (a : json) : preserved a a.
Proof.
  intros p v H. exists v. split; [exact H|].
  destruct (is_dict v); reflexivity.
Qed.

Lemma preserved_trans (a b c : json) :
  preserved a b -> preserved b c -> preserved a c.
Proof.
  intros Hab Hbc p v H.
  destruct (Hab p v H) as [v1 [H1 C1]].
  destruct (Hbc p v1 H1) as [v2 [H2 C2]].
  exists v2. split; [exact H2|].
  destruct (is_dict v) eqn:E.
  - rewrite C1 in C2. exact C2.
  - subst v1. rewrite E in C2. exact C2.
Qed.

Lemma preserved_set (k : string) (d : dict) (r1 : json) :
  preserved (dict_get_default k (JObj []) d) r1 ->
  preserved (JObj d) (JObj (dict_set k r1 d)).
Proof.
  intros Hx [|k0 p'] v; simpl.
  - intros H. injection H as <-. eexists. split; reflexivity.
  - destruct (String.eqb k0 k) eqn:E.
    + apply String.eqb_eq in E. subst k0.
      rewrite dict_get_set_same. unfold dict_get_default in Hx.
      destruct (dict_get k d) as [y|]; [|discriminate].
      apply Hx.
    + rewrite (dict_get_set_other _ _ _ _ E).
      destruct (dict_get k0 d) as [y|]; [|discriminate].
      intros H. exists v. split; [exact H|].
      destruct (is_dict v); reflexivity.
Qed.

Lemma preserved_setdefault (k : string) (v : json) (d : dict) :
  preserved (JObj d) (JObj (dict_setdefault k v d)).
Proof.
  unfold dict_setdefault. rewrite dict_mem_get.
  destruct (dict_get k d) as [y|] eqn:E; [apply preserved_refl|].
  intros [|k0 p'] x; simpl.
  - intros H. injection H as <-. eexists. split; reflexivity.
  - destruct (String.eqb k0 k) eqn:Ek.
    + apply String.eqb_eq in Ek. subst k0. rewrite E. discriminate.
    + rewrite (dict_get_set_other _ _ _ _ Ek).
      destruct (dict_get k0 d) as [y|]; [|discriminate].
      intros H. exists x. split; [exact H|].
      destruct (is_dict x); reflexivity.
Qed.

Lemma merge_items_preserved (items : dict) :
  Forall (fun kv => forall dst r,
            deep_merge dst (snd kv) = Ok r -> preserved dst r) items ->
  forall d r, merge_items items (JObj d) = Ok r -> preserved (JObj d) r.
Proof.
  intros HF.
  induction HF as [|[k v] rest Hv _ IH]; intros d r; simpl.
  - intros H. injection H as <-. apply preserved_refl.
  - simpl in Hv. destruct (is_dict v).
    + destruct (deep_merge (dict_get_default k (JObj []) d) v) as [r1|e] eqn:E;
        simpl; [|discriminate].
      intros H. eapply preserved_trans; [|exact (IH _ _ H)].
      apply preserved_set. exact (Hv _ _ E).
    + intros H. eapply preserved_trans; [|exact (IH _ _ H)].
      apply preserved_setdefault.
Qed.

Lemma deep_merge_preserved (src : json) :
  forall dst r, deep_merge dst src = Ok r -> preserved dst r.
Proof.
  induction src as [ |b|z|f|s|l IHl|items IH] using json_nested_ind;
    try (intros dst r H; simpl in H; discriminate).
  intros dst r H.
  destruct (is_dict dst) eqn:Ed.
  - destruct dst; try discriminate.
    rewrite deep_merge_unfold in H.
    exact (merge_items_preserved items IH _ _ H).
  - destruct (deep_merge_non_dict _ _ _ Ed H) as [-> _].
    apply preserved_refl.
Qed.

(** ** Merging into the empty document *)

Lemma merge_items_fresh (items : dict) :
  Forall (fun kv => wf_json (snd kv) = true -> is_dict (snd kv) = true ->
                    deep_merge (JObj []) (snd kv) = Ok (snd kv)) items ->
  forall d,
    keys_distinct items = true ->
    wf_values items = true ->
    (forall k, dict_mem k items = true -> dict_mem k d = false) ->
    merge_items items (JObj d) = Ok (JObj (d ++ items)%list).
Proof.
  intros HF.
  induction HF as [|[k v] rest Hv _ IH]; intros d Hk Hw Hfresh.
  - simpl. rewrite app_nil_r. reflexivity.
  - simpl in Hk, Hw, Hv.
    apply andb_prop in Hk as [Hk1 Hk2]. apply andb_prop in Hw as [Hw1 Hw2].
    apply negb_true_iff in Hk1.
    assert (Hkd : dict_mem k d = false).
    { apply Hfresh. simpl. rewrite String.eqb_refl. reflexivity. }
    assert (Hnext : forall k', dict_mem k' rest = true ->
                               dict_mem k' (d ++ [(k, v)])%list = false).
    { intros k' Hk'. rewrite dict_mem_app. simpl.
      rewrite (Hfresh k') by (simpl; rewrite Hk'; destruct (String.eqb k' k); reflexivity).
      destruct (String.eqb k' k) eqn:E; [|reflexivity].
      apply String.eqb_eq in E. subst k'. congruence. }
    assert (Hassoc : ((d ++ [(k, v)]) ++ rest = d ++ (k, v) :: rest)%list).
    { rewrite <- app_assoc. reflexivity. }
    simpl. destruct (is_dict v) eqn:Ev.
    + unfold dict_get_default.
      rewrite dict_mem_get in Hkd.
      destruct (dict_get k d) eqn:Eg; [discriminate|].
      rewrite (Hv Hw1 eq_refl). simpl.
      rewrite dict_set_absent by (rewrite dict_mem_get, Eg; reflexivity).
      rewrite (IH _ Hk2 Hw2 Hnext), Hassoc. reflexivity.
    + unfold dict_setdefault. rewrite Hkd.
      rewrite dict_set_absent by exact Hkd.
      rewrite (IH _ Hk2 Hw2 Hnext), Hassoc. reflexivity.
Qed.

Lemma deep_merge_empty (src : json) :
  wf_json src = true -> is_dict src = true ->
  deep_merge (JObj []) src = Ok src.
Proof.
  induction src as [ |b|z|f|s|l IHl|items IH] using json_nested_ind;
    try discriminate.
  intros Hw _. rewrite wf_json_obj in Hw. apply andb_prop in Hw as [Hk Hv].
  rewrite deep_merge_unfold.
  apply (merge_items_fresh items IH [] Hk Hv).
  reflexivity.
Qed.

(** ** What each key of the result holds *)

Lemma merge_items_lookup (items : dict) :
  keys_distinct items = true ->
  forall d r,
    merge_items items (JObj d) = Ok r ->
    exists d',
      r = JObj d' /\
      forall k,
        match dict_get k items with
        | None => dict_get k d' = dict_get k d
        | Some v =>
            if is_dict v then
              exists x,
                deep_merge (dict_get_default k (JObj []) d) v = Ok x /\
                dict_get k d' = Some x
            else dict_get k d' = Some (dict_get_default k v d)
        end.
Proof.
  induction items as [|[k0 v0] rest IH]; intros Hk d r; simpl.
  - intros H. injection H as <-. exists d. split; [reflexivity|].
    intros k. reflexivity.
  - simpl in Hk. apply andb_prop in Hk as [Hk1 Hk2].
    apply negb_true_iff in Hk1. rewrite dict_mem_get in Hk1.
    destruct (dict_get k0 rest) eqn:Ek0; [discriminate|]. clear Hk1.
    destruct (is_dict v0) eqn:Ev.
    + destruct (deep_merge (dict_get_default k0 (JObj []) d) v0) as [r1|e] eqn:E;
        simpl; [|discriminate].
      intros H. destruct (IH Hk2 _ _ H) as [d' [-> Hd']].
      exists d'. split; [reflexivity|]. intros k.
      destruct (String.eqb k k0) eqn:Ekk.
      * apply String.eqb_eq in Ekk. subst k. rewrite Ev.
        exists r1. split; [exact E|].
        specialize (Hd' k0). rewrite Ek0 in Hd'. rewrite Hd'.
        apply dict_get_set_same.
      * specialize (Hd' k). unfold dict_get_default in *.
        rewrite (dict_get_set_other _ _ _ _ Ekk) in Hd'. exact Hd'.
    + intros H. destruct (IH Hk2 _ _ H) as [d' [-> Hd']].
      exists d'. split; [reflexivity|]. intros k.
      destruct (String.eqb k k0) eqn:Ekk.
      * apply String.eqb_eq in Ekk. subst k. rewrite Ev.
        specialize (Hd' k0). rewrite Ek0 in Hd'. rewrite Hd'.
        apply dict_get_setdefault_same.
      * specialize (Hd' k). unfold dict_get_default in *.
        rewrite (dict_get_setdefault_other _ _ _ _ Ekk) in Hd'. exact Hd'.
Qed.

(** ** Absent keys receive the default's value *)

Lemma deep_merge_fills (src : json) :
  wf_json src = true ->
  forall dst r,
    deep_merge dst src = Ok r ->
    forall p dv,
      get_path p dst = None ->
      get_path p src = Some dv ->
      get_path p r = Some dv.
Proof.
  induction src as [ |b|z|f|s|l IHl|items IH] using json_nested_ind;
    try (intros _ dst r H; simpl in H; discriminate).
  intros Hw dst r H [|k p'] dv; [discriminate|].
  rewrite wf_json_obj in Hw. apply andb_prop in Hw as [Hk Hv].
  destruct (is_dict dst) eqn:Ed.
  2:{ destruct (deep_merge_non_dict _ _ _ Ed H) as [_ Hs].
      injection Hs as ->. discriminate. }
  destruct dst as [| | | | | |d]; try discriminate.
  rewrite deep_merge_unfold in H.
  destruct (merge_items_lookup items Hk d r H) as [d' [-> Hd']].
  specialize (Hd' k). simpl.
  destruct (dict_get k items) as [v0|] eqn:Ei; [|discriminate].
  pose proof (dict_get_In _ _ _ Ei) as Hin.
  destruct (is_dict v0) eqn:Ev0.
  - destruct Hd' as [x [Hx ->]]. unfold dict_get_default in Hx.
    rewrite Forall_forall in IH. specialize (IH _ Hin). simpl in IH.
    pose proof (wf_values_In _ _ _ Hv Hin) as Hwv.
    destruct (dict_get k d) as [y|].
    + intros Hy Hs. exact (IH Hwv _ _ Hx _ _ Hy Hs).
    + rewrite (deep_merge_empty v0 Hwv Ev0) in Hx. injection Hx as <-.
      intros _ Hs. exact Hs.
  - rewrite Hd'. unfold dict_get_default.
    intros Hy Hs. destruct (get_path_leaf _ _ _ Ev0 Hs) as [-> ->].
    destruct (dict_get k d); [discriminate|reflexivity].
Qed.

(** ** Nothing else is written *)

Lemma deep_merge_origin (src : json) :
  wf_json src = true ->
  forall dst r,
    deep_merge dst src = Ok r ->
    forall p v,
      get_path p r = Some v ->
      is_dict v = false ->
      get_path p dst = Some v \/
      (get_path p dst = None /\ get_path p src = Some v).
Proof.
  induction src as [ |b|z|f|s|l IHl|items IH] using json_nested_ind;
    try (intros _ dst r H; simpl in H; discriminate).
  intros Hw dst r H p v Hp Hleaf.
  rewrite wf_json_obj in Hw. apply andb_prop in Hw as [Hk Hv].
  destruct (is_dict dst) eqn:Ed.
  2:{ destruct (deep_merge_non_dict _ _ _ Ed H) as [-> _]. left. exact Hp. }
  destruct dst as [| | | | | |d]; try discriminate.
  rewrite deep_merge_unfold in H.
  destruct (merge_items_lookup items Hk d r H) as [d' [-> Hd']].
  destruct p as [|k p'].
  { simpl in Hp. injection Hp as <-. discriminate. }
  specialize (Hd' k). simpl in Hp |- *.
  destruct (dict_get k d') as [x|] eqn:Ex; [|discriminate].
  destruct (dict_get k items) as [v0|] eqn:Ei.
  - pose proof (dict_get_In _ _ _ Ei) as Hin.
    destruct (is_dict v0) eqn:Ev0.
    + destruct Hd' as [x' [Hx Hx']]. injection Hx' as <-.
      unfold dict_get_default in Hx.
      rewrite Forall_forall in IH. specialize (IH _ Hin). simpl in IH.
      pose proof (wf_values_In _ _ _ Hv Hin) as Hwv.
      destruct (dict_get k d) as [y|].
      * exact (IH Hwv _ _ Hx _ _ Hp Hleaf).
      * rewrite (deep_merge_empty v0 Hwv Ev0) in Hx. injection Hx as <-.
        right. split; [reflexivity|exact Hp].
    + injection Hd' as ->. unfold dict_get_default in Hp.
      destruct (dict_get k d) as [y|].
      * left. exact Hp.
      * right. split; [reflexivity|exact Hp].
  - rewrite <- Hd'. left. exact Hp.
Qed.

(** ** When [deep_merge] returns *)

Lemma merge_ok_obj (d items : dict) :
  merge_ok (JObj d) (JObj items) = merge_ok_items d items.
Proof.
  induction items as [|[k v] rest IH]; [reflexivity|].
  destruct rest as [|kv' rest']; [reflexivity|].
  change (merge_ok (JObj d) (JObj ((k, v) :: kv' :: rest')))
    with ((if is_dict v
           then merge_ok (dict_get_default k (JObj []) d) v
           else true) && merge_ok (JObj d) (JObj (kv' :: rest'))).
  rewrite IH. reflexivity.
Qed.

Lemma merge_ok_non_dict (dst src : json) :
  is_dict dst = false -> merge_ok dst src = true -> src = JObj [].
Proof.
  intros Hd. destruct src as [| | | | | |items]; try discriminate.
  destruct items; [reflexivity|].
  destruct dst; simpl in *; discriminate.
Qed.

Lemma deep_merge_error (src : json) :
  forall dst e, deep_merge dst src = Err e -> e = AttributeError.
Proof.
  induction src as [ |b|z|f|s|l IHl|items IH] using json_nested_ind;
    try (intros dst e H; simpl in H; congruence).
  intros dst e. rewrite deep_merge_unfold. revert dst.
  induction IH as [|[k v] rest Hv _ IHrest]; intros dst; simpl;
    [discriminate|].
  destruct dst; try congruence.
  simpl in Hv. destruct (is_dict v).
  - destruct (deep_merge _ v) as [r1|e1] eqn:E; simpl.
    + apply IHrest.
    + intros H. injection H as <-. exact (Hv _ _ E).
  - apply IHrest.
Qed.

Lemma merge_items_returns (items : dict) :
  Forall (fun kv => forall dst,
            merge_ok dst (snd kv) = true ->
            exists r, deep_merge dst (snd kv) = Ok r) items ->
  keys_distinct items = true ->
  forall d,
    merge_ok_items d items = true ->
    exists r, merge_items items (JObj d) = Ok r.
Proof.
  intros HF.
  induction HF as [|[k v] rest Hv _ IH]; intros Hk d Hok; simpl.
  - eexists. reflexivity.
  - simpl in Hk, Hok, Hv.
    apply andb_prop in Hk as [Hk1 Hk2]. apply negb_true_iff in Hk1.
    apply andb_prop in Hok as [Hok1 Hok2].
    assert (Hstep : forall x,
               merge_ok_items (dict_set k x d) rest = merge_ok_items d rest
               /\ merge_ok_items (dict_setdefault k x d) rest
                  = merge_ok_items d rest).
    { intros x. clear IH Hok2 Hk2 Hv Hok1.
      induction rest as [|[k' v'] t IHt]; [split; reflexivity|].
      simpl in Hk1. destruct (String.eqb k k') eqn:E; [discriminate|].
      rewrite String.eqb_sym in E.
      destruct (IHt Hk1) as [I1 I2]. simpl. unfold dict_get_default.
      rewrite (dict_get_set_other _ _ _ _ E).
      rewrite (dict_get_setdefault_other _ _ _ _ E).
      rewrite I1, I2. split; reflexivity. }
    destruct (is_dict v).
    + destruct (Hv _ Hok1) as [r1 ->]. simpl.
      apply (IH Hk2). rewrite (proj1 (Hstep r1)). exact Hok2.
    + apply (IH Hk2). rewrite (proj2 (Hstep v)). exact Hok2.
Qed.

Lemma deep_merge_returns (src : json) :
  wf_json src = true ->
  forall dst, merge_ok dst src = true -> exists r, deep_merge dst src = Ok r.
Proof.
  induction src as [ |b|z|f|s|l IHl|items IH] using json_nested_ind;
    try (intros _ dst H; simpl in H; discriminate).
  intros Hw dst Hok.
  rewrite wf_json_obj in Hw. apply andb_prop in Hw as [Hk Hv].
  destruct (is_dict dst) eqn:Ed.
  - destruct dst as [| | | | | |d]; try discriminate.
    rewrite deep_merge_unfold. rewrite merge_ok_obj in Hok.
    apply merge_items_returns; try assumption.
    rewrite Forall_forall in IH |- *. intros [k v] Hin dst Hd.
    apply (IH _ Hin); [|exact Hd].
    exact (wf_values_In _ _ _ Hv Hin).
  - pose proof (merge_ok_non_dict _ _ Ed Hok) as Hs. injection Hs as ->.
    exists dst. reflexivity.
Qed.

Lemma merge_ok_items_of_lookup (d items : dict) :
  (forall k v, In (k, v) items -> is_dict v = true ->
               merge_ok (dict_get_default k (JObj []) d) v = true) ->
  merge_ok_items d items = true.
Proof.
  induction items as [|[k v] rest IH]; intros H; simpl; [reflexivity|].
  apply andb_true_intro. split.
  - destruct (is_dict v) eqn:E; [|reflexivity].
    apply H; [left; reflexivity|exact E].
  - apply IH. intros k' v' Hin. apply H. right. exact Hin.
Qed.

Lemma dict_get_of_In (k : string) (v : json) (d : dict) :
  keys_distinct d = true -> In (k, v) d -> dict_get k d = Some v.
Proof.
  induction d as [|[k' v'] t IH]; simpl; [intros _ []|].
  intros Hk [Heq|Hin]; apply andb_prop in Hk as [Hk1 Hk2].
  - injection Heq as -> ->. rewrite String.eqb_refl. reflexivity.
  - destruct (String.eqb k k') eqn:E; [|exact (IH Hk2 Hin)].
    apply String.eqb_eq in E. subst k'.
    apply negb_true_iff in Hk1. rewrite dict_mem_get in Hk1.
    rewrite (IH Hk2 Hin) in Hk1. discriminate.
Qed.

Lemma deep_merge_ok_shape (src : json) :
  wf_json src = true ->
  forall dst r, deep_merge dst src = Ok r -> merge_ok dst src = true.
Proof.
  induction src as [ |b|z|f|s|l IHl|items IH] using json_nested_ind;
    try (intros _ dst r H; simpl in H; discriminate).
  intros Hw dst r H.
  rewrite wf_json_obj in Hw. apply andb_prop in Hw as [Hk Hv].
  destruct (is_dict dst) eqn:Ed.
  - destruct dst as [| | | | | |d]; try discriminate.
    rewrite deep_merge_unfold in H. rewrite merge_ok_obj.
    destruct (merge_items_lookup items Hk d r H) as [d' [-> Hd']].
    apply merge_ok_items_of_lookup. intros k v Hin Ev.
    specialize (Hd' k). rewrite (dict_get_of_In _ _ _ Hk Hin), Ev in Hd'.
    destruct Hd' as [x [Hx _]].
    rewrite Forall_forall in IH.
    exact (IH _ Hin (wf_values_In _ _ _ Hv Hin) _ _ Hx).
  - destruct (deep_merge_non_dict _ _ _ Ed H) as [_ ->]. reflexivity.
Qed.

(** C1: default-merge is a field-level fallback.  On every document whose
    shape [deep_merge] accepts, the merge returns a document in which
    every value present in the loaded document is still there (a non-dict
    value unchanged, a dict still a dict), every path absent from the
    loaded document that the defaults define holds the default's value,
    and every non-dict value is the loaded document's or, at a path
    absent from it, the default's; merging into the empty document yields
    exactly the default document. *)
Theorem deep_merge_field_level_fallback (doc defaults : json) :
  wf_json defaults = true ->
  is_dict defaults = true ->
  merge_ok doc defaults = true ->
  exists r,
    deep_merge doc defaults = Ok r /\
    preserved doc r /\
    (forall p dv,
        get_path p doc = None ->
        get_path p defaults = Some dv ->
        get_path p r = Some dv) /\
    (forall p v,
        get_path p r = Some v ->
        is_dict v = false ->
        get_path p doc = Some v \/
        (get_path p doc = None /\ get_path p defaults = Some v)) /\
    deep_merge (JObj []) defaults = Ok defaults.
Proof.
  intros Hw Hd Hok.
  destruct (deep_merge_returns defaults Hw doc Hok) as [r H].
  exists r. repeat split.
  - exact H.
  - exact (deep_merge_preserved defaults doc r H).
  - exact (deep_merge_fills defaults Hw doc r H).
  - exact (deep_merge_origin defaults Hw doc r H).
  - exact (deep_merge_empty defaults Hw Hd).
Qed.

Lemma deep_merge_field_level_fallback_witness :
  exists r,
    deep_merge partial_doc DEFAULTS = Ok r /\
    preserved partial_doc r /\
    (forall p dv,
        get_path p partial_doc = None ->
        get_path p DEFAULTS = Some dv ->
        get_path p r = Some dv) /\
    (forall p v,
        get_path p r = Some v ->
        is_dict v = false ->
        get_path p partial_doc = Some v \/
        (get_path p partial_doc = None /\ get_path p DEFAULTS = Some v)) /\
    deep_merge (JObj []) DEFAULTS = Ok DEFAULTS.
Proof.
  apply (deep_merge_field_level_fallback partial_doc DEFAULTS); reflexivity.
Defined.

(** C1, counterexample: a document in which "base_font" is a string.
    The merge goes into it to fill in the defaults of the font, a string
    has no [setdefault], and [_apply_defaults] raises [AttributeError]:
    no merged document comes back, and the absent keys are not filled. *)
Lemma deep_merge_raises_on_string_section :
  merge_ok (JObj [("base_font", JStr "Arial")]) DEFAULTS = false /\
  deep_merge (JObj [("base_font", JStr "Arial")]) DEFAULTS
  = Err AttributeError /\
  _apply_defaults (JObj [("base_font", JStr "Arial")]) = Err AttributeError.
Proof.
  split; [|split]; reflexivity.
Qed.

(** The merged sample document, computed. *)
Example deep_merge_partial_doc :
  deep_merge partial_doc DEFAULTS =
  Ok (JObj [ ("alpha", JFloat float_0_3);
             ("colors", JObj [ ("text", JStr "#000000");
                               ("background", JStr "#0A1F44");
                               ("accent", JStr "#FFD700");
                               ("border", JStr "#222222") ]);
             ("geometry", JStr "600x320+100+100");
             ("always_on_top", JBool true);
             ("border_thickness", JInt 2);
             ("base_font", DEFAULTS_base_font);
             ("content", DEFAULTS_content) ]).
Proof.
  reflexivity.
Qed.

(** C9: default-merge is not total.  A document in which "colors",
    "base_font" or "content" is present with a value that is not a dict
    makes [_apply_defaults] raise [AttributeError]. *)
Theorem apply_defaults_raises_on_non_dict_section
  (doc : dict) (k : string) (v : json) :
  In k ["colors"; "base_font"; "content"] ->
  dict_get k doc = Some v ->
  is_dict v = false ->
  _apply_defaults (JObj doc) = Err AttributeError.
Proof.
  intros Hk Hg Hv. unfold _apply_defaults. simpl is_dict. cbv iota.
  destruct (deep_merge (JObj doc) DEFAULTS) as [r|e] eqn:E.
  - exfalso.
    pose proof (deep_merge_ok_shape DEFAULTS eq_refl _ _ E) as Hok.
    unfold DEFAULTS in Hok. rewrite merge_ok_obj in Hok.
    simpl in Hok. unfold dict_get_default in Hok.
    repeat (apply andb_prop in Hok as [? Hok]).
    simpl in Hk. destruct Hk as [<-|[<-|[<-|[]]]]; rewrite Hg in *;
      destruct v; simpl in *; discriminate.
  - f_equal. exact (deep_merge_error _ _ _ E).
Qed.

Lemma apply_defaults_raises_on_non_dict_section_witness :
  _apply_defaults (JObj [("colors", JInt 5)]) = Err AttributeError.
Proof.
  apply (apply_defaults_raises_on_non_dict_section
           [("colors", JInt 5)] "colors" (JInt 5)).
  - simpl. left. reflexivity.
  - reflexivity.
  - reflexivity.
Defined.

(** ** [json.load] after [json.dump] *)

Lemma json_dump_list (x : json) (t : list json) :
  json_dump (JList (x :: t)) = (TLBracket :: json_dump x ++ dump_list_tail t)%list.
Proof.
  reflexivity.
Qed.

Lemma json_dump_obj (k : string) (x : json) (t : dict) :
  json_dump (JObj ((k, x) :: t)) =
  (TLBrace :: TStr k :: TColon :: json_dump x ++ dump_obj_tail t)%list.
Proof.
  reflexivity.
Qed.

Lemma json_dump_head (v : json) :
  exists t l, json_dump v = t :: l /\ starts_value t = true.
Proof.
  destruct v as [ |b|z|f|s|[|x l]|[|[k x] o]]; simpl;
    eexists; eexists; split; reflexivity.
Qed.

Lemma parse_value_list_step (n : nat) (r : list token) (t0 : token)
  (l0 : list token) :
  r = t0 :: l0 ->
  starts_value t0 = true ->
  parse_value (S n) (TLBracket :: r) =
  match parse_value n r with
  | Some (x, r1) =>
      match parse_list_tail n r1 with
      | Some (xs, r2) => Some (JList (x :: xs), r2)
      | None => None
      end
  | None => None
  end.
Proof.
  intros -> H. destruct t0; try discriminate; reflexivity.
Qed.

Lemma keys_distinct_app_head (acc : dict) (k : string) (v : json) (t : dict) :
  keys_distinct (acc ++ (k, v) :: t)%list = true -> dict_mem k acc = false.
Proof.
  induction acc as [|[k0 v0] acc IH]; simpl; [reflexivity|].
  intros H. apply andb_prop in H as [H1 H2]. apply negb_true_iff in H1.
  destruct (String.eqb k k0) eqn:E; [|exact (IH H2)].
  apply String.eqb_eq in E. subst k0.
  rewrite dict_mem_app in H1. simpl in H1. rewrite String.eqb_refl in H1.
  rewrite orb_true_r in H1. discriminate.
Qed.

Lemma dict_of_pairs_distinct (o : dict) :
  keys_distinct o = true -> dict_of_pairs o = o.
Proof.
  unfold dict_of_pairs.
  enough (G : forall acc, keys_distinct (acc ++ o)%list = true ->
                          fold_left (fun d kv => dict_set (fst kv) (snd kv) d) o acc
                          = (acc ++ o)%list)
    by exact (G []).
  induction o as [|[k v] t IH]; intros acc H; simpl.
  - rewrite app_nil_r. reflexivity.
  - rewrite (dict_set_absent _ _ _ (keys_distinct_app_head _ _ _ _ H)).
    rewrite IH; rewrite <- app_assoc; [reflexivity|exact H].
Qed.

Lemma parse_list_tail_dump (t : list json) :
  Forall (fun x => wf_json x = true ->
                   forall n rest,
                     (List.length (json_dump x) <= n)%nat ->
                     parse_value n (json_dump x ++ rest) = Some (x, rest)) t ->
  wf_list t = true ->
  forall n rest,
    (List.length (dump_list_tail t) <= n)%nat ->
    parse_list_tail n (dump_list_tail t ++ rest) = Some (t, rest).
Proof.
  intros HF.
  induction HF as [|y t Hy _ IH]; intros Hw n rest Hn; simpl in Hn.
  - destruct n as [|n']; [lia|]. reflexivity.
  - simpl in Hw. apply andb_prop in Hw as [Hw1 Hw2].
    rewrite length_app in Hn.
    destruct n as [|n']; [lia|].
    simpl. rewrite <- app_assoc.
    rewrite (Hy Hw1) by lia.
    rewrite (IH Hw2) by lia.
    reflexivity.
Qed.

Lemma parse_obj_tail_dump (t : dict) :
  Forall (fun kv => wf_json (snd kv) = true ->
                    forall n rest,
                      (List.length (json_dump (snd kv)) <= n)%nat ->
                      parse_value n (json_dump (snd kv) ++ rest)
                      = Some (snd kv, rest)) t ->
  wf_values t = true ->
  forall n rest,
    (List.length (dump_obj_tail t) <= n)%nat ->
    parse_obj_tail n (dump_obj_tail t ++ rest) = Some (t, rest).
Proof.
  intros HF.
  induction HF as [|[k y] t Hy _ IH]; intros Hw n rest Hn; simpl in Hn.
  - destruct n as [|n']; [lia|]. reflexivity.
  - simpl in Hw, Hy. apply andb_prop in Hw as [Hw1 Hw2].
    rewrite length_app in Hn.
    destruct n as [|n']; [lia|].
    simpl. rewrite <- app_assoc.
    rewrite (Hy Hw1) by lia.
    rewrite (IH Hw2) by lia.
    reflexivity.
Qed.

Lemma parse_value_dump (v : json) :
  wf_json v = true ->
  forall n rest,
    (List.length (json_dump v) <= n)%nat ->
    parse_value n (json_dump v ++ rest) = Some (v, rest).
Proof.
  induction v as [ |b|z|f|s|l IHl|o IHo] using json_nested_ind;
    intros Hw n rest Hn;
    try (destruct n as [|n']; [simpl in Hn; lia|reflexivity]).
  - destruct l as [|x t].
    + destruct n as [|n']; [simpl in Hn; lia|reflexivity].
    + rewrite json_dump_list in Hn |- *.
      rewrite wf_json_list in Hw. simpl in Hw.
      apply andb_prop in Hw as [Hw1 Hw2].
      simpl in Hn. rewrite length_app in Hn.
      destruct n as [|n']; [lia|].
      inversion IHl as [|? ? Hx Ht]; subst.
      destruct (json_dump_head x) as [t0 [l0 [Hd Hs]]].
      rewrite <- app_comm_cons, <- app_assoc.
      rewrite (parse_value_list_step n' _ t0 (l0 ++ dump_list_tail t ++ rest) )
        by (rewrite ?Hd; auto).
      rewrite (Hx Hw1) by lia.
      rewrite (parse_list_tail_dump t Ht Hw2) by lia.
      reflexivity.
  - destruct o as [|[k x] t].
    + destruct n as [|n']; [simpl in Hn; lia|reflexivity].
    + rewrite json_dump_obj in Hn |- *.
      pose proof Hw as Hwf.
      rewrite wf_json_obj in Hw. apply andb_prop in Hw as [Hk Hv].
      simpl in Hv. apply andb_prop in Hv as [Hv1 Hv2].
      simpl in Hn. rewrite length_app in Hn.
      destruct n as [|n']; [lia|].
      inversion IHo as [|? ? Hx Ht]; subst. simpl in Hx.
      rewrite <- !app_comm_cons, <- app_assoc.
      cbn [parse_value].
      rewrite (Hx Hv1) by lia.
      rewrite (parse_obj_tail_dump t Ht Hv2) by lia.
      rewrite (dict_of_pairs_distinct _ Hk).
      reflexivity.
Qed.

Lemma json_load_dump (v : json) :
  wf_json v = true -> json_load (json_dump v) = Some v.
Proof.
  intros Hw. unfold json_load.
  rewrite <- (app_nil_r (json_dump v)) at 2.
  rewrite (parse_value_dump v Hw) by lia.
  reflexivity.
Qed.

(** ** The state file *)

Example json_load_empty_file : json_load [] = None.
Proof.
  reflexivity.
Qed.

Example json_load_truncated_file :
  json_load [TLBrace; TStr "alpha"; TColon] = None.
Proof.
  reflexivity.
Qed.

Lemma load_state_existing (fs : store) (path : string) (c : list token) :
  file_at fs path = Some c ->
  readable fs path = true ->
  load_state fs path =
  (fs, Ok match json_load c with
          | Some v => v
          | None => JObj []
          end).
Proof.
  unfold load_state, ensure_state_file, path_exists, open_read, file_at,
    readable.
  destruct (locate fs path) as [i|] eqn:El; [|discriminate].
  intros Hc Hr. rewrite Hc. cbn [negb bind]. rewrite El, Hc, Hr.
  cbn [bind]. destruct (json_load c); reflexivity.
Qed.

Lemma file_at_put (fs : store) (path : string) (i : nat) (c : list token) :
  locate fs path = Some i -> file_at (put fs i c) path = Some c.
Proof.
  intros H. unfold file_at, put. cbn [locate contents]. rewrite H.
  rewrite Nat.eqb_refl. reflexivity.
Qed.

Lemma write_file_returns (fs : store) (path : string) (c : list token) :
  writable fs path = true ->
  exists i,
    locate fs path = Some i /\
    write_file fs path c = (put fs i c, Ok tt).
Proof.
  unfold writable, write_file.
  destruct (locate fs path) as [i|]; [|discriminate].
  intros H. rewrite H. exists i. split; reflexivity.
Qed.

Lemma write_file_at (fs : store) (path : string) (c : list token) :
  snd (write_file fs path c) = Ok tt ->
  file_at (fst (write_file fs path c)) path = Some c /\
  writable fs path = true.
Proof.
  unfold write_file, writable.
  destruct (locate fs path) as [i|] eqn:El; [|discriminate].
  destruct (can_write fs i); [|discriminate].
  intros _. cbn [fst]. split; [exact (file_at_put fs path i c El)|reflexivity].
Qed.

Lemma readable_put (fs : store) (i : nat) (c : list token) (q : string) :
  readable (put fs i c) q = readable fs q.
Proof.
  reflexivity.
Qed.

Lemma writable_put (fs : store) (i : nat) (c : list token) (q : string) :
  writable (put fs i c) q = writable fs q.
Proof.
  reflexivity.
Qed.

Lemma load_state_missing (fs : store) (path : string) :
  file_at fs path = None ->
  writable fs path = true ->
  readable fs path = true ->
  load_state fs path =
  (fst (write_file fs path (json_dump (JObj []))), Ok (JObj [])).
Proof.
  intros Hc Hw Hr.
  destruct (write_file_returns fs path (json_dump (JObj [])) Hw)
    as [i [El E]].
  unfold load_state, ensure_state_file, path_exists. rewrite Hc.
  cbn [negb]. rewrite E. cbn [fst bind].
  unfold open_read, put. cbn [locate contents can_read].
  rewrite El, Nat.eqb_refl.
  unfold readable in Hr. rewrite El in Hr. rewrite Hr. reflexivity.
Qed.





(** C3: saving a document and loading it back yields the same document,
    and the load leaves the saved file as it is.  The save has to
    return and the file has to be readable. *)
Theorem save_load_round_trip (fs : store) (path : string) (doc : json) :
  wf_json doc = true ->
  snd (save_state fs path doc) = Ok tt ->
  readable fs path = true ->
  load_state (fst (save_state fs path doc)) path =
  (fst (save_state fs path doc), Ok doc).
Proof.
  intros Hw Hs Hr. unfold save_state in *.
  destruct (write_file_at fs path (json_dump doc) Hs) as [Hc Hwr].
  destruct (write_file_returns fs path (json_dump doc) Hwr) as [i [_ E]].
  rewrite (load_state_existing _ path _ Hc).
  - rewrite (json_load_dump doc Hw). reflexivity.
  - rewrite E. exact Hr.
Qed.

Lemma save_load_round_trip_witness :
  load_state (fst (save_state sample_files STATE_FILE DEFAULTS)) STATE_FILE =
  (fst (save_state sample_files STATE_FILE DEFAULTS), Ok DEFAULTS).
Proof.
  apply (save_load_round_trip sample_files STATE_FILE DEFAULTS); reflexivity.
Defined.

(** ** Resize *)

Lemma clamp_bounds (v lo hi : Z) : lo <= hi -> lo <= clamp v lo hi <= hi.
Proof.
  unfold clamp. lia.
Qed.

(** C5: whatever the starting size and the drag delta, the size that
    [_do_resize] computes and sets has its width in [[320, 1600]] and its
    height in [[180, 1200]]. *)
Theorem do_resize_clamped (w : widget) (e : event) :
  (320 <= fst (resize_size w e) <= 1600 /\
   180 <= snd (resize_size w e) <= 1200) /\
  (320 <= g_width (root_geometry (fst (_do_resize e w))) <= 1600 /\
   180 <= g_height (root_geometry (fst (_do_resize e w))) <= 1200).
Proof.
  assert (H : 320 <= fst (resize_size w e) <= 1600 /\
              180 <= snd (resize_size w e) <= 1200).
  { unfold resize_size. simpl. split; apply clamp_bounds; lia. }
  split; [exact H|].
  unfold _do_resize, modify, resize_size in *. simpl in *. exact H.
Qed.

Example do_resize_far_left :
  resize_size sample_widget (mkEvent (-100000) 100000) = (320, 1200).
Proof.
  reflexivity.
Qed.

(** ** Style actions without a selection *)

Lemma get_selection_none (w : widget) :
  tag_ranges w "sel" = [] -> _get_selection w = (w, Ok None).
Proof.
  intros H. unfold _get_selection, try_except, mbind, index_sel_first.
  rewrite H. reflexivity.
Qed.

(** C4: with no text selected, each style action returns at once: the
    widget (text tags, in-memory state, state file, dialogs shown) is
    left exactly as it was and no exception is raised. *)
Theorem style_actions_without_selection
  (w : widget) (delta : Z) (answer : option string) :
  tag_ranges w "sel" = [] ->
  apply_bold w = (w, Ok tt) /\
  apply_size delta w = (w, Ok tt) /\
  apply_color answer w = (w, Ok tt).
Proof.
  intros H. pose proof (get_selection_none w H) as Hs.
  unfold apply_bold, apply_size, apply_color, mbind.
  rewrite Hs. repeat split.
Qed.

Lemma style_actions_without_selection_witness :
  apply_bold sample_widget = (sample_widget, Ok tt) /\
  apply_size 2 sample_widget = (sample_widget, Ok tt) /\
  apply_color (Some "#FF0000") sample_widget = (sample_widget, Ok tt).
Proof.
  apply (style_actions_without_selection sample_widget 2 (Some "#FF0000")).
  reflexivity.
Defined.

(** ** Loading a font file *)

(** C7: every file chosen in [load_ttf] fails to load, since
    [tkfont.Font(file=path)] raises; [load_ttf] then shows the error
    dialog and returns; the base font, the font variable, the list of
    families, the in-memory state and the state file are unchanged. *)
Theorem load_ttf_failure (w : widget) (path : string) :
  String.eqb path "" = false ->
  load_ttf path w =
  (set_dialogs
     (dialogs w ++ [ AskOpenFilename "Load a .ttf font";
                     ShowError "Font load failed" TclError ])%list w,
   Ok tt) /\
  base_font (fst (load_ttf path w)) = base_font w /\
  base_font_var (fst (load_ttf path w)) = base_font_var w /\
  font_families (fst (load_ttf path w)) = font_families w /\
  state (fst (load_ttf path w)) = state w /\
  files (fst (load_ttf path w)) = files w.
Proof.
  intros Hp.
  assert (H : load_ttf path w =
              (set_dialogs
                 (dialogs w ++ [ AskOpenFilename "Load a .ttf font";
                                 ShowError "Font load failed" TclError ])%list
                 w,
               Ok tt)).
  { unfold load_ttf, mbind, show, modify. rewrite Hp.
    unfold try_except, mbind, gets, lift, font_create_file. simpl.
    unfold set_dialogs. simpl. rewrite <- app_assoc. reflexivity. }
  rewrite H. repeat split.
Qed.

Lemma load_ttf_failure_witness :
  load_ttf "broken.ttf" sample_widget =
  (set_dialogs
     [ AskOpenFilename "Load a .ttf font";
       ShowError "Font load failed" TclError ] sample_widget,
   Ok tt) /\
  base_font (fst (load_ttf "broken.ttf" sample_widget)) = sample_font /\
  base_font_var (fst (load_ttf "broken.ttf" sample_widget)) = "Segoe UI" /\
  font_families (fst (load_ttf "broken.ttf" sample_widget)) =
    ["Arial"; "Segoe UI"] /\
  state (fst (load_ttf "broken.ttf" sample_widget)) = DEFAULTS /\
  files (fst (load_ttf "broken.ttf" sample_widget)) = files sample_widget.
Proof.
  apply (load_ttf_failure sample_widget "broken.ttf"); reflexivity.
Defined.

(** ** Text indices *)

Lemma offset_of_position (s : list ascii) :
  forall n,
    (n <= List.length s)%nat ->
    offset_of s (fst (position_of s n)) (snd (position_of s n)) = n.
Proof.
  induction s as [|a s IH]; intros n Hn.
  - destruct n; [reflexivity|simpl in Hn; lia].
  - destruct n as [|n]; [reflexivity|].
    simpl in Hn. assert (Hn' : (n <= List.length s)%nat) by lia.
    specialize (IH n Hn'). simpl.
    destruct (position_of s n) as [l c]. simpl in IH.
    destruct (Ascii.eqb a newline) eqn:E; simpl; rewrite ?E.
    + rewrite IH. reflexivity.
    + destruct l as [|l]; simpl; rewrite ?E, IH; reflexivity.
Qed.

Lemma offset_of_index_of_offset (s : list ascii) (n : nat) :
  (n <= List.length s)%nat ->
  offset_of_index s (index_of_offset s n) = n.
Proof.
  intros Hn. pose proof (offset_of_position s n Hn) as H.
  unfold offset_of_index, index_of_offset.
  destruct (position_of s n) as [l c]. exact H.
Qed.

(** ** Runs of tagged characters *)

Ltac nat_cases :=
  unfold Nat.ltb;
  repeat match goal with
         | |- context [Nat.leb ?a ?b] => destruct (Nat.leb_spec a b)
         end;
  simpl; try reflexivity; try lia.



Lemma runs_bounds (cov : list bool) :
  forall p run,
    (forall s, run = Some s -> (s <= p)%nat) ->
    Forall (fun se => (fst se <= p + List.length cov)%nat /\
                      (snd se <= p + List.length cov)%nat)
      (runs cov p run).
Proof.
  induction cov as [|b t IH]; intros p run Hrun.
  - destruct run as [s|]; simpl; [|constructor].
    specialize (Hrun s eq_refl).
    constructor; [simpl; lia|constructor].
  - assert (Hweak : forall run',
               (forall s, run' = Some s -> (s <= S p)%nat) ->
               Forall (fun se => (fst se <= p + List.length (b :: t))%nat /\
                                 (snd se <= p + List.length (b :: t))%nat)
                 (runs t (S p) run')).
    { intros run' H'. eapply Forall_impl; [|exact (IH (S p) run' H')].
      simpl. intros se [H1 H2]. lia. }
    destruct b, run as [s|]; simpl.
    + apply Hweak. intros s' H'. injection H' as <-.
      specialize (Hrun s eq_refl). lia.
    + apply Hweak. intros s' H'. injection H' as <-. lia.
    + constructor.
      * specialize (Hrun s eq_refl). simpl. lia.
      * apply Hweak. discriminate.
    + apply Hweak. discriminate.
Qed.

Lemma mark_length (cov : list bool) :
  forall p s e, List.length (mark p s e cov) = List.length cov.
Proof.
  induction cov as [|b t IH]; intros p s e; simpl; [reflexivity|].
  rewrite IH. reflexivity.
Qed.

Lemma mark_nth (cov : list bool) :
  forall p s e j,
    nth j (mark p s e cov) false =
    nth j cov false
    || (Nat.ltb j (List.length cov) && Nat.leb s (p + j) && Nat.ltb (p + j) e).
Proof.
  induction cov as [|b t IH]; intros p s e j.
  - destruct j; reflexivity.
  - destruct j as [|j]; simpl.
    + rewrite Nat.add_0_r. reflexivity.
    + rewrite IH. replace (S p + j)%nat with (p + S j)%nat by lia.
      reflexivity.
Qed.




(** ** Capturing tags *)

Lemma string_mem_In (s : string) (l : list string) :
  string_mem s l = true <-> In s l.
Proof.
  induction l as [|x t IH]; simpl.
  - split; [discriminate|intros []].
  - destruct (String.eqb s x) eqn:E.
    + apply String.eqb_eq in E. subst x. split; auto.
    + apply String.eqb_neq in E. rewrite IH. split; [auto|].
      intros [H|H]; [congruence|exact H].
Qed.

Lemma distinct_NoDup (l : list string) : distinct l = true <-> NoDup l.
Proof.
  induction l as [|x t IH]; simpl.
  - split; [constructor|reflexivity].
  - rewrite andb_true_iff, negb_true_iff, IH. split.
    + intros [H1 H2]. constructor; [|exact H2].
      rewrite <- string_mem_In. congruence.
    + intros H. inversion H as [|? ? Hx Ht]; subst. split; [|exact Ht].
      destruct (string_mem x t) eqn:E; [|reflexivity].
      apply string_mem_In in E. contradiction.
Qed.

Lemma tag_find_In (name : string) (info : tag_info) (tags : tag_table) :
  NoDup (map fst tags) -> In (name, info) tags ->
  tag_find name tags = Some info.
Proof.
  induction tags as [|[k x] t IH]; simpl; [intros _ []|].
  intros Hd [Heq|Hin]; inversion Hd as [|? ? Hk Ht]; subst.
  - injection Heq as -> ->. rewrite String.eqb_refl. reflexivity.
  - destruct (String.eqb name k) eqn:E; [|exact (IH Ht Hin)].
    apply String.eqb_eq in E. subst k. exfalso. apply Hk.
    apply (in_map fst) in Hin. exact Hin.
Qed.

Lemma capture_tag_found (w : widget) (name : string) (info : tag_info) :
  tag_find name (text_tags w) = Some info ->
  capture_tag w name = info_entry (buffer (text_chars w)) info.
Proof.
  intros H.
  unfold capture_tag, info_entry, tag_cget_font, tag_cget_foreground,
    tag_cget_background, tag_ranges, font_of_tag.
  rewrite H. destruct (t_font info); [|reflexivity].
  destruct (t_font_alive info); reflexivity.
Qed.

Lemma tag_map_set_fresh (name : string) (e : tag_entry) (acc : tag_map) :
  ~ In name (map fst acc) -> tag_map_set name e acc = (acc ++ [(name, e)])%list.
Proof.
  induction acc as [|[k x] t IH]; simpl; [reflexivity|].
  intros H. destruct (String.eqb name k) eqn:E.
  - apply String.eqb_eq in E. subst k. exfalso. apply H. left. reflexivity.
  - rewrite IH; [reflexivity|]. intros Hin. apply H. right. exact Hin.
Qed.

Lemma capture_loop_spec (w : widget) (rest : tag_table) :
  forall acc,
    (forall name info, In (name, info) rest ->
                       tag_find name (text_tags w) = Some info) ->
    NoDup (map fst acc ++ map fst rest) ->
    capture_loop w (map fst rest) acc =
    (acc ++ captured (buffer (text_chars w)) rest)%list.
Proof.
  induction rest as [|[name info] rest IH]; intros acc Hfind Hd.
  - unfold captured. simpl. rewrite app_nil_r. reflexivity.
  - assert (Hrest : forall n i, In (n, i) rest ->
                                tag_find n (text_tags w) = Some i).
    { intros n i Hin. apply Hfind. right. exact Hin. }
    simpl in Hd. pose proof (NoDup_remove_1 _ _ _ Hd) as Hd1.
    pose proof (NoDup_remove_2 _ _ _ Hd) as Hd2.
    unfold captured. cbn [map fst capture_loop filter].
    unfold kept at 1. cbn [fst snd].
    rewrite (capture_tag_found w name info) by (apply Hfind; left; reflexivity).
    destruct (String.eqb name "sel"); cbn [negb andb].
    + apply (IH acc Hrest Hd1).
    + destruct (entry_nonempty (info_entry (buffer (text_chars w)) info));
        cbn [map fst snd].
      * rewrite tag_map_set_fresh
          by (intros Hin; apply Hd2; apply in_or_app; left; exact Hin).
        rewrite IH; [rewrite <- app_assoc; reflexivity|exact Hrest|].
        rewrite map_app. simpl. rewrite <- app_assoc. exact Hd.
      * apply (IH acc Hrest Hd1).
Qed.

Lemma wf_tags_NoDup (n : nat) (tags : tag_table) :
  wf_tags n tags = true -> NoDup (map fst tags).
Proof.
  unfold wf_tags. intros H. apply andb_prop in H as [H _].
  apply distinct_NoDup. exact H.
Qed.

Lemma wf_tags_cover (n : nat) (tags : tag_table) :
  wf_tags n tags = true ->
  Forall (fun ti => List.length (t_cover (snd ti)) = n) tags.
Proof.
  unfold wf_tags. intros H. apply andb_prop in H as [_ H].
  rewrite forallb_forall in H. apply Forall_forall.
  intros ti Hin. apply Nat.eqb_eq. exact (H ti Hin).
Qed.

Lemma capture_tags_spec (w : widget) :
  NoDup (map fst (text_tags w)) ->
  _capture_tags w = captured (buffer (text_chars w)) (text_tags w).
Proof.
  intros Hd. unfold _capture_tags, tag_names.
  rewrite (capture_loop_spec w (text_tags w) []); [reflexivity| |exact Hd].
  intros name info Hin. exact (tag_find_In _ _ _ Hd Hin).
Qed.

(** ** Restoring tags *)























(** ** Capture, restore, capture *)

Lemma filter_twice {A : Type} (f : A -> bool) (l : list A) :
  filter f (filter f l) = filter f l.
Proof.
  induction l as [|x t IH]; simpl; [reflexivity|].
  destruct (f x) eqn:E; simpl; rewrite ?E, IH; reflexivity.
Qed.










(** The mapping captured from the sample widget. *)
Example capture_tags_sample :
  ranges_of (_capture_tags sample_widget) =
  [("bold", [(mkIndex 1 0, mkIndex 1 2)])].
Proof.
  reflexivity.
Qed.

(** ** Scenarios *)

(** A malformed state file: the load returns the empty document and the
    merge produces the default document. *)
Example startup_malformed_file :
  snd (startup_state (put sample_files 0 [TLBrace]))
  = Ok DEFAULTS.
Proof.
  reflexivity.
Qed.

(** Bold applied to all of "Hello": one tag, over "1.0" to "1.5".  The
    state saved by the handler records the bold font; once the handler
    has returned its font object is collected, and a capture made then
    finds the tag with its range and no font.  The state file is written
    and holds the new state. *)
Example apply_bold_hello :
  let w := fst (apply_bold sample_selected) in
  snd (apply_bold sample_selected) = Ok tt /\
  _capture_tags w =
  [ ("bold",
     mkEntry (mkConfig None None None) [ (mkIndex 1 0, mkIndex 1 5) ]) ] /\
  get_path ["content"; "tags"; "bold"; "config"; "font"; "weight"] (state w)
  =
    Some (JStr "bold") /\
  get_path ["content"; "tags"; "bold"; "ranges"] (state w) =
    Some (JList [ JList [ JStr "1.0"; JStr "1.5" ] ]) /\
  snd (load_state (files w) STATE_FILE) = Ok (state w).
Proof.
  cbv zeta. split; [|split; [|split; [|split]]]; vm_compute; reflexivity.
Qed.

(** * Further properties of the state store *)

Lemma ensure_state_file_cases (fs : store) (path : string) :
  fst (ensure_state_file fs path) = fs \/
  exists i,
    locate fs path = Some i /\ contents fs i = None /\
    ensure_state_file fs path = (put fs i (json_dump (JObj [])), Ok tt).
Proof.
  unfold ensure_state_file, path_exists, file_at, write_file.
  destruct (locate fs path) as [i|] eqn:El; [|left; reflexivity].
  destruct (contents fs i) eqn:Ec; [left; reflexivity|].
  cbn [negb]. destruct (can_write fs i); [|left; reflexivity].
  right. exists i. repeat split. exact Ec.
Qed.

Lemma load_state_fst (fs : store) (path : string) :
  fst (load_state fs path) = fst (ensure_state_file fs path).
Proof.
  unfold load_state. destruct (ensure_state_file fs path). reflexivity.
Qed.

(** X1: loading never destroys data.  Every file that exists, the one
    loaded included even when it is malformed, keeps its contents; the
    only place that can change is the one the loaded path leads to,
    under whatever spelling; and no path changes where it leads or what
    it permits.  This holds whether [load_state] returns or raises. *)
Theorem load_state_keeps_files (fs : store) (path : string) :
  let fs' := fst (load_state fs path) in
  (forall q c, file_at fs q = Some c -> file_at fs' q = Some c) /\
  (forall i, locate fs path <> Some i -> contents fs' i = contents fs i) /\
  (forall q, locate fs' q = locate fs q /\
             readable fs' q = readable fs q /\
             writable fs' q = writable fs q).
Proof.
  cbv zeta. rewrite load_state_fst.
  destruct (ensure_state_file_cases fs path) as [->|[i [El [Ec E]]]].
  - repeat split; auto.
  - rewrite E. cbn [fst]. split; [|split].
    + intros q c. unfold file_at, put. cbn [locate contents].
      destruct (locate fs q) as [j|]; [|discriminate].
      destruct (Nat.eqb j i) eqn:Ej; [|auto].
      apply Nat.eqb_eq in Ej. subst j. rewrite Ec. discriminate.
    + intros j Hj. unfold put. cbn [contents].
      destruct (Nat.eqb j i) eqn:Ej; [|reflexivity].
      apply Nat.eqb_eq in Ej. subst j. contradiction.
    + intros q. repeat split.
Qed.

(** X2: loading is stable: a second [load_state] of the same path
    returns or raises what the first did and changes nothing more. *)
Theorem load_state_stable (fs : store) (path : string) :
  load_state (fst (load_state fs path)) path = load_state fs path.
Proof.
  rewrite load_state_fst.
  destruct (ensure_state_file_cases fs path) as [H|[i [El [Ec E]]]].
  - rewrite H. reflexivity.
  - rewrite E. cbn [fst]. unfold load_state at 2. rewrite E.
    unfold load_state, ensure_state_file, path_exists.
    rewrite (file_at_put fs path i _ El). reflexivity.
Qed.

Lemma load_state_snd (fs : store) (q : string) :
  snd (load_state fs q) =
  match locate fs q with
  | None => Err FileNotFoundError
  | Some j =>
      match contents fs j with
      | Some c =>
          if can_read fs j
          then Ok match json_load c with
                  | Some v => v
                  | None => JObj []
                  end
          else Err PermissionError
      | None =>
          if can_write fs j
          then if can_read fs j then Ok (JObj []) else Err PermissionError
          else Err PermissionError
      end
  end.
Proof.
  unfold load_state, ensure_state_file, path_exists, file_at, write_file,
    open_read.
  destruct (locate fs q) as [j|] eqn:El; [|reflexivity].
  destruct (contents fs j) as [c|] eqn:Ec; cbn [negb snd bind].
  - rewrite El, Ec. destruct (can_read fs j); cbn [bind]; [|reflexivity].
    destruct (json_load c); reflexivity.
  - destruct (can_write fs j); cbn [snd bind]; [|reflexivity].
    cbn [put locate contents can_read]. rewrite El, Nat.eqb_refl.
    destruct (can_read fs j); reflexivity.
Qed.

Lemma load_state_snd_ext (fs fs' : store) (q : string) :
  locate fs' q = locate fs q ->
  (forall j, locate fs q = Some j ->
             contents fs' j = contents fs j /\
             can_read fs' j = can_read fs j /\
             can_write fs' j = can_write fs j) ->
  snd (load_state fs' q) = snd (load_state fs q).
Proof.
  intros Hl Hj. rewrite !load_state_snd, Hl.
  destruct (locate fs q) as [j|]; [|reflexivity].
  destruct (Hj j eq_refl) as [Hc [Hr Hw]]. rewrite Hc, Hr, Hw. reflexivity.
Qed.

(** X3: saving to one file does not change what a load of another file
    returns or raises; the two paths have to lead to different places,
    a different spelling is not enough. *)
Theorem save_state_other_path (fs : store) (p q : string) (data : json) :
  locate fs q <> locate fs p ->
  snd (load_state (fst (save_state fs p data)) q) = snd (load_state fs q).
Proof.
  intros Hq. unfold save_state, write_file.
  destruct (locate fs p) as [i|] eqn:El; [|reflexivity].
  destruct (can_write fs i); [|reflexivity].
  cbn [fst]. apply load_state_snd_ext; [reflexivity|].
  intros j Hj. unfold put. cbn [contents can_read can_write].
  destruct (Nat.eqb j i) eqn:Ej; [|repeat split].
  apply Nat.eqb_eq in Ej. subst j. rewrite Hj in Hq. contradiction.
Qed.

Lemma save_state_other_path_witness :
  snd (load_state (fst (save_state sample_files "notes.json" DEFAULTS))
         STATE_FILE)
  = snd (load_state sample_files STATE_FILE).
Proof.
  apply (save_state_other_path sample_files "notes.json" STATE_FILE DEFAULTS).
  discriminate.
Defined.

(** ** Merging defaults twice *)

Lemma dict_set_same (k : string) (x : json) (d : dict) :
  dict_get k d = Some x -> dict_set k x d = d.
Proof.
  induction d as [|[k' v'] t IH]; simpl; [discriminate|].
  destruct (String.eqb k k') eqn:E.
  - intros H. injection H as ->. reflexivity.
  - intros H. rewrite (IH H). reflexivity.
Qed.

Lemma merge_items_fixed (items d : dict) :
  (forall k v, In (k, v) items ->
               if is_dict v
               then exists x, dict_get k d = Some x /\ deep_merge x v = Ok x
               else dict_mem k d = true) ->
  merge_items items (JObj d) = Ok (JObj d).
Proof.
  induction items as [|[k v] rest IH]; intros H; [reflexivity|].
  assert (Hrest : merge_items rest (JObj d) = Ok (JObj d)).
  { apply IH. intros k' v' Hin. apply H. right. exact Hin. }
  specialize (H k v (or_introl eq_refl)). simpl.
  destruct (is_dict v).
  - destruct H as [x [Hg Hx]]. unfold dict_get_default. rewrite Hg, Hx.
    simpl. rewrite (dict_set_same _ _ _ Hg). exact Hrest.
  - unfold dict_setdefault. rewrite H. exact Hrest.
Qed.

Lemma deep_merge_fixed (src : json) :
  wf_json src = true ->
  forall dst r, deep_merge dst src = Ok r -> deep_merge r src = Ok r.
Proof.
  induction src as [ |b|z|f|s|l IHl|items IH] using json_nested_ind;
    try (intros _ dst r H; simpl in H; discriminate).
  intros Hw dst r H.
  rewrite wf_json_obj in Hw. apply andb_prop in Hw as [Hk Hv].
  destruct (is_dict dst) eqn:Ed.
  2:{ destruct (deep_merge_non_dict _ _ _ Ed H) as [-> Hs].
      injection Hs as ->. reflexivity. }
  destruct dst as [| | | | | |d]; try discriminate.
  rewrite deep_merge_unfold in H.
  destruct (merge_items_lookup items Hk d r H) as [d' [-> Hd']].
  rewrite deep_merge_unfold. apply merge_items_fixed.
  intros k v Hin. specialize (Hd' k).
  rewrite (dict_get_of_In _ _ _ Hk Hin) in Hd'.
  destruct (is_dict v) eqn:Ev.
  - destruct Hd' as [x [Hx Hg]]. exists x. split; [exact Hg|].
    rewrite Forall_forall in IH.
    exact (IH _ Hin (wf_values_In _ _ _ Hv Hin) _ _ Hx).
  - rewrite dict_mem_get, Hd'. reflexivity.
Qed.

(** X4: default-merge is idempotent: merging the defaults into a state
    that [_apply_defaults] produced returns that state unchanged. *)
Theorem apply_defaults_idempotent (st r : json) :
  _apply_defaults st = Ok r -> _apply_defaults r = Ok r.
Proof.
  unfold _apply_defaults. intros H.
  assert (Hr : is_dict r = true).
  { assert (Hd : is_dict (if is_dict st then st else JObj []) = true).
    { destruct (is_dict st) eqn:E; [exact E|reflexivity]. }
    destruct (if is_dict st then st else JObj []) as [| | | | | |d];
      try discriminate.
    unfold DEFAULTS in H. rewrite deep_merge_unfold in H.
    exact (merge_items_obj _ _ _ H). }
  rewrite Hr. exact (deep_merge_fixed DEFAULTS eq_refl _ _ H).
Qed.

Lemma apply_defaults_idempotent_witness :
  exists r, _apply_defaults partial_doc = Ok r /\ _apply_defaults r = Ok r.
Proof.
  eexists. split; [reflexivity|].
  apply (apply_defaults_idempotent partial_doc). reflexivity.
Defined.

(** ** What startup leaves in memory *)

Lemma apply_defaults_non_object_state (st : json) :
  is_dict st = false -> _apply_defaults st = Ok DEFAULTS.
Proof.
  intros H. unfold _apply_defaults. rewrite H. reflexivity.
Qed.

Lemma get_path_app (p q : list string) (v : json) :
  get_path (p ++ q) v =
  match get_path p v with
  | Some x => get_path q x
  | None => None
  end.
Proof.
  revert v. induction p as [|k p IH]; intros v; [reflexivity|].
  simpl. destruct v as [| | | | | |o]; try reflexivity.
  destruct (dict_get k o) as [x|]; [apply IH|reflexivity].
Qed.

Lemma deep_merge_complete (src : json) :
  wf_json src = true ->
  forall dst r,
    deep_merge dst src = Ok r ->
    forall p dv,
      get_path p src = Some dv ->
      exists v,
        get_path p r = Some v /\
        (forall k x rest, dv = JObj ((k, x) :: rest) -> is_dict v = true).
Proof.
  intros Hw dst r H p dv Hs.
  assert (Hex : exists v, get_path p r = Some v).
  { destruct (get_path p dst) as [v0|] eqn:E.
    - destruct (deep_merge_preserved _ _ _ H p v0 E) as [v' [Hv' _]].
      exists v'. exact Hv'.
    - exists dv. exact (deep_merge_fills src Hw dst r H p dv E Hs). }
  destruct Hex as [v Hv]. exists v. split; [exact Hv|].
  intros k x rest ->.
  assert (Hchild : get_path (p ++ [k]) src = Some x).
  { rewrite get_path_app, Hs. simpl. rewrite String.eqb_refl. reflexivity. }
  assert (Hr : exists y, get_path (p ++ [k]) r = Some y).
  { destruct (get_path (p ++ [k]) dst) as [y0|] eqn:E.
    - destruct (deep_merge_preserved _ _ _ H _ y0 E) as [y [Hy _]].
      exists y. exact Hy.
    - exists x. exact (deep_merge_fills src Hw dst r H _ x E Hchild). }
  destruct Hr as [y Hy]. rewrite get_path_app, Hv in Hy.
  destruct v; simpl in Hy; try discriminate. reflexivity.
Qed.

(** X5: after [_apply_defaults] the state holds every key of the default
    document, at every depth, and "colors", "base_font" and "content"
    are dicts: the lookups that follow in [__init__] and in [save_all]
    find what they subscript. *)
Theorem apply_defaults_complete (st r : json) :
  _apply_defaults st = Ok r ->
  forall p dv,
    get_path p DEFAULTS = Some dv ->
    exists v,
      get_path p r = Some v /\
      (forall k x rest, dv = JObj ((k, x) :: rest) -> is_dict v = true).
Proof.
  unfold _apply_defaults. intros H.
  exact (deep_merge_complete DEFAULTS eq_refl _ _ H).
Qed.

Lemma apply_defaults_complete_witness :
  exists r,
    _apply_defaults partial_doc = Ok r /\
    exists v,
      get_path ["colors"] r = Some v /\
      (forall k x rest, DEFAULTS_colors = JObj ((k, x) :: rest) ->
                        is_dict v = true).
Proof.
  eexists. split; [reflexivity|].
  apply (apply_defaults_complete partial_doc _ eq_refl ["colors"]
           DEFAULTS_colors).
  reflexivity.
Defined.

(** X6: startup falls back to the default document when the state file
    is missing, does not parse, or holds a value that is not an object.
    The state file has to be readable; when it is missing it has to be
    creatable. *)
Theorem startup_falls_back_to_defaults (fs : store) :
  readable fs STATE_FILE = true ->
  ((file_at fs STATE_FILE = None /\ writable fs STATE_FILE = true) \/
   exists c, file_at fs STATE_FILE = Some c /\
             match json_load c with
             | Some v => is_dict v = false
             | None => True
             end) ->
  snd (startup_state fs) = Ok DEFAULTS.
Proof.
  unfold startup_state. intros Hr [[Hnone Hw]|[c [Hc Hv]]].
  - rewrite (load_state_missing fs STATE_FILE Hnone Hw Hr). reflexivity.
  - rewrite (load_state_existing fs STATE_FILE c Hc Hr). cbn [snd bind].
    destruct (json_load c) as [v|]; [|reflexivity].
    apply apply_defaults_non_object_state. exact Hv.
Qed.

Lemma startup_falls_back_to_defaults_witness :
  snd (startup_state (put sample_files 0 [TLBracket; TRBracket]))
  = Ok DEFAULTS.
Proof.
  apply startup_falls_back_to_defaults; [reflexivity|]. right.
  exists [TLBracket; TRBracket]. split; reflexivity.
Defined.

(** X7: [_apply_defaults] returns exactly on the states whose shape the
    merge accepts, and the only exception it raises is
    [AttributeError]. *)
Theorem apply_defaults_outcome (st : json) :
  match _apply_defaults st with
  | Ok r =>
      merge_ok (if is_dict st then st else JObj []) DEFAULTS = true /\
      is_dict r = true
  | Err e =>
      merge_ok (if is_dict st then st else JObj []) DEFAULTS = false /\
      e = AttributeError
  end.
Proof.
  unfold _apply_defaults.
  destruct (deep_merge (if is_dict st then st else JObj []) DEFAULTS)
    as [r|e] eqn:E.
  - split; [exact (deep_merge_ok_shape DEFAULTS eq_refl _ _ E)|].
    destruct (deep_merge_complete DEFAULTS eq_refl _ _ E [] DEFAULTS eq_refl)
      as [v [Hv Hd]].
    injection Hv as <-. exact (Hd _ _ _ eq_refl).
  - split; [|exact (deep_merge_error _ _ _ E)].
    destruct (merge_ok (if is_dict st then st else JObj []) DEFAULTS) eqn:Hok;
      [|reflexivity].
    destruct (deep_merge_returns DEFAULTS eq_refl _ Hok) as [r Hr].
    congruence.
Qed.

(** * Further properties of the widget *)

(** ** Writes into the state *)

Lemma dict_mem_set (k k' : string) (v : json) (d : dict) :
  dict_mem k' (dict_set k v d) = String.eqb k' k || dict_mem k' d.
Proof.
  rewrite !dict_mem_get.
  destruct (String.eqb k' k) eqn:E.
  - apply String.eqb_eq in E. subst k'. rewrite dict_get_set_same.
    reflexivity.
  - rewrite (dict_get_set_other _ _ _ _ E). reflexivity.
Qed.

Lemma keys_distinct_set (k : string) (v : json) (d : dict) :
  keys_distinct d = true -> keys_distinct (dict_set k v d) = true.
Proof.
  induction d as [|[k' v'] t IH]; simpl; [reflexivity|].
  intros H. apply andb_prop in H as [H1 H2].
  destruct (String.eqb k k') eqn:E; simpl.
  - rewrite H1, H2. reflexivity.
  - rewrite dict_mem_set, (IH H2). rewrite String.eqb_sym, E.
    simpl. rewrite H1. reflexivity.
Qed.

Lemma wf_values_set (k : string) (v : json) (d : dict) :
  wf_values d = true -> wf_json v = true -> wf_values (dict_set k v d) = true.
Proof.
  intros Hd Hv. induction d as [|[k' v'] t IH]; simpl.
  - rewrite Hv. reflexivity.
  - simpl in Hd. apply andb_prop in Hd as [H1 H2].
    destruct (String.eqb k k'); simpl.
    + rewrite Hv, H2. reflexivity.
    + rewrite H1, (IH H2). reflexivity.
Qed.

Lemma wf_json_set (k : string) (v : json) (d : dict) :
  wf_json (JObj d) = true -> wf_json v = true ->
  wf_json (JObj (dict_set k v d)) = true.
Proof.
  rewrite !wf_json_obj. intros H Hv. apply andb_prop in H as [H1 H2].
  rewrite (keys_distinct_set _ _ _ H1), (wf_values_set _ _ _ H2 Hv).
  reflexivity.
Qed.

Lemma wf_json_get (k : string) (x : json) (d : dict) :
  wf_json (JObj d) = true -> dict_get k d = Some x -> wf_json x = true.
Proof.
  rewrite wf_json_obj. intros H Hg. apply andb_prop in H as [_ H].
  exact (wf_values_In _ _ _ H (dict_get_In _ _ _ Hg)).
Qed.

Lemma dict_at_set_section (s k : string) (d1 d : dict) :
  dict_at s d = true -> dict_at s (dict_set k (JObj d1) d) = true.
Proof.
  unfold dict_at. destruct (String.eqb s k) eqn:E.
  - apply String.eqb_eq in E. subst s. rewrite dict_get_set_same.
    reflexivity.
  - rewrite (dict_get_set_other _ _ _ _ E). intros H. exact H.
Qed.

Lemma state_shape_set_section (k : string) (d1 d : dict) :
  state_shape (JObj d) = true ->
  state_shape (JObj (dict_set k (JObj d1) d)) = true.
Proof.
  unfold state_shape. intros H.
  apply andb_prop in H as [H H3]. apply andb_prop in H as [H1 H2].
  rewrite !dict_at_set_section by assumption. reflexivity.
Qed.

Lemma state_shape_set_plain (k : string) (v : json) (d : dict) :
  section_key k = false ->
  state_shape (JObj d) = true ->
  state_shape (JObj (dict_set k v d)) = true.
Proof.
  unfold section_key, state_shape, dict_at. intros Hk.
  apply orb_false_elim in Hk as [Hk E3].
  apply orb_false_elim in Hk as [E1 E2].
  rewrite String.eqb_sym in E1, E2, E3.
  rewrite (dict_get_set_other _ _ _ _ E1), (dict_get_set_other _ _ _ _ E2),
    (dict_get_set_other _ _ _ _ E3).
  intros H. exact H.
Qed.

Lemma dict_at_get (k : string) (d : dict) :
  dict_at k d = true -> exists d1, dict_get k d = Some (JObj d1).
Proof.
  unfold dict_at. destruct (dict_get k d) as [[| | | | | |d1]|];
    try discriminate.
  intros _. exists d1. reflexivity.
Qed.

Lemma state_shape_section (k : string) (d : dict) :
  state_shape (JObj d) = true -> section_key k = true ->
  exists d1, dict_get k d = Some (JObj d1).
Proof.
  unfold state_shape, section_key. intros H Hk.
  apply andb_prop in H as [H H3]. apply andb_prop in H as [H1 H2].
  apply orb_prop in Hk as [Hk|Hk]; [apply orb_prop in Hk as [Hk|Hk]|];
    apply String.eqb_eq in Hk; subst k; apply dict_at_get; assumption.
Qed.

(** What [st[k1][k2] = v] does to a well-shaped state. *)
Lemma set_item2_section (k1 k2 : string) (v st : json) :
  state_shape st = true ->
  section_key k1 = true ->
  exists st',
    set_item2 k1 k2 v st = Ok st' /\
    state_shape st' = true /\
    (wf_json st = true -> wf_json v = true -> wf_json st' = true) /\
    get_path [k1; k2] st' = Some v /\
    (forall a b, String.eqb a k1 && String.eqb b k2 = false ->
                 get_path [a; b] st' = get_path [a; b] st) /\
    (forall a, String.eqb a k1 = false ->
               get_path [a] st' = get_path [a] st).
Proof.
  intros Hs Hk. destruct st as [| | | | | |d]; try discriminate.
  destruct (state_shape_section k1 d Hs Hk) as [d1 Hd1].
  exists (JObj (dict_set k1 (JObj (dict_set k2 v d1)) d)).
  unfold set_item2. rewrite Hd1. split; [reflexivity|].
  split; [exact (state_shape_set_section _ _ _ Hs)|].
  split; [|split; [|split]].
  - intros Hw Hv. apply wf_json_set; [exact Hw|].
    apply wf_json_set; [exact (wf_json_get _ _ _ Hw Hd1)|exact Hv].
  - simpl. rewrite !dict_get_set_same. reflexivity.
  - intros a b Hab. simpl.
    destruct (String.eqb a k1) eqn:Ea.
    + apply String.eqb_eq in Ea. subst a. simpl in Hab.
      rewrite dict_get_set_same, Hd1, (dict_get_set_other _ _ _ _ Hab).
      reflexivity.
    + rewrite (dict_get_set_other _ _ _ _ Ea). reflexivity.
  - intros a Ha. simpl. rewrite (dict_get_set_other _ _ _ _ Ha). reflexivity.
Qed.

(** What [st[k] = v] does to a well-shaped state, for a key that is not
    one of the three sections. *)
Lemma set_item_plain (k : string) (v st : json) :
  state_shape st = true ->
  section_key k = false ->
  exists st',
    set_item k v st = Ok st' /\
    state_shape st' = true /\
    (wf_json st = true -> wf_json v = true -> wf_json st' = true) /\
    get_path [k] st' = Some v /\
    (forall a b, String.eqb a k = false ->
                 get_path [a; b] st' = get_path [a; b] st) /\
    (forall a, String.eqb a k = false ->
               get_path [a] st' = get_path [a] st).
Proof.
  intros Hs Hk. destruct st as [| | | | | |d]; try discriminate.
  exists (JObj (dict_set k v d)). split; [reflexivity|].
  split; [exact (state_shape_set_plain _ _ _ Hk Hs)|].
  split; [|split; [|split]].
  - intros Hw Hv. exact (wf_json_set _ _ _ Hw Hv).
  - simpl. rewrite dict_get_set_same. reflexivity.
  - intros a b Ha. simpl. rewrite (dict_get_set_other _ _ _ _ Ha).
    reflexivity.
  - intros a Ha. simpl. rewrite (dict_get_set_other _ _ _ _ Ha). reflexivity.
Qed.

(** ** Handlers that only write the state *)

Lemma same_widgets_refl (w : widget) : same_widgets w w.
Proof.
  exists (state w), (files w). destruct w. reflexivity.
Qed.

Lemma same_widgets_trans (w1 w2 w3 : widget) :
  same_widgets w1 w2 -> same_widgets w2 w3 -> same_widgets w1 w3.
Proof.
  intros [st1 [fs1 ->]] [st2 [fs2 ->]]. exists st2, fs2. reflexivity.
Qed.

Lemma frames_ret {A : Type} (a : A) : frames (ret a).
Proof.
  intros w. apply same_widgets_refl.
Qed.

Lemma frames_raise {A : Type} (e : exn) : frames (@raise A e).
Proof.
  intros w. apply same_widgets_refl.
Qed.

Lemma frames_gets {A : Type} (f : widget -> A) : frames (gets f).
Proof.
  intros w. apply same_widgets_refl.
Qed.

Lemma frames_bind {A B : Type} (c : M A) (k : A -> M B) :
  frames c -> (forall a, frames (k a)) -> frames (mbind c k).
Proof.
  intros Hc Hk w. unfold mbind. specialize (Hc w).
  destruct (c w) as [w1 [a|e]]; cbn [fst] in *.
  - exact (same_widgets_trans _ _ _ Hc (Hk a w1)).
  - exact Hc.
Qed.

Lemma frames_try_except {A : Type} (c : M A) (h : exn -> M A) :
  frames c -> (forall e, frames (h e)) -> frames (try_except c h).
Proof.
  intros Hc Hh w. unfold try_except. specialize (Hc w).
  destruct (c w) as [w1 [a|e]]; cbn [fst] in *.
  - exact Hc.
  - exact (same_widgets_trans _ _ _ Hc (Hh e w1)).
Qed.

Lemma frames_intvar_get (v : result Z) : frames (intvar_get v).
Proof.
  destruct v; [apply frames_ret|apply frames_raise].
Qed.

Lemma frames_state_set (k : string) (v : json) : frames (state_set k v).
Proof.
  intros w. unfold state_set.
  destruct (set_item k v (state w)) as [s|e]; cbn [fst].
  - exists s, (files w). destruct w. reflexivity.
  - apply same_widgets_refl.
Qed.

Lemma frames_state_set2 (k1 k2 : string) (v : json) :
  frames (state_set2 k1 k2 v).
Proof.
  intros w. unfold state_set2.
  destruct (set_item2 k1 k2 v (state w)) as [s|e]; cbn [fst].
  - exists s, (files w). destruct w. reflexivity.
  - apply same_widgets_refl.
Qed.

Lemma frames_save_state_file : frames save_state_file.
Proof.
  intros w. unfold save_state_file.
  destruct (save_state (files w) STATE_FILE (state w)) as [fs r].
  cbn [fst]. exists (state w), fs. destruct w. reflexivity.
Qed.

Lemma frames_save_all : frames save_all.
Proof.
  unfold save_all.
  repeat first
    [ apply frames_bind; [|intros ?]
    | apply frames_gets
    | apply frames_state_set2
    | apply frames_state_set
    | apply frames_intvar_get
    | apply frames_save_state_file
    | apply frames_try_except; [|intros ?]
    | apply frames_ret ].
Qed.

(** X8: [save_all] changes nothing but the in-memory state and the file
    system, whether it returns or raises: the text, its tags and the
    selection, the fonts, the variables, the colours of the widgets, the
    window geometry and the dialogs shown are as before. *)
Theorem save_all_frame (w : widget) :
  let w' := fst (save_all w) in
  text_chars w' = text_chars w /\
  text_tags w' = text_tags w /\
  base_font w' = base_font w /\
  base_font_var w' = base_font_var w /\
  base_size_var w' = base_size_var w /\
  font_families w' = font_families w /\
  border_var w' = border_var w /\
  alpha_var w' = alpha_var w /\
  root_topmost w' = root_topmost w /\
  root_geometry w' = root_geometry w /\
  (text_fg w', text_insertbackground w', container_bg w', root_bg w') =
  (text_fg w, text_insertbackground w, container_bg w, root_bg w) /\
  dialogs w' = dialogs w.
Proof.
  cbv zeta. destruct (frames_save_all w) as [st [fs ->]].
  repeat split.
Qed.

(** ** Running [save_all] *)

Lemma runs_to_bind (P R Q : json -> store -> Prop) (c1 c2 : M unit)
  (r : result unit) (w : widget) :
  runs_to P c1 (Ok tt) R w ->
  (forall st1 fs1, R st1 fs1 ->
                   runs_to R c2 r Q (set_files fs1 (set_state st1 w))) ->
  runs_to P (c1 ;;; c2) r Q w.
Proof.
  intros H1 H2 HP. destruct (H1 HP) as [st1 [fs1 [E1 HR]]].
  destruct (H2 st1 fs1 HR HR) as [st2 [fs2 [E2 HQ]]].
  exists st2, fs2. split; [|exact HQ].
  unfold mbind. rewrite E1. exact E2.
Qed.

Lemma runs_to_gets {A : Type} (P Q : json -> store -> Prop)
  (f : widget -> A) (k : A -> M unit) (r : result unit) (w : widget) :
  runs_to P (k (f w)) r Q w -> runs_to P (x <-- gets f ;; k x) r Q w.
Proof.
  intros H HP. exact (H HP).
Qed.

Lemma runs_to_try_ok (P Q : json -> store -> Prop) (c : M unit)
  (h : exn -> M unit) (w : widget) :
  runs_to P c (Ok tt) Q w -> runs_to P (try_except c h) (Ok tt) Q w.
Proof.
  intros H HP. destruct (H HP) as [st' [fs' [E HQ]]].
  exists st', fs'. split; [|exact HQ].
  unfold try_except. rewrite E. reflexivity.
Qed.

Lemma holds_apart2 (k1 k2 : string) (st st' : json)
  (facts : list (list string * json)) :
  (forall a b, String.eqb a k1 && String.eqb b k2 = false ->
               get_path [a; b] st' = get_path [a; b] st) ->
  (forall a, String.eqb a k1 = false -> get_path [a] st' = get_path [a] st) ->
  forallb (fun pv => apart2 k1 k2 (fst pv)) facts = true ->
  holds facts st -> holds facts st'.
Proof.
  intros H2 H1. induction facts as [|[p v] rest IH]; [intros _ _; exact I|].
  cbn [forallb fst holds]. intros Ha [Hp Hrest].
  apply andb_prop in Ha as [Hap Har]. split; [|exact (IH Har Hrest)].
  destruct p as [|a [|b [|c p]]]; try discriminate Hap; simpl in Hap;
    apply negb_true_iff in Hap.
  - rewrite (H1 a Hap). exact Hp.
  - rewrite (H2 a b Hap). exact Hp.
Qed.

Lemma holds_apart1 (k : string) (st st' : json)
  (facts : list (list string * json)) :
  (forall a b, String.eqb a k = false ->
               get_path [a; b] st' = get_path [a; b] st) ->
  (forall a, String.eqb a k = false -> get_path [a] st' = get_path [a] st) ->
  forallb (fun pv => apart1 k (fst pv)) facts = true ->
  holds facts st -> holds facts st'.
Proof.
  intros H2 H1. induction facts as [|[p v] rest IH]; [intros _ _; exact I|].
  cbn [forallb fst holds]. intros Ha [Hp Hrest].
  apply andb_prop in Ha as [Hap Har]. split; [|exact (IH Har Hrest)].
  destruct p as [|a [|b [|c p]]]; try discriminate Hap; simpl in Hap;
    apply negb_true_iff in Hap.
  - rewrite (H1 a Hap). exact Hp.
  - rewrite (H2 a b Hap). exact Hp.
Qed.

Lemma runs_to_state_set2 (wf0 : bool) (fs : store)
  (facts : list (list string * json)) (k1 k2 : string) (v : json)
  (w : widget) :
  section_key k1 = true ->
  wf_json v = true ->
  forallb (fun pv => apart2 k1 k2 (fst pv)) facts = true ->
  runs_to (saving wf0 fs facts) (state_set2 k1 k2 v) (Ok tt)
    (saving wf0 fs (([k1; k2], v) :: facts)) w.
Proof.
  intros Hk Hv Hap [Hs [Hw [Hfs Hf]]].
  destruct (set_item2_section k1 k2 v (state w) Hs Hk)
    as [st' [E [Hs' [Hw' [Hnew [H2 H1]]]]]].
  exists st', (files w). split.
  - unfold state_set2. rewrite E. destruct w. reflexivity.
  - split; [exact Hs'|]. split; [|split; [exact Hfs|]].
    + intros H0. exact (Hw' (Hw H0) Hv).
    + split; [exact Hnew|].
      exact (holds_apart2 k1 k2 _ _ facts H2 H1 Hap Hf).
Qed.

Lemma runs_to_state_set (wf0 : bool) (fs : store)
  (facts : list (list string * json)) (k : string) (v : json) (w : widget) :
  section_key k = false ->
  wf_json v = true ->
  forallb (fun pv => apart1 k (fst pv)) facts = true ->
  runs_to (saving wf0 fs facts) (state_set k v) (Ok tt)
    (saving wf0 fs (([k], v) :: facts)) w.
Proof.
  intros Hk Hv Hap [Hs [Hw [Hfs Hf]]].
  destruct (set_item_plain k v (state w) Hs Hk)
    as [st' [E [Hs' [Hw' [Hnew [H2 H1]]]]]].
  exists st', (files w). split.
  - unfold state_set. rewrite E. destruct w. reflexivity.
  - split; [exact Hs'|]. split; [|split; [exact Hfs|]].
    + intros H0. exact (Hw' (Hw H0) Hv).
    + split; [exact Hnew|].
      exact (holds_apart1 k _ _ facts H2 H1 Hap Hf).
Qed.

(** *** The captured tags as JSON *)

Lemma capture_tag_ext (w1 w2 : widget) (tag : string) :
  text_tags w1 = text_tags w2 -> text_chars w1 = text_chars w2 ->
  capture_tag w1 tag = capture_tag w2 tag.
Proof.
  intros Ht Hc.
  unfold capture_tag, tag_cget_font, font_of_tag, tag_cget_foreground,
    tag_cget_background, tag_ranges.
  rewrite Ht, Hc. reflexivity.
Qed.

Lemma capture_tags_ext (w1 w2 : widget) :
  text_tags w1 = text_tags w2 -> text_chars w1 = text_chars w2 ->
  _capture_tags w1 = _capture_tags w2.
Proof.
  intros Ht Hc. unfold _capture_tags, tag_names. rewrite Ht.
  generalize (map fst (text_tags w2)) ([] : tag_map).
  intros names. induction names as [|tag rest IH]; intros acc; [reflexivity|].
  simpl. rewrite (capture_tag_ext w1 w2 tag Ht Hc).
  destruct (String.eqb tag "sel"); [apply IH|].
  destruct (entry_nonempty (capture_tag w2 tag)); apply IH.
Qed.

Lemma string_mem_tag_map_set (k tag : string) (e : tag_entry) (tags : tag_map) :
  string_mem k (map fst (tag_map_set tag e tags)) =
  String.eqb k tag || string_mem k (map fst tags).
Proof.
  induction tags as [|[name old] t IH]; simpl.
  - reflexivity.
  - destruct (String.eqb tag name) eqn:E; simpl.
    + apply String.eqb_eq in E. subst name.
      destruct (String.eqb k tag); reflexivity.
    + rewrite IH. destruct (String.eqb k name), (String.eqb k tag);
        reflexivity.
Qed.

Lemma distinct_tag_map_set (tag : string) (e : tag_entry) (tags : tag_map) :
  distinct (map fst tags) = true ->
  distinct (map fst (tag_map_set tag e tags)) = true.
Proof.
  induction tags as [|[name old] t IH]; simpl; [reflexivity|].
  intros H. apply andb_prop in H as [H1 H2].
  destruct (String.eqb tag name) eqn:E; simpl.
  - rewrite H1, H2. reflexivity.
  - rewrite string_mem_tag_map_set, (IH H2).
    rewrite String.eqb_sym, E. simpl. rewrite H1. reflexivity.
Qed.

Lemma capture_loop_distinct (w : widget) (names : list string) :
  forall acc,
    distinct (map fst acc) = true ->
    distinct (map fst (capture_loop w names acc)) = true.
Proof.
  induction names as [|tag rest IH]; intros acc H; [exact H|].
  simpl. destruct (String.eqb tag "sel"); [exact (IH acc H)|].
  destruct (entry_nonempty (capture_tag w tag)); [|exact (IH acc H)].
  apply IH. apply distinct_tag_map_set. exact H.
Qed.

Lemma wf_json_entry (e : tag_entry) : wf_json (entry_to_json e) = true.
Proof.
  destruct e as [[fnt fg bg] rs]. unfold entry_to_json. cbn [e_config e_ranges].
  rewrite wf_json_obj. cbn [keys_distinct wf_values dict_mem].
  assert (Hc : wf_json (config_to_json (mkConfig fnt fg bg)) = true).
  { destruct fnt, fg, bg; reflexivity. }
  rewrite Hc. rewrite wf_json_list.
  assert (Hr : wf_list
                 (map (fun se => JList [ JStr (index_to_string (fst se));
                                         JStr (index_to_string (snd se)) ])
                    rs) = true).
  { induction rs as [|r rs IH]; [reflexivity|]. simpl. exact IH. }
  rewrite Hr. reflexivity.
Qed.

Lemma wf_json_tags (tags : tag_map) :
  distinct (map fst tags) = true -> wf_json (tags_to_json tags) = true.
Proof.
  intros H. unfold tags_to_json. rewrite wf_json_obj.
  assert (Hmem : forall k (l : tag_map),
             dict_mem k (map (fun te => (fst te, entry_to_json (snd te))) l)
             = string_mem k (map fst l)).
  { intros k l. induction l as [|[n e] l IH]; [reflexivity|].
    simpl. rewrite IH. reflexivity. }
  apply andb_true_intro. split.
  - induction tags as [|[n e] t IH]; [reflexivity|].
    simpl in H |- *. apply andb_prop in H as [H1 H2].
    rewrite Hmem, H1, (IH H2). reflexivity.
  - clear H. induction tags as [|[n e] t IH]; [reflexivity|].
    cbn [map wf_values fst snd]. rewrite wf_json_entry, IH. reflexivity.
Qed.

Lemma wf_json_captured (w : widget) :
  wf_json (tags_to_json (_capture_tags w)) = true.
Proof.
  apply wf_json_tags. unfold _capture_tags.
  apply capture_loop_distinct. reflexivity.
Qed.

Lemma runs_to_ret_bind {A : Type} (P Q : json -> store -> Prop) (a : A)
  (k : A -> M unit) (r : result unit) (w : widget) :
  runs_to P (k a) r Q w -> runs_to P (x <-- ret a ;; k x) r Q w.
Proof.
  intros H HP. exact (H HP).
Qed.

Lemma runs_to_save_state_file (wf0 : bool) (fs : store)
  (facts : list (list string * json)) (w : widget) :
  writable fs STATE_FILE = true ->
  runs_to (saving wf0 fs facts) save_state_file (Ok tt)
    (fun st' fs' =>
       state_shape st' = true /\
       (wf0 = true -> wf_json st' = true) /\
       holds facts st' /\
       fs' = fst (save_state fs STATE_FILE st')) w.
Proof.
  intros Hwr [Hs [Hw [Hfs Hf]]].
  exists (state w), (fst (save_state (files w) STATE_FILE (state w))). split.
  - unfold save_state_file, save_state. rewrite Hfs.
    destruct (write_file_returns fs STATE_FILE (json_dump (state w)) Hwr)
      as [i [_ E]].
    rewrite E. destruct w. reflexivity.
  - rewrite Hfs. repeat split; assumption.
Qed.

Ltac widget_fields :=
  cbn [state files text_chars text_tags text_fg text_insertbackground
       base_font base_font_var base_size_var font_families font_combo_values
       border_var alpha_var container_bg root_bg root_topmost root_geometry
       start_w start_h start_rx start_ry dialogs
       set_files set_state].

Ltac save_write :=
  eapply runs_to_bind;
  [ first [ apply runs_to_state_set2
          | apply runs_to_try_ok; apply runs_to_state_set
          | apply runs_to_state_set ];
    first [ reflexivity | apply wf_json_captured ]
  | intros ? ? _ ].

Lemma save_all_runs (wf0 : bool) (fs0 : store) (w : widget) (b : Z) :
  border_var w = Ok b ->
  writable fs0 STATE_FILE = true ->
  runs_to (saving wf0 fs0 []) save_all (Ok tt)
    (fun st' fs' =>
       state_shape st' = true /\
       (wf0 = true -> wf_json st' = true) /\
       holds (saved_fields w b) st' /\
       fs' = fst (save_state fs0 STATE_FILE st')) w.
Proof.
  intros Hb Hwr. unfold save_all, saved_fields.
  apply runs_to_gets. save_write.
  apply runs_to_gets.
  match goal with
  | |- context [_capture_tags ?x] =>
      rewrite (capture_tags_ext x w eq_refl eq_refl)
  end.
  save_write.
  apply runs_to_gets; widget_fields. save_write.
  apply runs_to_gets; widget_fields. save_write.
  apply runs_to_gets; widget_fields. save_write.
  apply runs_to_gets; widget_fields. save_write.
  apply runs_to_gets; widget_fields. rewrite Hb. cbn [intvar_get].
  apply runs_to_ret_bind. save_write.
  apply runs_to_gets; widget_fields. save_write.
  apply runs_to_gets; widget_fields. save_write.
  apply runs_to_gets; widget_fields.
  save_write. save_write. save_write. save_write.
  apply runs_to_gets; widget_fields. save_write.
  apply runs_to_save_state_file. exact Hwr.
Qed.

Lemma load_state_after_save (fs : store) (path : string) (doc : json) :
  wf_json doc = true ->
  writable fs path = true ->
  readable fs path = true ->
  load_state (fst (save_state fs path doc)) path =
  (fst (save_state fs path doc), Ok doc).
Proof.
  intros Hw Hwr Hr. unfold save_state.
  destruct (write_file_returns fs path (json_dump doc) Hwr) as [i [El E]].
  rewrite E. cbn [fst].
  rewrite (load_state_existing _ path _ (file_at_put fs path i _ El) Hr).
  rewrite (json_load_dump doc Hw). reflexivity.
Qed.

Lemma saving_start (w : widget) :
  state_shape (state w) = true ->
  saving (wf_json (state w)) (files w) [] (state w) (files w).
Proof.
  intros Hs. split; [exact Hs|]. split; [intros H; exact H|].
  split; [reflexivity|exact I].
Qed.

(** X9: on a state shaped as [_apply_defaults] leaves it, with an
    integer in the border box and a state file that can be written,
    [save_all] returns normally, records in the state what the widgets
    show (text, tags, the four colours, border thickness, opacity, pin,
    base font, geometry) and writes that state to the state file. *)
Theorem save_all_records_widget (w : widget) (b : Z) :
  state_shape (state w) = true ->
  border_var w = Ok b ->
  writable (files w) STATE_FILE = true ->
  exists st',
    save_all w =
    (set_files (fst (save_state (files w) STATE_FILE st')) (set_state st' w),
     Ok tt) /\
    state_shape st' = true /\
    holds (saved_fields w b) st' /\
    file_at (fst (save_state (files w) STATE_FILE st')) STATE_FILE
    = Some (json_dump st').
Proof.
  intros Hs Hb Hwr.
  destruct (save_all_runs (wf_json (state w)) (files w) w b Hb Hwr
              (saving_start w Hs))
    as [st' [fs' [E [Hs' [_ [Hf ->]]]]]].
  exists st'. split; [exact E|]. split; [exact Hs'|]. split; [exact Hf|].
  unfold save_state.
  destruct (write_file_returns (files w) STATE_FILE (json_dump st') Hwr)
    as [i [El Ew]].
  rewrite Ew. exact (file_at_put _ _ _ _ El).
Qed.

Lemma save_all_records_widget_witness :
  exists st',
    save_all sample_widget =
    (set_files (fst (save_state (files sample_widget) STATE_FILE st'))
       (set_state st' sample_widget),
     Ok tt) /\
    state_shape st' = true /\
    holds (saved_fields sample_widget 2) st' /\
    file_at (fst (save_state (files sample_widget) STATE_FILE st')) STATE_FILE
    = Some (json_dump st').
Proof.
  apply (save_all_records_widget sample_widget 2); reflexivity.
Defined.

(** X10: after [save_all] has returned, loading the state file yields
    the in-memory state: what is on disk is what is in memory.  The
    state file has to be writable and readable. *)
Theorem save_all_then_load (w : widget) (b : Z) :
  state_shape (state w) = true ->
  wf_json (state w) = true ->
  border_var w = Ok b ->
  writable (files w) STATE_FILE = true ->
  readable (files w) STATE_FILE = true ->
  snd (save_all w) = Ok tt /\
  load_state (files (fst (save_all w))) STATE_FILE =
  (files (fst (save_all w)), Ok (state (fst (save_all w)))).
Proof.
  intros Hs Hw Hb Hwr Hr.
  destruct (save_all_runs (wf_json (state w)) (files w) w b Hb Hwr
              (saving_start w Hs))
    as [st' [fs' [E [_ [Hw' [_ ->]]]]]].
  rewrite E. cbn [fst snd]. split; [reflexivity|].
  widget_fields.
  apply load_state_after_save; [exact (Hw' Hw)|exact Hwr|exact Hr].
Qed.

Lemma save_all_then_load_witness :
  snd (save_all sample_widget) = Ok tt /\
  load_state (files (fst (save_all sample_widget))) STATE_FILE =
  (files (fst (save_all sample_widget)),
   Ok (state (fst (save_all sample_widget)))).
Proof.
  apply (save_all_then_load sample_widget 2); reflexivity.
Defined.

Lemma runs_to_raise_bind {A : Type} (P : json -> store -> Prop) (e : exn)
  (k : A -> M unit) (w : widget) :
  runs_to P (x <-- raise e ;; k x) (Err e) P w.
Proof.
  intros HP. exists (state w), (files w). split; [|exact HP].
  destruct w. reflexivity.
Qed.

(** X11: when the border box holds no integer, [save_all] raises what
    reading the box raises, [TclError] or, for an infinite number,
    [OverflowError], and writes no file, but the in-memory state has
    already taken the text, the tags and the four colours. *)
Theorem save_all_bad_border (w : widget) (e : exn) :
  state_shape (state w) = true ->
  border_var w = Err e ->
  snd (save_all w) = Err e /\
  files (fst (save_all w)) = files w /\
  holds
    [ (["colors"; "border"], JStr (root_bg w));
      (["colors"; "accent"], JStr (text_insertbackground w));
      (["colors"; "text"], JStr (text_fg w));
      (["colors"; "background"], JStr (container_bg w));
      (["content"; "tags"], tags_to_json (_capture_tags w));
      (["content"; "text"], JStr (text_chars w)) ]
    (state (fst (save_all w))).
Proof.
  intros Hs Hb.
  assert (H : runs_to (saving false (files w) []) save_all (Err e)
                (saving false (files w)
                   [ (["colors"; "border"], JStr (root_bg w));
                     (["colors"; "accent"], JStr (text_insertbackground w));
                     (["colors"; "text"], JStr (text_fg w));
                     (["colors"; "background"], JStr (container_bg w));
                     (["content"; "tags"], tags_to_json (_capture_tags w));
                     (["content"; "text"], JStr (text_chars w)) ]) w).
  { unfold save_all.
    apply runs_to_gets. save_write.
    apply runs_to_gets.
    match goal with
    | |- context [_capture_tags ?x] =>
        rewrite (capture_tags_ext x w eq_refl eq_refl)
    end.
    save_write.
    apply runs_to_gets; widget_fields. save_write.
    apply runs_to_gets; widget_fields. save_write.
    apply runs_to_gets; widget_fields. save_write.
    apply runs_to_gets; widget_fields. save_write.
    apply runs_to_gets; widget_fields. rewrite Hb. cbn [intvar_get].
    apply runs_to_raise_bind. }
  destruct H as [st' [fs' [E [_ [_ [-> Hf]]]]]].
  { split; [exact Hs|]. split; [discriminate|]. split; [reflexivity|exact I]. }
  rewrite E. cbn [fst snd]. widget_fields.
  split; [reflexivity|]. split; [reflexivity|exact Hf].
Qed.

Lemma save_all_bad_border_witness :
  snd (save_all sample_bad_border) = Err TclError /\
  files (fst (save_all sample_bad_border)) = files sample_bad_border.
Proof.
  destruct (save_all_bad_border sample_bad_border TclError) as [H1 [H2 _]];
    [reflexivity|reflexivity|].
  split; [exact H1|exact H2].
Defined.

(** ** Style actions on a selection *)

Lemma last_In {A : Type} (l : list A) (x : A) : In (last l x) (x :: l).
Proof.
  induction l as [|y l IH]; [left; reflexivity|].
  destruct l as [|z l]; [right; left; reflexivity|].
  change (last (y :: z :: l) x) with (last (z :: l) x).
  destruct IH as [H|H]; [left; exact H|right; right; exact H].
Qed.

Lemma rev_head_last {A : Type} (x : A) (l : list A) :
  exists t, rev (x :: l) = last l x :: t.
Proof.
  destruct (exists_last (l := x :: l)) as [l' [a E]]; [discriminate|].
  assert (H : last (x :: l) x = a) by (rewrite E; apply last_last).
  assert (Ha : last l x = a).
  { destruct l as [|y l]; exact H. }
  exists (rev l'). rewrite E, rev_unit, Ha. reflexivity.
Qed.

Lemma tag_find_some_In (tag : string) (info : tag_info) (tags : tag_table) :
  tag_find tag tags = Some info -> In (tag, info) tags.
Proof.
  induction tags as [|[k x] t IH]; simpl; [discriminate|].
  destruct (String.eqb tag k) eqn:E.
  - apply String.eqb_eq in E. subst k. intros H. injection H as ->.
    left. reflexivity.
  - intros H. right. exact (IH H).
Qed.

Lemma tag_find_cover_length (w : widget) (tag : string) (info : tag_info) :
  wf_widget w = true ->
  tag_find tag (text_tags w) = Some info ->
  List.length (t_cover info) = buffer_length w.
Proof.
  intros Hwf E. pose proof (wf_tags_cover _ _ Hwf) as Hc.
  rewrite Forall_forall in Hc.
  exact (Hc _ (tag_find_some_In _ _ _ E)).
Qed.

Lemma sel_cover_length (w : widget) :
  wf_widget w = true ->
  sel_cover w = [] \/ List.length (sel_cover w) = buffer_length w.
Proof.
  intros Hwf. unfold sel_cover.
  destruct (tag_find "sel" (text_tags w)) as [info|] eqn:E;
    [|left; reflexivity].
  right. exact (tag_find_cover_length w "sel" info Hwf E).
Qed.

Lemma get_selection_span (w : widget) (a b : nat) :
  wf_widget w = true ->
  selection_span w = Some (a, b) ->
  _get_selection w =
  (w, Ok (Some (index_of_offset (buffer (text_chars w)) a,
                index_of_offset (buffer (text_chars w)) b))) /\
  (a <= buffer_length w)%nat /\ (b <= buffer_length w)%nat.
Proof.
  intros Hwf Hspan. unfold selection_span in Hspan.
  destruct (runs (sel_cover w) 0 None) as [|[a0 e0] rest] eqn:Er;
    [discriminate|].
  injection Hspan as <- <-.
  assert (Hb : Forall (fun se => (fst se <= buffer_length w)%nat /\
                                 (snd se <= buffer_length w)%nat)
                 ((a0, e0) :: rest)).
  { rewrite <- Er.
    destruct (sel_cover_length w Hwf) as [H0|Hn].
    - rewrite H0 in Er. discriminate Er.
    - rewrite <- Hn. apply (runs_bounds (sel_cover w) 0 None). discriminate. }
  assert (Hranges :
           tag_ranges w "sel" =
           map (fun se =>
                  (index_of_offset (buffer (text_chars w)) (fst se),
                   index_of_offset (buffer (text_chars w)) (snd se)))
             ((a0, e0) :: rest)).
  { unfold tag_ranges. unfold sel_cover in Er.
    destruct (tag_find "sel" (text_tags w)) as [info|];
      [rewrite Er; reflexivity|discriminate Er]. }
  split.
  - assert (H1 : index_sel_first w =
                 (w, Ok (index_of_offset (buffer (text_chars w)) a0))).
    { unfold index_sel_first. rewrite Hranges. reflexivity. }
    assert (H2 : index_sel_last w =
                 (w, Ok (index_of_offset (buffer (text_chars w))
                           (snd (last rest (a0, e0)))))).
    { unfold index_sel_last. rewrite Hranges, <- map_rev.
      destruct (rev_head_last (a0, e0) rest) as [t Ht]. rewrite Ht.
      destruct (last rest (a0, e0)). reflexivity. }
    unfold _get_selection, try_except, mbind. rewrite H1, H2. reflexivity.
  - rewrite Forall_forall in Hb. split.
    + exact (proj1 (Hb (a0, e0) (or_introl eq_refl))).
    + exact (proj2 (Hb _ (last_In rest (a0, e0)))).
Qed.

Lemma tag_find_update (n : nat) (tag t : string) (f : tag_info -> tag_info)
  (tags : tag_table) :
  tag_find t (tag_update n tag f tags) =
  if String.eqb t tag
  then Some (f match tag_find tag tags with
               | Some x => x
               | None => blank_tag n
               end)
  else tag_find t tags.
Proof.
  induction tags as [|[k x] rest IH]; simpl.
  - destruct (String.eqb t tag); reflexivity.
  - destruct (String.eqb tag k) eqn:E; simpl.
    + apply String.eqb_eq in E. subst k.
      destruct (String.eqb t tag); reflexivity.
    + rewrite IH. destruct (String.eqb t k) eqn:Et; [|reflexivity].
      apply String.eqb_eq in Et. subst k.
      rewrite String.eqb_sym, E. reflexivity.
Qed.

Lemma string_mem_tag_update (n : nat) (k tag : string)
  (f : tag_info -> tag_info) (tags : tag_table) :
  string_mem k (map fst (tag_update n tag f tags)) =
  String.eqb k tag || string_mem k (map fst tags).
Proof.
  induction tags as [|[name old] t IH]; simpl.
  - reflexivity.
  - destruct (String.eqb tag name) eqn:E; simpl.
    + apply String.eqb_eq in E. subst name.
      destruct (String.eqb k tag); reflexivity.
    + rewrite IH. destruct (String.eqb k name), (String.eqb k tag);
        reflexivity.
Qed.

Lemma wf_tags_update (n : nat) (tag : string) (f : tag_info -> tag_info)
  (tags : tag_table) :
  (forall x, List.length (t_cover x) = n -> List.length (t_cover (f x)) = n) ->
  wf_tags n tags = true ->
  wf_tags n (tag_update n tag f tags) = true.
Proof.
  intros Hf. unfold wf_tags.
  induction tags as [|[name old] t IH]; intros H.
  - simpl. rewrite (Hf (blank_tag n)) by apply repeat_length.
    rewrite Nat.eqb_refl. reflexivity.
  - apply andb_prop in H as [Hd Hc]. simpl in Hd, Hc.
    apply andb_prop in Hd as [Hd1 Hd2]. apply andb_prop in Hc as [Hc1 Hc2].
    assert (IH' := IH (andb_true_intro (conj Hd2 Hc2))).
    apply andb_prop in IH' as [IHd IHc].
    simpl. destruct (String.eqb tag name) eqn:E; simpl.
    + rewrite Hd1, Hd2, Hc2.
      rewrite (Hf old) by (apply Nat.eqb_eq; exact Hc1).
      rewrite Nat.eqb_refl. reflexivity.
    + rewrite string_mem_tag_update, IHd, IHc, Hc1.
      rewrite String.eqb_sym, E. simpl. rewrite Hd1. reflexivity.
Qed.

Lemma tag_update_compose (n : nat) (tag : string)
  (f g : tag_info -> tag_info) (tags : tag_table) :
  tag_update n tag g (tag_update n tag f tags) =
  tag_update n tag (fun x => g (f x)) tags.
Proof.
  induction tags as [|[name old] t IH]; simpl.
  - rewrite String.eqb_refl. reflexivity.
  - destruct (String.eqb tag name) eqn:E; simpl; rewrite E.
    + reflexivity.
    + rewrite IH. reflexivity.
Qed.

Lemma tag_update_ext (n : nat) (tag : string) (f g : tag_info -> tag_info)
  (tags : tag_table) :
  (forall x, f x = g x) ->
  tag_update n tag f tags = tag_update n tag g tags.
Proof.
  intros H. induction tags as [|[name old] t IH]; simpl.
  - rewrite H. reflexivity.
  - destruct (String.eqb tag name); [rewrite H|rewrite IH]; reflexivity.
Qed.

Lemma save_state_at (fs : store) (p : string) (d : json) :
  writable fs p = true ->
  file_at (fst (save_state fs p d)) p = Some (json_dump d).
Proof.
  intros Hwr. unfold save_state.
  destruct (write_file_returns fs p (json_dump d) Hwr) as [i [El E]].
  rewrite E. exact (file_at_put _ _ _ _ El).
Qed.

Lemma writable_save_state (fs : store) (p q : string) (d : json) :
  writable (fst (save_state fs p d)) q = writable fs q.
Proof.
  unfold save_state, write_file.
  destruct (locate fs p) as [i|]; [|reflexivity].
  destruct (can_write fs i); reflexivity.
Qed.

Lemma keeps_of_frames {A B : Type} (proj : widget -> B) (c : M A) :
  (forall st fs w, proj (set_files fs (set_state st w)) = proj w) ->
  frames c -> keeps proj c.
Proof.
  intros Hp Hc w. destruct (Hc w) as [st [fs ->]]. apply Hp.
Qed.

Lemma keeps_bind {A B C : Type} (proj : widget -> C) (c : M A)
  (k : A -> M B) :
  keeps proj c -> (forall a, keeps proj (k a)) -> keeps proj (mbind c k).
Proof.
  intros Hc Hk w. unfold mbind. specialize (Hc w).
  destruct (c w) as [w1 [a|e]]; cbn [fst] in *.
  - rewrite (Hk a w1). exact Hc.
  - exact Hc.
Qed.

Lemma keeps_try_except {A C : Type} (proj : widget -> C) (c : M A)
  (h : exn -> M A) :
  keeps proj c -> (forall e, keeps proj (h e)) -> keeps proj (try_except c h).
Proof.
  intros Hc Hh w. unfold try_except. specialize (Hc w).
  destruct (c w) as [w1 [a|e]]; cbn [fst] in *.
  - exact Hc.
  - rewrite (Hh e w1). exact Hc.
Qed.

Lemma keeps_modify {C : Type} (proj : widget -> C) (f : widget -> widget) :
  (forall w, proj (f w) = proj w) -> keeps proj (modify f).
Proof.
  intros H w. apply H.
Qed.

Lemma keeps_pure {A C : Type} (proj : widget -> C) (c : M A) :
  (forall w, fst (c w) = w) -> keeps proj c.
Proof.
  intros H w. rewrite H. reflexivity.
Qed.

Lemma save_all_ok (w : widget) (b : Z) :
  state_shape (state w) = true ->
  border_var w = Ok b ->
  writable (files w) STATE_FILE = true ->
  exists st',
    save_all w =
    (set_files (fst (save_state (files w) STATE_FILE st')) (set_state st' w),
     Ok tt) /\
    state_shape st' = true /\
    (wf_json (state w) = true -> wf_json st' = true) /\
    holds (saved_fields w b) st'.
Proof.
  intros Hs Hb Hwr.
  destruct (save_all_runs (wf_json (state w)) (files w) w b Hb Hwr
              (saving_start w Hs))
    as [st' [fs' [E [Hs' [Hw' [Hf ->]]]]]].
  exists st'. split; [exact E|]. split; [exact Hs'|].
  split; [exact Hw'|exact Hf].
Qed.

(** ** When [save_all] returns *)

Lemma sect_set_item2 (s k1 k2 : string) (v st st' : json) :
  set_item2 k1 k2 v st = Ok st' -> sect s st' = sect s st.
Proof.
  destruct st as [| | | | | |d]; try discriminate. unfold set_item2.
  destruct (dict_get k1 d) as [[| | | | | |d1]|] eqn:E; try discriminate.
  intros H. injection H as <-. unfold sect, dict_at.
  destruct (String.eqb s k1) eqn:Es.
  - apply String.eqb_eq in Es. subst s.
    rewrite dict_get_set_same, E. reflexivity.
  - rewrite (dict_get_set_other _ _ _ _ Es). reflexivity.
Qed.

Lemma sect_set_item (s k : string) (v st st' : json) :
  String.eqb s k = false ->
  set_item k v st = Ok st' -> sect s st' = sect s st.
Proof.
  intros Hk. destruct st as [| | | | | |d]; try discriminate.
  intros H. injection H as <-. unfold sect, dict_at.
  rewrite (dict_get_set_other _ _ _ _ Hk). reflexivity.
Qed.

Lemma state_shape_sect (st : json) :
  state_shape st =
  sect "content" st && sect "colors" st && sect "base_font" st.
Proof.
  destruct st; reflexivity.
Qed.

Lemma keeps_sect_state_set2 (s k1 k2 : string) (v : json) :
  keeps (fun w => sect s (state w)) (state_set2 k1 k2 v).
Proof.
  intros w. unfold state_set2.
  destruct (set_item2 k1 k2 v (state w)) as [st'|e] eqn:E; cbn [fst];
    [|reflexivity].
  widget_fields. exact (sect_set_item2 _ _ _ _ _ _ E).
Qed.

Lemma keeps_sect_state_set (s k : string) (v : json) :
  String.eqb s k = false ->
  keeps (fun w => sect s (state w)) (state_set k v).
Proof.
  intros Hk w. unfold state_set.
  destruct (set_item k v (state w)) as [st'|e] eqn:E; cbn [fst];
    [|reflexivity].
  widget_fields. exact (sect_set_item _ _ _ _ _ Hk E).
Qed.

Lemma keeps_state_set2 {C : Type} (proj : widget -> C) (k1 k2 : string)
  (v : json) :
  (forall st w, proj (set_state st w) = proj w) ->
  keeps proj (state_set2 k1 k2 v).
Proof.
  intros H w. unfold state_set2.
  destruct (set_item2 k1 k2 v (state w)); cbn [fst]; [apply H|reflexivity].
Qed.

Lemma keeps_state_set {C : Type} (proj : widget -> C) (k : string)
  (v : json) :
  (forall st w, proj (set_state st w) = proj w) ->
  keeps proj (state_set k v).
Proof.
  intros H w. unfold state_set.
  destruct (set_item k v (state w)); cbn [fst]; [apply H|reflexivity].
Qed.

Lemma keeps_intvar_get {C : Type} (proj : widget -> C) (v : result Z) :
  keeps proj (intvar_get v).
Proof.
  apply keeps_pure. intros w. destruct v; reflexivity.
Qed.

Lemma keeps_gets {B C : Type} (proj : widget -> C) (f : widget -> B) :
  keeps proj (gets f).
Proof.
  apply keeps_pure. intros w. reflexivity.
Qed.

Lemma keeps_ret {B C : Type} (proj : widget -> C) (b : B) :
  keeps proj (ret b).
Proof.
  apply keeps_pure. intros w. reflexivity.
Qed.

Lemma keeps_sect_save_state_file (s : string) :
  keeps (fun w => sect s (state w)) save_state_file.
Proof.
  intros w. unfold save_state_file.
  destruct (save_state (files w) STATE_FILE (state w)). reflexivity.
Qed.

Lemma keeps_writable_save_state_file :
  keeps (fun w => writable (files w) STATE_FILE) save_state_file.
Proof.
  intros w. unfold save_state_file.
  rewrite <- (writable_save_state (files w) STATE_FILE STATE_FILE (state w)).
  destruct (save_state (files w) STATE_FILE (state w)). reflexivity.
Qed.

(** The steps of [save_all] one after the other. *)
Ltac save_all_keeps step :=
  unfold save_all;
  repeat first
    [ apply keeps_bind; [|intros ?]
    | apply keeps_gets
    | apply keeps_ret
    | apply keeps_intvar_get
    | apply keeps_try_except; [|intros ?]
    | step ].

Lemma keeps_sect_save_all (s : string) :
  section_key s = true -> keeps (fun w => sect s (state w)) save_all.
Proof.
  intros Hs. unfold section_key in Hs.
  apply orb_prop in Hs as [Hs|Hs]; [apply orb_prop in Hs as [Hs|Hs]|];
    apply String.eqb_eq in Hs; subst s;
    save_all_keeps
      ltac:(first [ apply keeps_sect_state_set2
                  | apply keeps_sect_state_set; reflexivity
                  | apply keeps_sect_save_state_file ]).
Qed.

Lemma keeps_writable_save_all :
  keeps (fun w => writable (files w) STATE_FILE) save_all.
Proof.
  save_all_keeps
    ltac:(first [ apply keeps_state_set2; intros ? ?; reflexivity
                | apply keeps_state_set; intros ? ?; reflexivity
                | apply keeps_writable_save_state_file ]).
Qed.

Lemma keeps_border_save_all : keeps border_var save_all.
Proof.
  apply keeps_of_frames; [intros st fs w; reflexivity|apply frames_save_all].
Qed.

(** [save_all] leaves what it needs as it found it, whether it returns
    or raises. *)
Lemma can_save_save_all (w : widget) :
  can_save (fst (save_all w)) = can_save w.
Proof.
  unfold can_save. rewrite !state_shape_sect.
  rewrite (keeps_sect_save_all "content" eq_refl w),
    (keeps_sect_save_all "colors" eq_refl w),
    (keeps_sect_save_all "base_font" eq_refl w),
    (keeps_border_save_all w), (keeps_writable_save_all w).
  reflexivity.
Qed.

Lemma needs_first {A B : Type} (P : widget -> bool) (c : M A)
  (k : A -> M B) :
  needs P c -> needs P (mbind c k).
Proof.
  intros H w. specialize (H w). unfold returns, mbind in *.
  destruct (c w) as [w1 [a|e]]; cbn [snd] in *.
  - intros _. apply H. reflexivity.
  - discriminate.
Qed.

Lemma needs_rest {A B : Type} (P : widget -> bool) (c : M A)
  (k : A -> M B) :
  keeps P c -> (forall a, needs P (k a)) -> needs P (mbind c k).
Proof.
  intros Hc Hk w. specialize (Hc w). unfold returns, mbind.
  destruct (c w) as [w1 [a|e]]; cbn [fst snd] in *.
  - intros H. rewrite <- Hc. exact (Hk a w1 H).
  - discriminate.
Qed.

Lemma needs_state_set2 (s k : string) (v : json) :
  needs (fun w => sect s (state w)) (state_set2 s k v).
Proof.
  intros w. unfold returns, state_set2, set_item2, sect, dict_at.
  destruct (state w) as [| | | | | |d]; try discriminate.
  destruct (dict_get s d) as [[| | | | | |d1]|]; try discriminate.
  reflexivity.
Qed.

Lemma needs_border {B : Type} (k : Z -> M B) :
  needs (fun w => match border_var w with Ok _ => true | Err _ => false end)
    (bv <-- gets border_var ;; x <-- intvar_get bv ;; k x).
Proof.
  intros w. unfold returns. unfold mbind at 1. unfold gets at 1.
  destruct (border_var w); [reflexivity|discriminate].
Qed.

Lemma needs_save_state_file :
  needs (fun w => writable (files w) STATE_FILE) save_state_file.
Proof.
  intros w. unfold returns, save_state_file, save_state, write_file, writable.
  destruct (locate (files w) STATE_FILE) as [i|]; [|discriminate].
  destruct (can_write (files w) i); [reflexivity|discriminate].
Qed.

(** The steps of [save_all] up to the one that needs [P]. *)
Ltac save_all_needs here keep :=
  unfold save_all;
  repeat first
    [ solve [here]
    | apply needs_first; solve [here]
    | apply needs_rest;
      [ solve [ repeat first
                  [ apply keeps_gets
                  | apply keeps_ret
                  | apply keeps_intvar_get
                  | apply keeps_try_except; [|intros ?]
                  | keep ] ]
      | intros ? ] ].

Lemma needs_sect_save_all (s : string) :
  section_key s = true -> needs (fun w => sect s (state w)) save_all.
Proof.
  intros Hs. unfold section_key in Hs.
  apply orb_prop in Hs as [Hs|Hs]; [apply orb_prop in Hs as [Hs|Hs]|];
    apply String.eqb_eq in Hs; subst s;
    save_all_needs
      ltac:(apply needs_state_set2)
      ltac:(first [ apply keeps_sect_state_set2
                  | apply keeps_sect_state_set; reflexivity ]).
Qed.

Lemma needs_border_save_all :
  needs (fun w => match border_var w with Ok _ => true | Err _ => false end)
    save_all.
Proof.
  save_all_needs
    ltac:(apply needs_border)
    ltac:(first [ apply keeps_state_set2; intros ? ?; reflexivity
                | apply keeps_state_set; intros ? ?; reflexivity ]).
Qed.

Lemma needs_writable_save_all :
  needs (fun w => writable (files w) STATE_FILE) save_all.
Proof.
  save_all_needs
    ltac:(apply needs_save_state_file)
    ltac:(first [ apply keeps_state_set2; intros ? ?; reflexivity
                | apply keeps_state_set; intros ? ?; reflexivity ]).
Qed.

(** [save_all] returns exactly when the state has its shape, the
    border box holds a number and the state file can be written. *)
Lemma save_all_returns (w : widget) :
  snd (save_all w) = Ok tt <-> can_save w = true.
Proof.
  split.
  - intros H.
    assert (Hr : returns save_all w = true).
    { unfold returns. rewrite H. reflexivity. }
    unfold can_save. rewrite state_shape_sect.
    rewrite (needs_sect_save_all "content" eq_refl w Hr),
      (needs_sect_save_all "colors" eq_refl w Hr),
      (needs_sect_save_all "base_font" eq_refl w Hr),
      (needs_border_save_all w Hr), (needs_writable_save_all w Hr).
    reflexivity.
  - unfold can_save. intros H.
    apply andb_prop in H as [H Hwr]. apply andb_prop in H as [Hs Hb].
    destruct (border_var w) as [b|] eqn:Eb; [|discriminate].
    destruct (save_all_ok w b Hs Eb Hwr) as [st' [E _]].
    rewrite E. reflexivity.
Qed.

Lemma save_all_outcome (w : widget) :
  exists e, snd (save_all w) = if can_save w then Ok tt else Err e.
Proof.
  destruct (can_save w) eqn:Ec.
  - exists TclError. apply save_all_returns. exact Ec.
  - destruct (snd (save_all w)) as [[]|e] eqn:E.
    + apply save_all_returns in E. congruence.
    + exists e. reflexivity.
Qed.

(** The three style actions share their last three statements:
    configure the tag, add the selection to it, save. *)
Lemma style_tag_run (tag : string) (f : tag_info -> tag_info)
  (i1 i2 : index) (w : widget) :
  exists st fs,
    fst ((tag_configure tag f ;;; tag_add tag i1 i2 ;;; save_all) w) =
    set_files fs
      (set_state st
         (set_text_tags
            (tag_update (buffer_length w) tag
               (fun t =>
                  set_t_cover
                    (mark 0 (offset_of_index (buffer (text_chars w)) i1)
                       (offset_of_index (buffer (text_chars w)) i2)
                       (t_cover (f t)))
                    (f t))
               (text_tags w)) w)).
Proof.
  unfold mbind at 1. unfold tag_configure at 1. unfold modify at 1.
  unfold mbind at 1. unfold tag_add at 1. unfold modify at 1.
  widget_fields.
  change (buffer_length (set_text_tags ?t w)) with (buffer_length w).
  cbn [text_tags text_chars set_text_tags].
  rewrite tag_update_compose.
  match goal with
  | |- context [save_all ?x] => destruct (frames_save_all x) as [st [fs E]]
  end.
  exists st, fs. rewrite E. reflexivity.
Qed.

Lemma style_action_run (tag : string) (f : tag_info -> tag_info)
  (a b : nat) (w : widget) :
  (a <= buffer_length w)%nat ->
  (b <= buffer_length w)%nat ->
  exists st fs,
    fst ((tag_configure tag f ;;;
          tag_add tag (index_of_offset (buffer (text_chars w)) a)
            (index_of_offset (buffer (text_chars w)) b) ;;;
          save_all) w) =
    set_files fs
      (set_state st
         (set_text_tags
            (style_tags (buffer_length w) tag f a b (text_tags w)) w)).
Proof.
  intros Ha Hb.
  destruct (style_tag_run tag f
              (index_of_offset (buffer (text_chars w)) a)
              (index_of_offset (buffer (text_chars w)) b) w) as [st [fs E]].
  exists st, fs. rewrite E.
  rewrite !offset_of_index_of_offset by assumption.
  reflexivity.
Qed.

Lemma release_font_update (n : nat) (tag : string)
  (g : tag_info -> tag_info) (tags : tag_table) :
  release_font tag (tag_update n tag g tags) =
  tag_update n tag (fun x => drop_font (g x)) tags.
Proof.
  induction tags as [|[name old] t IH]; simpl.
  - rewrite String.eqb_refl. reflexivity.
  - destruct (String.eqb tag name) eqn:E; simpl; rewrite E.
    + reflexivity.
    + rewrite IH. reflexivity.
Qed.

(** X19: [save_all] returns exactly when the state is a dict whose
    "content", "colors" and "base_font" are dicts, the border box holds
    an integer and the state file can be written; otherwise it raises.
    Whether it returns or raises, it leaves these three conditions as it
    found them, so a save that failed keeps failing until the border box
    or the file is put right. *)
Theorem save_all_returns_exactly (w : widget) :
  (snd (save_all w) = Ok tt <-> can_save w = true) /\
  (can_save w = false -> exists e, snd (save_all w) = Err e) /\
  can_save (fst (save_all w)) = can_save w.
Proof.
  split; [exact (save_all_returns w)|]. split; [|exact (can_save_save_all w)].
  intros Hc. destruct (save_all_outcome w) as [e He].
  rewrite Hc in He. exists e. exact He.
Qed.

(** [apply_bold] and [apply_size] end alike: configure the tag with the
    font made, add the selection to it, save, and return, at which the
    font object is collected.  When the save raises, the font object
    stays. *)
Lemma style_font_tag_run (tag : string) (f : tag_info -> tag_info)
  (i1 i2 : index) (w : widget) :
  exists st fs,
    fst ((tag_configure tag f ;;; tag_add tag i1 i2 ;;; save_all ;;;
          font_collected (Some tag)) w) =
    set_files fs
      (set_state st
         (set_text_tags
            (tag_update (buffer_length w) tag
               (fun t =>
                  set_t_cover
                    (mark 0 (offset_of_index (buffer (text_chars w)) i1)
                       (offset_of_index (buffer (text_chars w)) i2)
                       (t_cover (collected_if (can_save w) f t)))
                    (collected_if (can_save w) f t))
               (text_tags w)) w)) /\
    can_save (set_files fs (set_state st w)) = can_save w.
Proof.
  unfold mbind at 1. unfold tag_configure at 1. unfold modify at 1.
  unfold mbind at 1. unfold tag_add at 1. unfold modify at 1.
  widget_fields.
  change (buffer_length (set_text_tags ?t w)) with (buffer_length w).
  cbn [text_tags text_chars set_text_tags].
  rewrite tag_update_compose.
  set (x := set_text_tags _ (set_text_tags _ w)).
  destruct (frames_save_all x) as [st [fs E]].
  destruct (save_all_outcome x) as [e He].
  pose proof (can_save_save_all x) as Hc.
  change (can_save x) with (can_save w) in He, Hc.
  exists st, fs. unfold mbind.
  destruct (save_all x) as [w1 r].
  cbn [fst snd] in E, He, Hc. subst w1 r. split.
  - destruct (can_save w); cbn [fst collected_if].
    + unfold font_collected, modify. cbn [fst].
      assert (HT : release_font tag (text_tags x) =
                   tag_update (buffer_length w) tag
                     (fun t =>
                        set_t_cover
                          (mark 0 (offset_of_index (buffer (text_chars w)) i1)
                             (offset_of_index (buffer (text_chars w)) i2)
                             (t_cover (drop_font (f t))))
                          (drop_font (f t)))
                     (text_tags w)).
      { unfold x. cbn [text_tags set_text_tags].
        rewrite release_font_update. apply tag_update_ext.
        intros t. destruct (f t). reflexivity. }
      cbn [text_tags set_files set_state]. rewrite HT. reflexivity.
    + reflexivity.
  - rewrite <- Hc. reflexivity.
Qed.

Lemma style_font_run (tag : string) (f : tag_info -> tag_info)
  (a b : nat) (w : widget) :
  (a <= buffer_length w)%nat ->
  (b <= buffer_length w)%nat ->
  exists st fs,
    fst ((tag_configure tag f ;;;
          tag_add tag (index_of_offset (buffer (text_chars w)) a)
            (index_of_offset (buffer (text_chars w)) b) ;;;
          save_all ;;;
          font_collected (Some tag)) w) =
    set_files fs
      (set_state st
         (set_text_tags
            (style_tags (buffer_length w) tag (collected_if (can_save w) f)
               a b (text_tags w)) w)) /\
    can_save (set_files fs (set_state st w)) = can_save w.
Proof.
  intros Ha Hb.
  destruct (style_font_tag_run tag f
              (index_of_offset (buffer (text_chars w)) a)
              (index_of_offset (buffer (text_chars w)) b) w)
    as [st [fs [E Hc]]].
  exists st, fs. rewrite E.
  rewrite !offset_of_index_of_offset by assumption.
  split; [reflexivity|exact Hc].
Qed.

Lemma collected_if_cover (c : bool) (f : tag_info -> tag_info) :
  (forall x, t_cover (f x) = t_cover x) ->
  forall x, t_cover (collected_if c f x) = t_cover x.
Proof.
  intros H x. destruct c; cbn [collected_if drop_font t_cover]; apply H.
Qed.

Lemma collected_if_font (c : bool) (fnt : font) (x : tag_info)
  (cov : list bool) :
  t_font (set_t_cover cov (collected_if c (set_t_font fnt) x)) = Some fnt.
Proof.
  destruct c; reflexivity.
Qed.

Lemma styled_widget_facts (tag : string) (f : tag_info -> tag_info)
  (a b : nat) (st : json) (fs : store) (w : widget) :
  wf_widget w = true ->
  (b <= buffer_length w)%nat ->
  (forall x, t_cover (f x) = t_cover x) ->
  let w' :=
    set_files fs
      (set_state st
         (set_text_tags
            (style_tags (buffer_length w) tag f a b (text_tags w)) w)) in
  wf_widget w' = true /\
  text_chars w' = text_chars w /\
  (forall t i,
      tag_covers w' t i =
      tag_covers w t i || (String.eqb t tag && Nat.leb a i && Nat.ltb i b)) /\
  (exists x, tag_find tag (text_tags w') =
             Some (set_t_cover (mark 0 a b (t_cover x)) (f x))).
Proof.
  intros Hwf Hb Hf. cbv zeta.
  split; [|split; [reflexivity|split]].
  - unfold wf_widget.
    change (buffer_length (set_files fs (set_state st (set_text_tags ?t w))))
      with (buffer_length w).
    cbn [text_tags set_files set_state set_text_tags].
    apply wf_tags_update; [|exact Hwf].
    intros x Hx. cbn [set_t_cover t_cover]. rewrite mark_length, Hf. exact Hx.
  - intros t i. unfold tag_covers.
    cbn [text_tags set_files set_state set_text_tags].
    unfold style_tags. rewrite tag_find_update.
    destruct (String.eqb t tag) eqn:Et; [|rewrite orb_false_r; reflexivity].
    apply String.eqb_eq in Et. subst t.
    cbn [set_t_cover t_cover andb]. rewrite Hf, mark_nth. cbn [Nat.add].
    destruct (tag_find tag (text_tags w)) as [x|] eqn:Ex.
    + rewrite (tag_find_cover_length w tag x Hwf Ex).
      destruct (nth i (t_cover x) false); [reflexivity|].
      cbn [orb]. nat_cases.
    + cbn [blank_tag t_cover]. rewrite nth_repeat, repeat_length.
      cbn [orb]. nat_cases.
  - cbn [text_tags set_files set_state set_text_tags].
    unfold style_tags. rewrite tag_find_update, String.eqb_refl.
    eexists. rewrite Hf. reflexivity.
Qed.

(** X12: [apply_bold] on a selection keeps the text, gives the tag
    "bold" the base font in bold weight and adds to it exactly the
    characters from "sel.first" up to "sel.last"; no other tag gains or
    loses a character, the selection included, whether or not the save
    that follows succeeds. *)
Theorem apply_bold_selection (w : widget) (a b : nat) :
  wf_widget w = true ->
  selection_span w = Some (a, b) ->
  let w' := fst (apply_bold w) in
  wf_widget w' = true /\
  text_chars w' = text_chars w /\
  tag_cget_font w' "bold" = Some (set_f_weight "bold" (base_font w)) /\
  forall t i,
    tag_covers w' t i =
    tag_covers w t i || (String.eqb t "bold" && Nat.leb a i && Nat.ltb i b).
Proof.
  intros Hwf Hspan. cbv zeta.
  destruct (get_selection_span w a b Hwf Hspan) as [Hsel [Ha Hb]].
  set (f := set_t_font (set_f_weight "bold" (base_font w))).
  destruct (style_font_run "bold" f a b w Ha Hb) as [st [fs [E _]]].
  assert (Hrun : fst (apply_bold w) =
                 set_files fs
                   (set_state st
                      (set_text_tags
                         (style_tags (buffer_length w) "bold"
                            (collected_if (can_save w) f)
                            a b (text_tags w)) w))).
  { rewrite <- E. unfold apply_bold. unfold mbind at 1. rewrite Hsel.
    reflexivity. }
  rewrite Hrun.
  destruct (styled_widget_facts "bold" (collected_if (can_save w) f)
              a b st fs w Hwf Hb
              (collected_if_cover _ f (fun x => eq_refl)))
    as [H1 [H2 [H3 [x H4]]]].
  split; [exact H1|]. split; [exact H2|]. split; [|exact H3].
  unfold tag_cget_font. rewrite H4. apply collected_if_font.
Qed.

Lemma apply_bold_selection_witness :
  let w' := fst (apply_bold sample_ell) in
  wf_widget w' = true /\
  text_chars w' = "Hello" /\
  tag_cget_font w' "bold" = Some (set_f_weight "bold" sample_font) /\
  forall t i,
    tag_covers w' t i =
    tag_covers sample_ell t i
    || (String.eqb t "bold" && Nat.leb 1 i && Nat.ltb i 4).
Proof.
  apply (apply_bold_selection sample_ell 1 4); reflexivity.
Defined.

(** X13: [apply_size] on a selection names its tag after the size it
    sets, which is the base font's size plus [delta] clamped to
    [[8, 96]]; the tag gets the base font at that size and exactly the
    selected characters are added to it. *)
Theorem apply_size_selection (w : widget) (delta : Z) (a b : nat) :
  wf_widget w = true ->
  selection_span w = Some (a, b) ->
  let new_size := clamp (f_size (base_font w) + delta) 8 96 in
  let tag := "size_" ++ string_of_Z new_size in
  let w' := fst (apply_size delta w) in
  8 <= new_size <= 96 /\
  wf_widget w' = true /\
  text_chars w' = text_chars w /\
  tag_cget_font w' tag = Some (set_f_size new_size (base_font w)) /\
  forall t i,
    tag_covers w' t i =
    tag_covers w t i || (String.eqb t tag && Nat.leb a i && Nat.ltb i b).
Proof.
  intros Hwf Hspan. cbv zeta.
  destruct (get_selection_span w a b Hwf Hspan) as [Hsel [Ha Hb]].
  set (new_size := clamp (f_size (base_font w) + delta) 8 96).
  set (tag := "size_" ++ string_of_Z new_size).
  set (f := set_t_font (set_f_size new_size (base_font w))).
  destruct (style_font_run tag f a b w Ha Hb) as [st [fs [E _]]].
  assert (Hrun : fst (apply_size delta w) =
                 set_files fs
                   (set_state st
                      (set_text_tags
                         (style_tags (buffer_length w) tag
                            (collected_if (can_save w) f)
                            a b (text_tags w)) w))).
  { rewrite <- E. unfold apply_size. unfold mbind at 1. rewrite Hsel.
    reflexivity. }
  rewrite Hrun.
  destruct (styled_widget_facts tag (collected_if (can_save w) f)
              a b st fs w Hwf Hb
              (collected_if_cover _ f (fun x => eq_refl)))
    as [H1 [H2 [H3 [x H4]]]].
  split; [apply clamp_bounds; lia|].
  split; [exact H1|]. split; [exact H2|]. split; [|exact H3].
  unfold tag_cget_font. rewrite H4. apply collected_if_font.
Qed.

Lemma apply_size_selection_witness :
  let w' := fst (apply_size 2 sample_ell) in
  8 <= 18 <= 96 /\
  wf_widget w' = true /\
  text_chars w' = "Hello" /\
  tag_cget_font w' "size_18" = Some (set_f_size 18 sample_font) /\
  forall t i,
    tag_covers w' t i =
    tag_covers sample_ell t i
    || (String.eqb t "size_18" && Nat.leb 1 i && Nat.ltb i 4).
Proof.
  apply (apply_size_selection sample_ell 2 1 4); reflexivity.
Defined.

(** X14: [apply_color] on a selection, when a colour is picked, opens
    the colour chooser once, gives the tag named after the colour that
    foreground and adds exactly the selected characters to it. *)
Theorem apply_color_selection (w : widget) (color : string) (a b : nat) :
  wf_widget w = true ->
  selection_span w = Some (a, b) ->
  String.eqb color "" = false ->
  let tag := "color_" ++ color in
  let w' := fst (apply_color (Some color) w) in
  wf_widget w' = true /\
  text_chars w' = text_chars w /\
  dialogs w' = (dialogs w ++ [AskColor "Pick text color"])%list /\
  tag_cget_foreground w' tag = color /\
  forall t i,
    tag_covers w' t i =
    tag_covers w t i || (String.eqb t tag && Nat.leb a i && Nat.ltb i b).
Proof.
  intros Hwf Hspan Hc. cbv zeta.
  destruct (get_selection_span w a b Hwf Hspan) as [Hsel [Ha Hb]].
  set (tag := "color_" ++ color).
  set (w1 := set_dialogs (dialogs w ++ [AskColor "Pick text color"])%list w).
  destruct (style_action_run tag (set_t_foreground color) a b w1 Ha Hb)
    as [st [fs E]].
  assert (Hrun : fst (apply_color (Some color) w) =
                 set_files fs
                   (set_state st
                      (set_text_tags
                         (style_tags (buffer_length w1) tag
                            (set_t_foreground color) a b (text_tags w1))
                         w1))).
  { rewrite <- E. unfold apply_color. unfold mbind at 1. rewrite Hsel.
    unfold mbind at 1. unfold show at 1. unfold modify at 1.
    rewrite Hc. reflexivity. }
  rewrite Hrun.
  destruct (styled_widget_facts tag (set_t_foreground color) a b st fs w1
              Hwf Hb (fun x => eq_refl))
    as [H1 [H2 [H3 [x H4]]]].
  split; [exact H1|]. split; [exact H2|]. split; [reflexivity|].
  split; [|exact H3].
  unfold tag_cget_foreground. rewrite H4. reflexivity.
Qed.

Lemma apply_color_selection_witness :
  let w' := fst (apply_color (Some "#FF0000") sample_ell) in
  wf_widget w' = true /\
  text_chars w' = "Hello" /\
  dialogs w' = [AskColor "Pick text color"] /\
  tag_cget_foreground w' "color_#FF0000" = "#FF0000" /\
  forall t i,
    tag_covers w' t i =
    tag_covers sample_ell t i
    || (String.eqb t "color_#FF0000" && Nat.leb 1 i && Nat.ltb i 4).
Proof.
  apply (apply_color_selection sample_ell "#FF0000" 1 4); reflexivity.
Defined.

(** X15: [apply_color] on a selection, when the colour chooser is
    cancelled, does nothing but show the chooser: no tag, no change of
    state, no write. *)
Theorem apply_color_cancelled (w : widget) (a b : nat)
  (answer : option string) :
  wf_widget w = true ->
  selection_span w = Some (a, b) ->
  answer = None \/ answer = Some "" ->
  apply_color answer w =
  (set_dialogs (dialogs w ++ [AskColor "Pick text color"])%list w, Ok tt).
Proof.
  intros Hwf Hspan Hans.
  destruct (get_selection_span w a b Hwf Hspan) as [Hsel _].
  unfold apply_color. unfold mbind at 1. rewrite Hsel.
  destruct Hans as [->| ->]; reflexivity.
Qed.

Lemma apply_color_cancelled_witness :
  apply_color None sample_ell =
  (set_dialogs [AskColor "Pick text color"] sample_ell, Ok tt).
Proof.
  apply (apply_color_cancelled sample_ell 1 4 None); [reflexivity..|].
  left. reflexivity.
Defined.

Lemma mark_twice (cov : list bool) :
  forall p s e, mark p s e (mark p s e cov) = mark p s e cov.
Proof.
  induction cov as [|c t IH]; intros p s e; simpl; [reflexivity|].
  rewrite IH. destruct c, (Nat.leb s p && Nat.ltb p e); reflexivity.
Qed.

Lemma style_tags_twice (n : nat) (tag : string) (c : bool) (fnt : font)
  (a b : nat) (tags : tag_table) :
  style_tags n tag (collected_if c (set_t_font fnt)) a b
    (style_tags n tag (collected_if c (set_t_font fnt)) a b tags) =
  style_tags n tag (collected_if c (set_t_font fnt)) a b tags.
Proof.
  unfold style_tags. rewrite tag_update_compose.
  apply tag_update_ext. intros [f0 fg bg cov alive].
  destruct c;
    cbn [collected_if drop_font set_t_font set_t_cover t_cover t_font
         t_foreground t_background t_font_alive];
    rewrite mark_twice; reflexivity.
Qed.

Lemma selection_span_ext (w1 w2 : widget) :
  tag_find "sel" (text_tags w1) = tag_find "sel" (text_tags w2) ->
  selection_span w1 = selection_span w2.
Proof.
  intros H. unfold selection_span, sel_cover. rewrite H. reflexivity.
Qed.

(** X16: sizes do not accumulate: [apply_size] sets the size relative
    to the base font, so applying it a second time to the same selection
    leaves the tags exactly as the first application left them. *)
Theorem apply_size_twice (w : widget) (delta : Z) (a b : nat) :
  wf_widget w = true ->
  selection_span w = Some (a, b) ->
  text_tags (fst (apply_size delta (fst (apply_size delta w)))) =
  text_tags (fst (apply_size delta w)).
Proof.
  intros Hwf Hspan.
  destruct (get_selection_span w a b Hwf Hspan) as [Hsel [Ha Hb]].
  set (new_size := clamp (f_size (base_font w) + delta) 8 96).
  set (tag := "size_" ++ string_of_Z new_size).
  set (f := collected_if (can_save w)
              (set_t_font (set_f_size new_size (base_font w)))).
  assert (Hstep : forall w0,
             wf_widget w0 = true ->
             selection_span w0 = Some (a, b) ->
             base_font w0 = base_font w ->
             buffer_length w0 = buffer_length w ->
             can_save w0 = can_save w ->
             exists st fs,
               fst (apply_size delta w0) =
               set_files fs
                 (set_state st
                    (set_text_tags
                       (style_tags (buffer_length w) tag f a b (text_tags w0))
                       w0)) /\
               can_save (set_files fs (set_state st w0)) = can_save w).
  { intros w0 Hwf0 Hspan0 Hbf Hlen Hcan.
    destruct (get_selection_span w0 a b Hwf0 Hspan0) as [Hsel0 [Ha0 Hb0]].
    destruct (style_font_run tag
                (set_t_font (set_f_size new_size (base_font w))) a b w0
                Ha0 Hb0) as [st [fs [E Hc]]].
    exists st, fs. rewrite Hcan, Hlen in E. rewrite Hcan in Hc.
    split; [|exact Hc]. unfold f. rewrite <- E.
    unfold apply_size. unfold mbind at 1. rewrite Hsel0.
    unfold mbind at 1. unfold gets at 1. rewrite Hbf. reflexivity. }
  destruct (Hstep w Hwf Hspan eq_refl eq_refl eq_refl) as [st1 [fs1 [E1 Hc1]]].
  rewrite E1.
  destruct (styled_widget_facts tag f a b st1 fs1 w Hwf Hb
              (collected_if_cover (can_save w)
                 (set_t_font (set_f_size new_size (base_font w)))
                 (fun x => eq_refl)))
    as [Hwf1 _].
  match goal with
  | |- context [apply_size delta ?x] =>
      destruct (Hstep x Hwf1) as [st2 [fs2 [E2 _]]];
      [|reflexivity|reflexivity|exact Hc1|]
  end.
  - rewrite <- Hspan. apply selection_span_ext.
    cbn [text_tags set_files set_state set_text_tags].
    unfold style_tags. rewrite tag_find_update. reflexivity.
  - rewrite E2. cbn [text_tags set_files set_state set_text_tags].
    apply style_tags_twice.
Qed.

Lemma apply_size_twice_witness :
  text_tags (fst (apply_size 2 (fst (apply_size 2 sample_ell)))) =
  text_tags (fst (apply_size 2 sample_ell)).
Proof.
  apply (apply_size_twice sample_ell 2 1 4); reflexivity.
Defined.

(** ** The base font *)

Lemma frames_base_font_tail (fam : string) (size : Z) :
  frames (state_set2 "base_font" "family" (JStr fam) ;;;
          state_set2 "base_font" "size" (JInt size) ;;;
          save_all).
Proof.
  apply frames_bind; [apply frames_state_set2|intros _].
  apply frames_bind; [apply frames_state_set2|intros _].
  apply frames_save_all.
Qed.

Lemma saved_fields_ext (fs : store) (st : json) (w : widget) (b : Z) :
  saved_fields (set_files fs (set_state st w)) b = saved_fields w b.
Proof.
  unfold saved_fields.
  rewrite (capture_tags_ext (set_files fs (set_state st w)) w eq_refl eq_refl).
  reflexivity.
Qed.

Lemma runs_to_weaken (P P' Q : json -> store -> Prop) (c : M unit)
  (r : result unit) (w : widget) :
  (forall st fs, P' st fs -> P st fs) ->
  runs_to P c r Q w -> runs_to P' c r Q w.
Proof.
  intros HP H HP'. exact (H (HP _ _ HP')).
Qed.

Lemma saving_forget (wf0 : bool) (fs : store)
  (facts : list (list string * json)) (st : json) (fs' : store) :
  saving wf0 fs facts st fs' -> saving wf0 fs [] st fs'.
Proof.
  intros [H1 [H2 [H3 _]]]. repeat split; assumption.
Qed.

Lemma on_base_font_change_frame (w : widget) :
  exists st fs bf,
    fst (on_base_font_change w) =
    set_files fs (set_state st (set_base_font bf w)) /\
    match base_size_var w with
    | Err e => on_base_font_change w = (w, Err e)
    | Ok z =>
        bf = set_f_family_size (base_font_var w) (clamp z 8 96) (base_font w)
    end.
Proof.
  destruct (base_size_var w) as [z|e] eqn:Ez.
  - set (size := clamp z 8 96).
    set (w1 := set_base_font
                 (set_f_family_size (base_font_var w) size (base_font w)) w).
    assert (Hrun : on_base_font_change w =
                   (state_set2 "base_font" "family" (JStr (base_font_var w)) ;;;
                    state_set2 "base_font" "size" (JInt size) ;;;
                    save_all) w1).
    { unfold on_base_font_change. unfold mbind at 1 2 3 4. unfold gets.
      rewrite Ez. reflexivity. }
    destruct (frames_base_font_tail (base_font_var w) size w1) as [st [fs E]].
    exists st, fs, (set_f_family_size (base_font_var w) size (base_font w)).
    split; [rewrite Hrun; exact E|reflexivity].
  - assert (Hrun : on_base_font_change w = (w, Err e)).
    { unfold on_base_font_change, mbind, gets. rewrite Ez. reflexivity. }
    exists (state w), (files w), (base_font w).
    split; [rewrite Hrun; destruct w; reflexivity|exact Hrun].
Qed.

(** X17: [on_base_font_change] raises what reading the size box raises,
    [TclError] or, for an infinite number, [OverflowError], and changes
    nothing when the size box holds no integer.  Otherwise the base
    font takes the chosen family and the size clamped to [[8, 96]],
    keeping weight and slant; and when the save that follows can run (the state has
    its shape, the border box holds an integer and the state file can
    be written), the state and the state file record that family and
    size. *)
Theorem on_base_font_change_effect (w : widget) :
  match base_size_var w with
  | Err e => on_base_font_change w = (w, Err e)
  | Ok z =>
      let size := clamp z 8 96 in
      let w' := fst (on_base_font_change w) in
      8 <= size <= 96 /\
      base_font w' = set_f_family_size (base_font_var w) size (base_font w) /\
      text_tags w' = text_tags w /\
      (state_shape (state w) = true ->
       (exists b, border_var w = Ok b) ->
       writable (files w) STATE_FILE = true ->
       snd (on_base_font_change w) = Ok tt /\
       get_path ["base_font"; "family"] (state w')
       = Some (JStr (base_font_var w)) /\
       get_path ["base_font"; "size"] (state w') = Some (JInt size) /\
       files w' = fst (save_state (files w) STATE_FILE (state w')))
  end.
Proof.
  destruct (base_size_var w) as [z|e] eqn:Ez.
  2:{ unfold on_base_font_change, mbind, gets. rewrite Ez. reflexivity. }
  cbv zeta.
  set (size := clamp z 8 96).
  set (w1 := set_base_font
               (set_f_family_size (base_font_var w) size (base_font w)) w).
  assert (Hrun : on_base_font_change w =
                 (state_set2 "base_font" "family" (JStr (base_font_var w)) ;;;
                  state_set2 "base_font" "size" (JInt size) ;;;
                  save_all) w1).
  { unfold on_base_font_change. unfold mbind at 1 2 3 4. unfold gets.
    rewrite Ez. reflexivity. }
  rewrite Hrun.
  split; [apply clamp_bounds; lia|].
  destruct (frames_base_font_tail (base_font_var w) size w1) as [st [fs E]].
  split; [rewrite E; reflexivity|]. split; [rewrite E; reflexivity|].
  intros Hs [b Hb] Hwr.
  assert (H : runs_to (saving false (files w) [])
                (state_set2 "base_font" "family" (JStr (base_font_var w)) ;;;
                 state_set2 "base_font" "size" (JInt size) ;;;
                 save_all) (Ok tt)
                (fun st' fs' =>
                   state_shape st' = true /\
                   (false = true -> wf_json st' = true) /\
                   holds (saved_fields w1 b) st' /\
                   fs' = fst (save_state (files w) STATE_FILE st')) w1).
  { eapply runs_to_bind;
      [apply runs_to_state_set2; reflexivity|intros ? ? _].
    eapply runs_to_bind;
      [apply runs_to_state_set2; reflexivity|intros ? ? _].
    eapply runs_to_weaken; [apply saving_forget|].
    match goal with
    | |- runs_to _ _ _ _ (set_files ?fs1 (set_state ?st1 _)) =>
        rewrite <- (saved_fields_ext fs1 st1 w1 b);
        apply (save_all_runs false (files w) _ b)
    end.
    - exact Hb.
    - exact Hwr. }
  destruct H as [st' [fs' [E' [_ [_ [Hf ->]]]]]].
  { split; [exact Hs|]. split; [discriminate|].
    split; [reflexivity|exact I]. }
  rewrite E'. cbn [fst snd]. widget_fields.
  cbn [holds saved_fields] in Hf.
  destruct Hf as [_ [_ [_ [Hsize [Hfam _]]]]].
  split; [reflexivity|]. split; [exact Hfam|]. split; [exact Hsize|].
  reflexivity.
Qed.

(** ** Loading a font file, continued *)

Ltac widget_setters :=
  cbn [state files text_chars text_tags text_fg text_insertbackground
       base_font base_font_var base_size_var font_families font_combo_values
       border_var alpha_var container_bg root_bg root_topmost root_geometry
       start_w start_h start_rx start_ry dialogs
       set_files set_state set_text_tags set_base_font set_base_font_var
       set_font_families set_font_combo_values set_root_geometry
       set_start_w set_start_h set_start_rx set_start_ry set_dialogs].

(** X18: [load_ttf] never raises.  It opens the file chooser, then shows
    at most one dialog, the error "Font load failed"; when the chooser
    is cancelled nothing else happens. *)
Theorem load_ttf_never_raises (answer : string) (w : widget) :
  snd (load_ttf answer w) = Ok tt /\
  (exists rest,
      dialogs (fst (load_ttf answer w)) =
      (dialogs w ++ AskOpenFilename "Load a .ttf font" :: rest)%list /\
      (rest = [] \/ exists e, rest = [ShowError "Font load failed" e])) /\
  (answer = "" ->
   fst (load_ttf answer w) =
   set_dialogs (dialogs w ++ [AskOpenFilename "Load a .ttf font"])%list w).
Proof.
  destruct (String.eqb answer "") eqn:Ea.
  - assert (E : load_ttf answer w =
                (set_dialogs
                   (dialogs w ++ [AskOpenFilename "Load a .ttf font"])%list w,
                 Ok tt)).
    { unfold load_ttf, mbind, show, modify. rewrite Ea. reflexivity. }
    rewrite E. split; [reflexivity|]. split; [|reflexivity].
    exists []. split; [reflexivity|left; reflexivity].
  - assert (E : load_ttf answer w =
                (set_dialogs
                   (dialogs w ++ [ AskOpenFilename "Load a .ttf font";
                                   ShowError "Font load failed" TclError ])%list
                   w,
                 Ok tt)).
    { unfold load_ttf, mbind, show, modify. rewrite Ea.
      unfold try_except, mbind, gets, lift, font_create_file. simpl.
      unfold set_dialogs. simpl. rewrite <- app_assoc. reflexivity. }
    rewrite E. split; [reflexivity|]. split.
    + exists [ShowError "Font load failed" TclError].
      split; [reflexivity|right; exists TclError; reflexivity].
    + intros ->. discriminate Ea.
Qed.

(** ** What [_capture_tags] returns *)

Lemma Forall_tag_map_set (P : string * tag_entry -> Prop) (tag : string)
  (e : tag_entry) (tags : tag_map) :
  P (tag, e) -> Forall P tags -> Forall P (tag_map_set tag e tags).
Proof.
  intros Hp H. induction H as [|[name old] t Hx Ht IH]; simpl.
  - constructor; [exact Hp|constructor].
  - destruct (String.eqb tag name) eqn:E.
    + apply String.eqb_eq in E. subst name. constructor; assumption.
    + constructor; assumption.
Qed.

Lemma capture_loop_entries (w : widget) (P : string * tag_entry -> Prop)
  (names : list string) :
  (forall tag, In tag names -> String.eqb tag "sel" = false ->
               entry_nonempty (capture_tag w tag) = true ->
               P (tag, capture_tag w tag)) ->
  forall acc, Forall P acc -> Forall P (capture_loop w names acc).
Proof.
  induction names as [|tag rest IH]; intros HP acc Hacc; [exact Hacc|].
  assert (Hrest : forall t, In t rest -> String.eqb t "sel" = false ->
                            entry_nonempty (capture_tag w t) = true ->
                            P (t, capture_tag w t)).
  { intros t Hin. apply HP. right. exact Hin. }
  simpl. destruct (String.eqb tag "sel") eqn:Es; [exact (IH Hrest acc Hacc)|].
  destruct (entry_nonempty (capture_tag w tag)) eqn:En;
    [|exact (IH Hrest acc Hacc)].
  apply (IH Hrest). apply Forall_tag_map_set; [|exact Hacc].
  apply HP; [left; reflexivity|exact Es|exact En].
Qed.

(** X20: whatever the tags of the text, the mapping [_capture_tags]
    returns has pairwise distinct keys, never holds the selection tag
    "sel", holds no entry with neither options nor ranges, and every key
    is the name of a tag of the text, recorded as that tag reads. *)
Theorem capture_tags_entries (w : widget) :
  NoDup (map fst (_capture_tags w)) /\
  Forall (fun te =>
            fst te <> "sel" /\
            entry_nonempty (snd te) = true /\
            In (fst te) (tag_names w) /\
            snd te = capture_tag w (fst te))
    (_capture_tags w).
Proof.
  split.
  - apply distinct_NoDup. unfold _capture_tags.
    apply capture_loop_distinct. reflexivity.
  - unfold _capture_tags. apply capture_loop_entries; [|constructor].
    intros tag Hin Es En. cbn [fst snd].
    split; [intros ->; discriminate Es|].
    split; [exact En|]. split; [exact Hin|reflexivity].
Qed.

Lemma runs_nonempty (cov : list bool) :
  forall p run,
    (forall s, run = Some s -> (s < p)%nat) ->
    Forall (fun se => (fst se < snd se)%nat) (runs cov p run).
Proof.
  induction cov as [|c t IH]; intros p run Hrun.
  - destruct run as [s|]; simpl; [|constructor].
    constructor; [exact (Hrun s eq_refl)|constructor].
  - destruct c, run as [s|]; simpl.
    + apply IH. intros s' H. injection H as <-.
      specialize (Hrun s eq_refl). lia.
    + apply IH. intros s' H. injection H as <-. lia.
    + constructor; [exact (Hrun s eq_refl)|]. apply IH. discriminate.
    + apply IH. discriminate.
Qed.

(** X21: in a text whose tags are well formed, every range that
    [_capture_tags] records is a non-empty span of the buffer: it runs
    from the index of an offset [a] to the index of an offset [b] with
    [a < b], and [b] is at most the length of the buffer. *)
Theorem captured_ranges_valid (w : widget) (tag : string) (e : tag_entry) :
  wf_widget w = true ->
  In (tag, e) (_capture_tags w) ->
  Forall (fun se =>
            exists a b,
              fst se = index_of_offset (buffer (text_chars w)) a /\
              snd se = index_of_offset (buffer (text_chars w)) b /\
              (a < b)%nat /\ (b <= buffer_length w)%nat)
    (e_ranges e).
Proof.
  intros Hwf Hin.
  pose proof (wf_tags_NoDup _ _ Hwf) as Hd.
  pose proof (wf_tags_cover _ _ Hwf) as Hc.
  rewrite (capture_tags_spec w Hd) in Hin. unfold captured in Hin.
  apply in_map_iff in Hin as [[name info] [Heq Hin]].
  injection Heq as _ <-. apply filter_In in Hin as [Hin _].
  rewrite Forall_forall in Hc. specialize (Hc _ Hin). cbn [snd] in Hc.
  unfold info_entry. cbn [e_ranges].
  apply Forall_forall. intros se Hse.
  apply in_map_iff in Hse as [[a b] [<- Hab]]. cbn [fst snd].
  exists a, b. split; [reflexivity|]. split; [reflexivity|].
  pose proof (runs_nonempty (t_cover info) 0 None) as Hne.
  pose proof (runs_bounds (t_cover info) 0 None) as Hbd.
  rewrite Forall_forall in Hne, Hbd.
  specialize (Hne ltac:(discriminate) _ Hab).
  specialize (Hbd ltac:(discriminate) _ Hab).
  cbn [fst snd] in Hne, Hbd. rewrite Hc in Hbd. split; [exact Hne|lia].
Qed.

Lemma captured_ranges_valid_witness :
  Forall (fun se =>
            exists a b,
              fst se = index_of_offset (buffer "Hello") a /\
              snd se = index_of_offset (buffer "Hello") b /\
              (a < b)%nat /\ (b <= 6)%nat)
    [(mkIndex 1 0, mkIndex 1 2)].
Proof.
  apply (captured_ranges_valid sample_widget "bold"
           (mkEntry (mkConfig None None None) [(mkIndex 1 0, mkIndex 1 2)])).
  - reflexivity.
  - left. reflexivity.
Defined.

(** ** Resizing by dragging *)

Lemma last_cons {A : Type} (l : list A) :
  forall x d, last (x :: l) d = last l x.
Proof.
  induction l as [|a l IH]; intros x d; [reflexivity|].
  change (last (x :: a :: l) d) with (last (a :: l) d).
  rewrite (IH a d), (IH a x). reflexivity.
Qed.

Lemma do_resize_all (ms : list event) :
  forall wc,
    let w' := fst (do_all (map _do_resize ms) wc) in
    snd (do_all (map _do_resize ms) wc) = Ok tt /\
    start_w w' = start_w wc /\ start_h w' = start_h wc /\
    start_rx w' = start_rx wc /\ start_ry w' = start_ry wc /\
    g_x (root_geometry w') = g_x (root_geometry wc) /\
    g_y (root_geometry w') = g_y (root_geometry wc) /\
    match ms with
    | [] => root_geometry w' = root_geometry wc
    | e0 :: rest =>
        (g_width (root_geometry w'), g_height (root_geometry w')) =
        resize_size wc (last rest e0)
    end.
Proof.
  induction ms as [|e rest IH]; intros wc; cbv zeta.
  - repeat split.
  - set (wc1 := fst (_do_resize e wc)).
    assert (E : do_all (map _do_resize (e :: rest)) wc =
                do_all (map _do_resize rest) wc1) by reflexivity.
    rewrite E. specialize (IH wc1). cbv zeta in IH.
    destruct IH as [H0 [H1 [H2 [H3 [H4 [H5 [H6 H7]]]]]]].
    assert (Hsame : start_w wc1 = start_w wc /\ start_h wc1 = start_h wc /\
                    start_rx wc1 = start_rx wc /\ start_ry wc1 = start_ry wc /\
                    g_x (root_geometry wc1) = g_x (root_geometry wc) /\
                    g_y (root_geometry wc1) = g_y (root_geometry wc) /\
                    (g_width (root_geometry wc1), g_height (root_geometry wc1))
                    = resize_size wc e).
    { unfold wc1, _do_resize, modify. cbn [fst].
      destruct (resize_size wc e) as [width height]. repeat split. }
    destruct Hsame as [S1 [S2 [S3 [S4 [S5 [S6 S7]]]]]].
    split; [exact H0|].
    rewrite H1, H2, H3, H4, H5, H6.
    repeat (split; [assumption|]).
    destruct rest as [|e' rest'].
    + rewrite H7. exact S7.
    + rewrite H7, last_cons. unfold resize_size.
      rewrite S1, S2, S3, S4. reflexivity.
Qed.

(** X22: a resize drag has no memory of its path.  After the grip is
    pressed at [e0] and the pointer has moved through any events ending
    at [e], the window has the size it had at the press plus the
    pointer's displacement from [e0] to [e], clamped to
    [[320, 1600]] by [[180, 1200]], and it has not moved. *)
Theorem resize_drag (w : widget) (e0 e : event) (motions : list event) :
  let w' :=
    fst (do_all (_start_resize e0 :: map _do_resize (motions ++ [e])) w) in
  root_geometry w' =
  mkGeometry
    (clamp (g_width (root_geometry w) + (x_root e - x_root e0)) 320 1600)
    (clamp (g_height (root_geometry w) + (y_root e - y_root e0)) 180 1200)
    (g_x (root_geometry w)) (g_y (root_geometry w)).
Proof.
  cbv zeta. cbn [do_all]. unfold mbind at 1.
  set (w1 := fst (_start_resize e0 w)).
  assert (E1 : _start_resize e0 w = (w1, Ok tt)) by reflexivity.
  rewrite E1.
  pose proof (do_resize_all (motions ++ [e]) w1) as H. cbv zeta in H.
  destruct H as [_ [_ [_ [_ [_ [Hx [Hy Hsize]]]]]]].
  destruct (root_geometry (fst (do_all (map _do_resize (motions ++ [e])) w1)))
    as [gw gh gx gy] eqn:Eg.
  cbn [g_x g_y g_width g_height] in Hx, Hy, Hsize.
  assert (Hlast : forall m0 rest,
             (motions ++ [e])%list = m0 :: rest -> last rest m0 = e).
  { intros m0 rest H. rewrite <- (last_cons rest m0 m0), <- H.
    apply last_last. }
  destruct (motions ++ [e])%list as [|m0 rest] eqn:Em;
    [destruct motions; discriminate|].
  specialize (Hlast m0 rest eq_refl).
  rewrite Hlast in Hsize. unfold resize_size in Hsize.
  injection Hsize as -> ->. subst gx gy. reflexivity.
Qed.

(** ** Saving the geometry *)

(** X23: [_on_configure] never raises, not even when the state file
    cannot be written.  On a state that is a dict it records the window
    geometry, leaves every other key of the state as it is (the text
    and the tags are not captured again) and writes the state when the
    file system lets it, so that loading a state file that can be
    written and read returns the in-memory state.  On a state that is
    not a dict it does nothing. *)
Theorem on_configure_persists (w : widget) :
  let w' := fst (_on_configure w) in
  snd (_on_configure w) = Ok tt /\
  (is_dict (state w) = false -> w' = w) /\
  (is_dict (state w) = true ->
   get_path ["geometry"] (state w')
   = Some (JStr (geometry_to_string (root_geometry w))) /\
   (forall k, String.eqb k "geometry" = false ->
              get_path [k] (state w') = get_path [k] (state w)) /\
   files w' = fst (save_state (files w) STATE_FILE (state w')) /\
   (wf_json (state w) = true ->
    writable (files w) STATE_FILE = true ->
    readable (files w) STATE_FILE = true ->
    load_state (files w') STATE_FILE = (files w', Ok (state w')))).
Proof.
  cbv zeta. unfold _on_configure, try_except, mbind, gets, state_set.
  destruct (state w) as [| | | | | |d] eqn:Es; cbn [set_item is_dict];
    try (split; [reflexivity|split; [reflexivity|discriminate]]).
  unfold save_state_file. widget_setters.
  set (st1 := JObj (dict_set "geometry"
                      (JStr (geometry_to_string (root_geometry w))) d)).
  assert (Hout : forall r : result unit,
             snd (match r with
                  | Ok a =>
                      (set_files (fst (save_state (files w) STATE_FILE st1))
                         (set_state st1 w), Ok a)
                  | Err _ =>
                      ret tt
                        (set_files (fst (save_state (files w) STATE_FILE st1))
                           (set_state st1 w))
                  end) = Ok tt /\
             fst (match r with
                  | Ok a =>
                      (set_files (fst (save_state (files w) STATE_FILE st1))
                         (set_state st1 w), Ok a)
                  | Err _ =>
                      ret tt
                        (set_files (fst (save_state (files w) STATE_FILE st1))
                           (set_state st1 w))
                  end) =
             set_files (fst (save_state (files w) STATE_FILE st1))
               (set_state st1 w)).
  { intros [[]|e]; split; reflexivity. }
  destruct (save_state (files w) STATE_FILE st1) as [fs r] eqn:Esave.
  cbn [fst] in Hout. destruct (Hout r) as [H1 H2]. rewrite H1, H2.
  widget_setters.
  split; [reflexivity|]. split; [discriminate|]. intros _.
  split; [unfold st1; simpl; rewrite dict_get_set_same; reflexivity|].
  split.
  { intros k Hk. unfold st1. simpl. rewrite (dict_get_set_other _ _ _ _ Hk).
    reflexivity. }
  assert (Hfs : fs = fst (save_state (files w) STATE_FILE st1))
    by (rewrite Esave; reflexivity).
  split; [exact Hfs|].
  intros Hw Hwr Hr.
  rewrite Hfs. apply load_state_after_save; [|exact Hwr|exact Hr].
  apply wf_json_set; [exact Hw|reflexivity].
Qed.

Lemma on_configure_persists_witness :
  load_state (files (fst (_on_configure sample_widget))) STATE_FILE =
  (files (fst (_on_configure sample_widget)),
   Ok (state (fst (_on_configure sample_widget)))).
Proof.
  destruct (on_configure_persists sample_widget) as [_ [_ H]].
  destruct (H eq_refl) as [_ [_ [_ Hload]]].
  exact (Hload eq_refl eq_refl eq_refl).
Defined.

(** ** The rest of the window *)

Ltac app_fields :=
  cbn [core drag_offx drag_offy root_alpha root_shown root_alive pin_btn_text
       container_packed container_pad titlebar_bg toolbar_bg title_label_bg
       close_btn_bg min_btn_bg resize_grip_bg text_bg
       set_core set_drag_offx set_drag_offy set_root_alpha set_root_shown
       set_root_alive set_pin_btn_text set_container_packed set_container_pad
       set_titlebar_bg set_toolbar_bg set_title_label_bg set_close_btn_bg
       set_min_btn_bg set_resize_grip_bg set_text_bg].

Lemma abind_run {A B : Type} (c : MA A) (k : A -> MA B)
  (a a1 : motivation_widget) (x : A) :
  c a = (a1, Ok x) -> abind c k a = k x a1.
Proof.
  intros E. unfold abind. rewrite E. reflexivity.
Qed.

Lemma abind_err {A B : Type} (c : MA A) (k : A -> MA B)
  (a a1 : motivation_widget) (e : exn) :
  c a = (a1, Err e) -> abind c k a = (a1, Err e).
Proof.
  intros E. unfold abind. rewrite E. reflexivity.
Qed.

Lemma on_core_run {A : Type} (c : M A) (a : motivation_widget) (w : widget)
  (r : result A) :
  c (core a) = (w, r) -> on_core c a = (set_core w a, r).
Proof.
  intros E. unfold on_core. rewrite E. reflexivity.
Qed.

(** *** Moving the window *)

Lemma do_move_all (ms : list event) :
  forall a,
    let a' := fst (ado_all (map _do_move ms) a) in
    snd (ado_all (map _do_move ms) a) = Ok tt /\
    drag_offx a' = drag_offx a /\ drag_offy a' = drag_offy a /\
    g_width (root_geometry (core a')) = g_width (root_geometry (core a)) /\
    g_height (root_geometry (core a')) = g_height (root_geometry (core a)) /\
    state (core a') = state (core a) /\
    files (core a') = files (core a) /\
    match ms with
    | [] => root_geometry (core a') = root_geometry (core a)
    | m0 :: rest =>
        g_x (root_geometry (core a')) = x_root (last rest m0) - drag_offx a /\
        g_y (root_geometry (core a')) = y_root (last rest m0) - drag_offy a
    end.
Proof.
  induction ms as [|e rest IH]; intros a; cbv zeta.
  - repeat split.
  - set (a1 := fst (_do_move e a)).
    assert (E : ado_all (map _do_move (e :: rest)) a =
                ado_all (map _do_move rest) a1) by reflexivity.
    rewrite E. specialize (IH a1). cbv zeta in IH.
    destruct IH as [H0 [H1 [H2 [H3 [H4 [H5 [H6 H7]]]]]]].
    assert (Hsame : drag_offx a1 = drag_offx a /\ drag_offy a1 = drag_offy a /\
                    g_width (root_geometry (core a1))
                    = g_width (root_geometry (core a)) /\
                    g_height (root_geometry (core a1))
                    = g_height (root_geometry (core a)) /\
                    state (core a1) = state (core a) /\
                    files (core a1) = files (core a) /\
                    g_x (root_geometry (core a1)) = x_root e - drag_offx a /\
                    g_y (root_geometry (core a1)) = y_root e - drag_offy a).
    { unfold a1, _do_move, amodify. cbn [fst]. repeat split. }
    destruct Hsame as [S1 [S2 [S3 [S4 [S5 [S6 [S7 S8]]]]]]].
    split; [exact H0|].
    rewrite H1, H2, H3, H4, H5, H6.
    repeat (split; [assumption|]).
    destruct rest as [|e' rest'].
    + rewrite H7. split; assumption.
    + rewrite last_cons, <- S1, <- S2. exact H7.
Qed.

(** X24: a move drag has no memory of its path and no bounds.  After the
    title bar is pressed at [e0] and the pointer has moved through any
    events ending at [e], the window sits where it was at the press,
    shifted by the pointer's displacement from [e0] to [e]; its size is
    as before, and neither the state nor any file has been written by
    the drag itself. *)
Theorem move_drag (a : motivation_widget) (e0 e : event)
  (motions : list event) :
  let run := ado_all (_start_move e0 :: map _do_move (motions ++ [e])) in
  let g := root_geometry (core a) in
  snd (run a) = Ok tt /\
  root_geometry (core (fst (run a))) =
  mkGeometry (g_width g) (g_height g)
    (g_x g + (x_root e - x_root e0)) (g_y g + (y_root e - y_root e0)) /\
  state (core (fst (run a))) = state (core a) /\
  files (core (fst (run a))) = files (core a).
Proof.
  cbv zeta. cbn [ado_all].
  set (a1 := fst (_start_move e0 a)).
  assert (E1 : _start_move e0 a = (a1, Ok tt)) by reflexivity.
  rewrite (abind_run _ _ _ _ _ E1).
  pose proof (do_move_all (motions ++ [e]) a1) as H. cbv zeta in H.
  destruct H as [H0 [_ [_ [Hw [Hh [Hst [Hfs Hpos]]]]]]].
  split; [exact H0|]. rewrite Hst, Hfs.
  split; [|split; reflexivity].
  destruct (root_geometry
              (core (fst (ado_all (map _do_move (motions ++ [e])) a1))))
    as [gw gh gx gy] eqn:Eg.
  cbn [g_x g_y g_width g_height] in Hw, Hh, Hpos.
  assert (Hlast : forall m0 rest,
             (motions ++ [e])%list = m0 :: rest -> last rest m0 = e).
  { intros m0 rest H. rewrite <- (last_cons rest m0 m0), <- H.
    apply last_last. }
  destruct (motions ++ [e])%list as [|m0 rest] eqn:Em;
    [destruct motions; discriminate|].
  specialize (Hlast m0 rest eq_refl).
  rewrite Hlast in Hpos. destruct Hpos as [Hx Hy].
  subst gw gh gx gy. unfold a1, _start_move, abind, amodify.
  cbn [fst]. app_fields. f_equal; lia.
Qed.

(** *** Handlers that end with [save_all] *)

Lemma save_all_no_border (w : widget) (e : exn) :
  state_shape (state w) = true ->
  border_var w = Err e ->
  exists st', save_all w = (set_state st' w, Err e).
Proof.
  intros Hs Hb.
  assert (H : runs_to (saving false (files w) []) save_all (Err e)
                (fun _ fs' => fs' = files w) w).
  { unfold save_all.
    apply runs_to_gets. save_write.
    apply runs_to_gets. save_write.
    apply runs_to_gets; widget_fields. save_write.
    apply runs_to_gets; widget_fields. save_write.
    apply runs_to_gets; widget_fields. save_write.
    apply runs_to_gets; widget_fields. save_write.
    apply runs_to_gets; widget_fields. rewrite Hb. cbn [intvar_get].
    intros [_ [_ [Hfs _]]].
    match goal with
    | |- exists st' fs', _ ?x = _ /\ _ =>
        exists (state x), (files x)
    end.
    split; [reflexivity|exact Hfs]. }
  destruct H as [st' [fs' [E ->]]].
  { split; [exact Hs|]. split; [discriminate|]. split; [reflexivity|exact I]. }
  exists st'. rewrite E. destruct w. reflexivity.
Qed.

(** What the application looks like after a handler has run
    [save_all] as its last step, from the application [a] it had built
    by then. *)
Lemma on_core_save_all (a : motivation_widget) (b : Z) :
  state_shape (state (core a)) = true ->
  border_var (core a) = Ok b ->
  writable (files (core a)) STATE_FILE = true ->
  exists st',
    on_core save_all a =
    (set_core
       (set_files (fst (save_state (files (core a)) STATE_FILE st'))
          (set_state st' (core a))) a,
     Ok tt) /\
    state_shape st' = true /\
    (wf_json (state (core a)) = true -> wf_json st' = true) /\
    holds (saved_fields (core a) b) st'.
Proof.
  intros Hs Hb Hwr.
  destruct (save_all_ok (core a) b Hs Hb Hwr) as [st' [E H]].
  exists st'. split; [exact (on_core_run _ _ _ _ E)|exact H].
Qed.

Lemma on_core_save_all_no_border (a : motivation_widget) (e : exn) :
  state_shape (state (core a)) = true ->
  border_var (core a) = Err e ->
  exists st',
    on_core save_all a = (set_core (set_state st' (core a)) a, Err e).
Proof.
  intros Hs Hb. destruct (save_all_no_border (core a) e Hs Hb) as [st' E].
  exists st'. exact (on_core_run _ _ _ _ E).
Qed.

Lemma state_set_plain_run (k : string) (v : json) (w : widget) :
  state_shape (state w) = true ->
  section_key k = false ->
  exists st1,
    state_set k v w = (set_state st1 w, Ok tt) /\
    state_shape st1 = true.
Proof.
  intros Hs Hk.
  destruct (set_item_plain k v (state w) Hs Hk) as [st1 [E [Hs1 _]]].
  exists st1. unfold state_set. rewrite E. split; [reflexivity|exact Hs1].
Qed.

Lemma toggle_pin_run (a : motivation_widget) (b : Z) (v : json) :
  state_shape (state (core a)) = true ->
  border_var (core a) = Ok b ->
  writable (files (core a)) STATE_FILE = true ->
  get_path ["always_on_top"] (state (core a)) = Some v ->
  exists a',
    toggle_pin a = (a', Ok tt) /\
    root_topmost (core a') = negb (py_bool v) /\
    pin_btn_text a' = (if negb (py_bool v) then "📌" else "📍") /\
    get_path ["always_on_top"] (state (core a'))
    = Some (JBool (negb (py_bool v))) /\
    file_at (files (core a')) STATE_FILE = Some (json_dump (state (core a'))) /\
    state_shape (state (core a')) = true /\
    border_var (core a') = Ok b /\
    writable (files (core a')) STATE_FILE = true.
Proof.
  intros Hs Hb Hwr Hv.
  destruct a as [w ox oy al sh alive pin packed pad b1 b2 b3 b4 b5 b6 b7].
  cbn [core] in Hs, Hb, Hwr, Hv.
  set (new := negb (py_bool v)).
  set (a0 := mkApp w ox oy al sh alive pin packed pad b1 b2 b3 b4 b5 b6 b7).
  assert (E0 : on_core (state_item "always_on_top") a0 = (a0, Ok v)).
  { unfold on_core, state_item, a0. cbn [core].
    destruct (state w) as [| | | | | |d]; try discriminate Hs.
    cbn [get_path] in Hv. unfold dict_item.
    destruct (dict_get "always_on_top" d); [|discriminate Hv].
    injection Hv as ->. reflexivity. }
  destruct (state_set_plain_run "always_on_top" (JBool new) w Hs eq_refl)
    as [st1 [E1 Hs1]].
  set (w2 := set_root_topmost new (set_state st1 w)).
  set (a2 := set_pin_btn_text (if new then "📌" else "📍") (set_core w2 a0)).
  assert (Hrun : toggle_pin a0 = on_core save_all a2).
  { unfold toggle_pin. rewrite (abind_run _ _ _ _ _ E0). cbv beta zeta.
    fold new.
    rewrite (abind_run _ _ _ _ _ (on_core_run _ a0 _ _ E1)). reflexivity. }
  destruct (on_core_save_all a2 b Hs1 Hb Hwr) as [st' [E [Hs' [_ Hf]]]].
  rewrite Hrun, E. eexists. split; [reflexivity|].
  unfold a2, w2, a0. app_fields. widget_setters.
  destruct Hf as (_ & _ & _ & _ & _ & Htop & _).
  split; [reflexivity|]. split; [reflexivity|].
  split; [exact Htop|]. split; [apply save_state_at; exact Hwr|].
  split; [exact Hs'|]. split; [exact Hb|].
  rewrite writable_save_state. exact Hwr.
Qed.

(** X25: [toggle_pin] flips the pin as the state records it, whatever
    JSON value the state holds there: the window's top-most attribute
    becomes the negation of that value's truth, the button shows the
    matching icon, and the state and the state file record the new
    setting as a boolean.  The save at its end has to return: the state
    has its shape, the border box holds an integer and the state file
    can be written. *)
Theorem toggle_pin_effect (a : motivation_widget) (b : Z) (v : json) :
  state_shape (state (core a)) = true ->
  border_var (core a) = Ok b ->
  writable (files (core a)) STATE_FILE = true ->
  get_path ["always_on_top"] (state (core a)) = Some v ->
  let a' := fst (toggle_pin a) in
  let new := negb (py_bool v) in
  snd (toggle_pin a) = Ok tt /\
  root_topmost (core a') = new /\
  pin_btn_text a' = (if new then "📌" else "📍") /\
  get_path ["always_on_top"] (state (core a')) = Some (JBool new) /\
  file_at (files (core a')) STATE_FILE = Some (json_dump (state (core a'))).
Proof.
  intros Hs Hb Hwr Hv. cbv zeta.
  destruct (toggle_pin_run a b v Hs Hb Hwr Hv)
    as [a' [E [H1 [H2 [H3 [H4 _]]]]]].
  rewrite E. cbn [fst snd].
  split; [reflexivity|]. split; [exact H1|]. split; [exact H2|].
  split; [exact H3|exact H4].
Qed.

Lemma toggle_pin_effect_witness :
  root_topmost (core (fst (toggle_pin sample_app))) = false /\
  pin_btn_text (fst (toggle_pin sample_app)) = "📍".
Proof.
  destruct (toggle_pin_effect sample_app 2 (JBool true))
    as [_ [H1 [H2 _]]]; [reflexivity|reflexivity|reflexivity|reflexivity|].
  split; [exact H1|exact H2].
Defined.

(** X26: pinning is undone by pinning again.  After two [toggle_pin]
    in a row the window's top-most attribute and the icon of the button
    are what the truth of the value first recorded in the state asks
    for, the state holds that truth as a boolean, and the state file
    holds the state.  The saves have to return: the state has its
    shape, the border box holds an integer and the state file can be
    written. *)
Theorem toggle_pin_twice (a : motivation_widget) (b : Z) (v : json) :
  state_shape (state (core a)) = true ->
  border_var (core a) = Ok b ->
  writable (files (core a)) STATE_FILE = true ->
  get_path ["always_on_top"] (state (core a)) = Some v ->
  let a2 := fst (toggle_pin (fst (toggle_pin a))) in
  snd (toggle_pin (fst (toggle_pin a))) = Ok tt /\
  root_topmost (core a2) = py_bool v /\
  pin_btn_text a2 = (if py_bool v then "📌" else "📍") /\
  get_path ["always_on_top"] (state (core a2)) = Some (JBool (py_bool v)) /\
  file_at (files (core a2)) STATE_FILE = Some (json_dump (state (core a2))).
Proof.
  intros Hs Hb Hwr Hv. cbv zeta.
  destruct (toggle_pin_run a b v Hs Hb Hwr Hv)
    as [a1 [E1 [_ [_ [Hv1 [_ [Hs1 [Hb1 Hwr1]]]]]]]].
  destruct (toggle_pin_run a1 b _ Hs1 Hb1 Hwr1 Hv1)
    as [a2 [E2 [H1 [H2 [H3 [H4 _]]]]]].
  cbn [py_bool] in H1, H2, H3. rewrite negb_involutive in H1, H2, H3.
  rewrite E1. cbn [fst]. rewrite E2. cbn [fst snd].
  split; [reflexivity|]. split; [exact H1|]. split; [exact H2|].
  split; [exact H3|exact H4].
Qed.

Lemma toggle_pin_twice_witness :
  root_topmost (core (fst (toggle_pin (fst (toggle_pin sample_app))))) = true.
Proof.
  destruct (toggle_pin_twice sample_app 2 (JBool true))
    as [_ [H _]]; [reflexivity|reflexivity|reflexivity|reflexivity|exact H].
Defined.

Lemma state_set2_section_run (k1 k2 : string) (v : json) (w : widget) :
  state_shape (state w) = true ->
  section_key k1 = true ->
  exists st1,
    state_set2 k1 k2 v w = (set_state st1 w, Ok tt) /\
    state_shape st1 = true.
Proof.
  intros Hs Hk.
  destruct (set_item2_section k1 k2 v (state w) Hs Hk) as [st1 [E [Hs1 _]]].
  exists st1. unfold state_set2. rewrite E. split; [reflexivity|exact Hs1].
Qed.

Lemma saved_color (w : widget) (b : Z) (st : json) (which c : string) :
  holds (saved_fields w b) st ->
  shown_color which w = Some c ->
  get_path ["colors"; which] st = Some (JStr c).
Proof.
  intros Hf. unfold shown_color.
  destruct Hf as (_ & _ & _ & _ & _ & _ & _ & _ & Hbo & Hac & Hte & Hba & _).
  destruct (String.eqb which "background") eqn:E1;
    [apply String.eqb_eq in E1; subst which; intros [= <-]; exact Hba|].
  destruct (String.eqb which "text") eqn:E2;
    [apply String.eqb_eq in E2; subst which; intros [= <-]; exact Hte|].
  destruct (String.eqb which "accent") eqn:E3;
    [apply String.eqb_eq in E3; subst which; intros [= <-]; exact Hac|].
  destruct (String.eqb which "border") eqn:E4;
    [apply String.eqb_eq in E4; subst which; intros [= <-]; exact Hbo|].
  discriminate.
Qed.

(** X27: picking a colour under one of the four names of the toolbar
    shows the chooser once and returns normally; afterwards the widget
    option of that name shows the colour, the state holds the colour
    under that name and the state file holds that state; for
    "background" each of the eight panels has the colour as its
    background.  The save at its end has to return: the state has its
    shape, the border box holds an integer and the state file can be
    written. *)
Theorem pick_color_saved (a : motivation_widget) (b : Z)
  (which color : string) :
  In which color_names ->
  color <> "" ->
  state_shape (state (core a)) = true ->
  border_var (core a) = Ok b ->
  writable (files (core a)) STATE_FILE = true ->
  let a' := fst (pick_color which (Some color) a) in
  snd (pick_color which (Some color) a) = Ok tt /\
  dialogs (core a') =
  (dialogs (core a) ++ [AskColor ("Pick " ++ which ++ " color")])%list /\
  shown_color which (core a') = Some color /\
  get_path ["colors"; which] (state (core a')) = Some (JStr color) /\
  file_at (files (core a')) STATE_FILE = Some (json_dump (state (core a'))) /\
  (which = "background" -> panel_backgrounds a' = repeat color 8).
Proof.
  intros Hin Hne Hs Hb Hwr. cbv zeta.
  apply String.eqb_neq in Hne.
  destruct a as [w ox oy al sh alive pin packed pad b1 b2 b3 b4 b5 b6 b7].
  cbn [core] in Hs, Hb, Hwr.
  set (a0 := mkApp w ox oy al sh alive pin packed pad b1 b2 b3 b4 b5 b6 b7).
  set (w1 := set_dialogs
               (dialogs w ++ [AskColor ("Pick " ++ which ++ " color")])%list w).
  assert (E0 : on_core (show (AskColor ("Pick " ++ which ++ " color"))) a0
               = (set_core w1 a0, Ok tt)) by reflexivity.
  destruct (state_set2_section_run "colors" which (JStr color) w1 Hs eq_refl)
    as [st1 [E1 Hs1]].
  assert (Hrun : exists a2,
             pick_color which (Some color) a0 = on_core save_all a2 /\
             state (core a2) = st1 /\ border_var (core a2) = Ok b /\
             files (core a2) = files w /\
             dialogs (core a2) = dialogs w1 /\
             shown_color which (core a2) = Some color /\
             (which = "background" -> panel_backgrounds a2 = repeat color 8)).
  { unfold pick_color. rewrite (abind_run _ _ _ _ _ E0), Hne.
    rewrite (abind_run _ _ _ _ _ (on_core_run _ (set_core w1 a0) _ _ E1)).
    destruct Hin as [<-|[<-|[<-|[<-|[]]]]]; eexists;
      (split; [reflexivity|]);
      (split; [reflexivity|]); (split; [exact Hb|]);
      (split; [reflexivity|]);
      (split; [reflexivity|]); (split; [reflexivity|]);
      first [discriminate | intros _; reflexivity]. }
  destruct Hrun as [a2 [Hrun [Hst [Hb2 [Hfs2 [Hd [Hcol Hbg]]]]]]].
  rewrite <- Hst in Hs1.
  assert (Hwr2 : writable (files (core a2)) STATE_FILE = true)
    by (rewrite Hfs2; exact Hwr).
  destruct (on_core_save_all a2 b Hs1 Hb2 Hwr2) as [st' [E [_ [_ Hf]]]].
  rewrite Hrun, E. cbn [fst snd]. app_fields. widget_setters.
  split; [reflexivity|]. split; [exact Hd|].
  split; [exact Hcol|].
  split; [exact (saved_color _ _ _ _ _ Hf Hcol)|].
  split; [apply save_state_at; exact Hwr2|].
  intros Hw. rewrite <- (Hbg Hw). reflexivity.
Qed.

Lemma pick_color_saved_witness :
  get_path ["colors"; "accent"]
    (state (core (fst (pick_color "accent" (Some "#00FF00") sample_app))))
  = Some (JStr "#00FF00").
Proof.
  destruct (pick_color_saved sample_app 2 "accent" "#00FF00")
    as [_ [_ [_ [H _]]]].
  - right. right. left. reflexivity.
  - discriminate.
  - reflexivity.
  - reflexivity.
  - reflexivity.
  - exact H.
Defined.

(** When the colour chooser is cancelled, [pick_color] does nothing but
    show it. *)
Lemma pick_color_cancelled (a : motivation_widget) (which : string)
  (answer : option string) :
  answer = None \/ answer = Some "" ->
  pick_color which answer a =
  (set_core
     (set_dialogs
        (dialogs (core a) ++ [AskColor ("Pick " ++ which ++ " color")])%list
        (core a)) a,
   Ok tt).
Proof.
  intros [-> | ->]; reflexivity.
Qed.

(** X28: [apply_border] never falls back on the default thickness.
    When the border box holds no integer it raises what reading the
    box raises, [TclError] or, for an infinite number, [OverflowError],
    before anything has changed.  When it holds an integer that is not
    negative, that integer, however large, becomes the padding of the
    container and the border thickness of the state, and the state
    file, when it can be written, holds that state. *)
Theorem apply_border_outcome (a : motivation_widget) :
  state_shape (state (core a)) = true ->
  let a' := fst (apply_border a) in
  match border_var (core a) with
  | Err e => apply_border a = (a, Err e)
  | Ok v =>
      0 <= v ->
      writable (files (core a)) STATE_FILE = true ->
      snd (apply_border a) = Ok tt /\
      container_packed a' = true /\
      container_pad a' = v /\
      get_path ["border_thickness"] (state (core a')) = Some (JInt v) /\
      file_at (files (core a')) STATE_FILE = Some (json_dump (state (core a')))
  end.
Proof.
  intros Hs. cbv zeta.
  destruct a as [w ox oy al sh alive pin packed pad b1 b2 b3 b4 b5 b6 b7].
  cbn [core] in Hs |- *.
  set (a0 := mkApp w ox oy al sh alive pin packed pad b1 b2 b3 b4 b5 b6 b7).
  destruct (border_var w) as [v|e] eqn:Hb.
  - intros Hv Hwr.
    destruct (state_set_plain_run "border_thickness" (JInt v) w Hs eq_refl)
      as [st1 [E1 Hs1]].
    set (a2 := set_container_pad v
                 (set_container_packed true
                    (set_container_packed false
                       (set_core (set_state st1 w) a0)))).
    assert (Hrun : apply_border a0 = on_core save_all a2).
    { unfold apply_border.
      assert (E0 : on_core (gets border_var) a0 = (a0, Ok (Ok v))).
      { unfold on_core, gets, a0. cbn [core]. rewrite Hb. reflexivity. }
      rewrite (abind_run _ _ _ _ _ E0).
      assert (E0' : on_core (intvar_get (Ok v)) a0 = (a0, Ok v))
        by reflexivity.
      rewrite (abind_run _ _ _ _ _ E0'). cbv beta zeta. cbn [safe_int].
      rewrite (abind_run _ _ _ _ _ (on_core_run _ a0 _ _ E1)).
      apply Z.ltb_ge in Hv. rewrite Hv. reflexivity. }
    destruct (on_core_save_all a2 v Hs1 Hb Hwr) as [st' [E [_ [_ Hf]]]].
    rewrite Hrun, E. cbn [fst snd]. unfold a2, a0. app_fields.
    widget_setters.
    destruct Hf as (_ & _ & _ & _ & _ & _ & _ & Hth & _).
    split; [reflexivity|]. split; [reflexivity|]. split; [reflexivity|].
    split; [exact Hth|]. apply save_state_at; exact Hwr.
  - unfold apply_border.
    assert (E0 : on_core (gets border_var) a0 = (a0, Ok (Err e))).
    { unfold on_core, gets, a0. cbn [core]. rewrite Hb. reflexivity. }
    rewrite (abind_run _ _ _ _ _ E0). reflexivity.
Qed.

Lemma apply_border_outcome_witness :
  container_pad (fst (apply_border sample_app)) = 2.
Proof.
  pose proof (apply_border_outcome sample_app eq_refl) as H.
  cbv zeta in H. cbn [sample_app core sample_widget border_var] in H.
  destruct H as [_ [_ [H _]]]; [lia|reflexivity|exact H].
Defined.

Lemma on_alpha_change_run (a : motivation_widget) :
  state_shape (state (core a)) = true ->
  PrimFloat.is_nan (alpha_var (core a)) = false ->
  exists st1,
    state_shape st1 = true /\
    on_alpha_change a =
    on_core save_all
      (set_root_alpha (alpha_var (core a))
         (set_core (set_state st1 (core a)) a)).
Proof.
  intros Hs Hn.
  destruct a as [w ox oy al sh alive pin packed pad b1 b2 b3 b4 b5 b6 b7].
  cbn [core] in Hs, Hn |- *.
  set (a0 := mkApp w ox oy al sh alive pin packed pad b1 b2 b3 b4 b5 b6 b7).
  destruct (state_set_plain_run "alpha" (JFloat (alpha_var w)) w Hs eq_refl)
    as [st1 [E1 Hs1]].
  exists st1. split; [exact Hs1|].
  unfold on_alpha_change.
  assert (E0 : on_core (gets alpha_var) a0 = (a0, Ok (alpha_var w)))
    by reflexivity.
  rewrite (abind_run _ _ _ _ _ E0).
  rewrite (abind_run _ _ _ _ _ (on_core_run _ a0 _ _ E1)).
  unfold wm_alpha. rewrite Hn. reflexivity.
Qed.

(** X29: [on_alpha_change] gives the window the opacity that the slider
    holds, as it is, and the state and the state file record it.  This
    needs a state of the right shape, an integer in the border box, a
    state file that can be written and a slider variable that holds a
    number. *)
Theorem on_alpha_change_effect (a : motivation_widget) (b : Z) :
  state_shape (state (core a)) = true ->
  border_var (core a) = Ok b ->
  writable (files (core a)) STATE_FILE = true ->
  PrimFloat.is_nan (alpha_var (core a)) = false ->
  let a' := fst (on_alpha_change a) in
  snd (on_alpha_change a) = Ok tt /\
  root_alpha a' = alpha_var (core a) /\
  get_path ["alpha"] (state (core a')) = Some (JFloat (alpha_var (core a))) /\
  file_at (files (core a')) STATE_FILE = Some (json_dump (state (core a'))).
Proof.
  intros Hs Hb Hwr Hn. cbv zeta.
  destruct (on_alpha_change_run a Hs Hn) as [st1 [Hs1 Hrun]].
  set (a2 := set_root_alpha (alpha_var (core a))
               (set_core (set_state st1 (core a)) a)) in Hrun.
  destruct (on_core_save_all a2 b Hs1 Hb Hwr) as [st' [E [_ [_ Hf]]]].
  rewrite Hrun, E. cbn [fst snd]. unfold a2. app_fields. widget_setters.
  destruct Hf as (_ & _ & _ & _ & _ & _ & Hal & _).
  split; [reflexivity|]. split; [reflexivity|].
  split; [exact Hal|]. apply save_state_at; exact Hwr.
Qed.

Lemma on_alpha_change_effect_witness :
  root_alpha (fst (on_alpha_change sample_app)) = 1.0%float.
Proof.
  destruct (on_alpha_change_effect sample_app 2) as [_ [H _]];
    [reflexivity|reflexivity|reflexivity|reflexivity|exact H].
Defined.

(** X30: closing and minimizing depend on the save.  With an integer in
    the border box and a state file that can be written, [on_close]
    writes the state file and destroys the window, and [on_minimize]
    writes it and hides the window.  With no integer in the border box
    the save raises what reading the box raises, no file is written,
    and the window is neither destroyed nor hidden. *)
Theorem close_and_minimize (a : motivation_widget) :
  state_shape (state (core a)) = true ->
  let c := fst (on_close a) in
  let m := fst (on_minimize a) in
  match border_var (core a) with
  | Ok _ =>
      writable (files (core a)) STATE_FILE = true ->
      snd (on_close a) = Ok tt /\ root_alive c = false /\
      file_at (files (core c)) STATE_FILE = Some (json_dump (state (core c))) /\
      snd (on_minimize a) = Ok tt /\ root_shown m = false /\
      root_alive m = root_alive a /\
      file_at (files (core m)) STATE_FILE = Some (json_dump (state (core m)))
  | Err e =>
      snd (on_close a) = Err e /\ root_alive c = root_alive a /\
      files (core c) = files (core a) /\
      snd (on_minimize a) = Err e /\ root_shown m = root_shown a /\
      files (core m) = files (core a)
  end.
Proof.
  intros Hs. cbv zeta. unfold on_close, on_minimize.
  destruct (border_var (core a)) as [b|e] eqn:Hb.
  - intros Hwr. destruct (on_core_save_all a b Hs Hb Hwr) as [st' [E _]].
    rewrite !(abind_run _ _ _ _ _ E). unfold amodify. cbn [fst snd].
    app_fields. widget_setters.
    repeat (split; [first [reflexivity | apply save_state_at; exact Hwr]|]).
    apply save_state_at; exact Hwr.
  - destruct (on_core_save_all_no_border a e Hs Hb) as [st' E].
    rewrite !(abind_err _ _ _ _ _ E). cbn [fst snd]. app_fields.
    widget_setters. repeat split.
Qed.

Lemma close_and_minimize_witness :
  root_alive (fst (on_close sample_app)) = false /\
  root_shown (fst (on_minimize sample_app)) = false.
Proof.
  pose proof (close_and_minimize sample_app eq_refl) as H.
  cbv zeta in H. cbn [sample_app core sample_widget border_var] in H.
  destruct (H eq_refl) as [_ [H1 [_ [_ [H2 _]]]]]. split; [exact H1|exact H2].
Defined.

(** ** The persisted opacity *)

Lemma state_item_path (k : string) (v : json) (w : widget) :
  get_path [k] (state w) = Some v -> state_item k w = (w, Ok v).
Proof.
  unfold state_item, dict_item. cbn [get_path].
  destruct (state w) as [| | | | | |d]; try discriminate.
  destruct (dict_get k d) as [x|]; [|discriminate].
  intros H. injection H as ->. reflexivity.
Qed.

Lemma init_alpha_run (fstr : string -> result float)
  (scale : float -> float) (a : motivation_widget) (v : json) (f : float) :
  get_path ["alpha"] (state (core a)) = Some v ->
  py_float fstr v = Ok f ->
  PrimFloat.is_nan f = false ->
  init_alpha fstr scale a =
  (set_core (set_alpha_var (scale f) (core a)) (set_root_alpha f a), Ok tt).
Proof.
  intros Hv Hf Hn.
  destruct a as [w ox oy al sh alive pin packed pad b1 b2 b3 b4 b5 b6 b7].
  cbn [core] in Hv |- *.
  set (a0 := mkApp w ox oy al sh alive pin packed pad b1 b2 b3 b4 b5 b6 b7).
  pose proof (state_item_path "alpha" v w Hv) as E.
  unfold init_alpha.
  rewrite (abind_run _ _ _ _ _ (on_core_run _ a0 _ _ E)).
  assert (Ef : forall a1, on_core (lift (py_float fstr v)) a1
                          = (a1, Ok f)).
  { intros a1. unfold on_core, lift. rewrite Hf. destruct a1. reflexivity. }
  assert (Es : set_core w a0 = a0) by reflexivity.
  rewrite Es, (abind_run _ _ _ _ _ (Ef a0)).
  unfold wm_alpha. rewrite Hn.
  assert (Em : amodify (set_root_alpha f) a0 = (set_root_alpha f a0, Ok tt))
    by reflexivity.
  rewrite (abind_run _ _ _ _ _ Em).
  rewrite (abind_run _ _ _ _ _ (on_core_run _ (set_root_alpha f a0) _ _ E)).
  rewrite (abind_run _ _ _ _ _ (Ef _)).
  reflexivity.
Qed.

(** C6: an opacity outside the slider's range in the state file
    survives loading and default merging: whatever state the startup
    sequence produces holds it, and it does produce one whenever the
    document has the shape the merge accepts.  [__init__] hands that
    number as it is to the window, and to the slider's variable, which
    the slider then fits into its range.  Nothing in the program clamps
    the opacity, on load or on input: [on_alpha_change] hands the window
    what the slider's variable holds.  But the number in the state file
    is not kept: [save_all] stores what the slider's variable holds in
    the place of whatever the state held. *)
Theorem persisted_alpha_preserved
  (fs : store) (c : list token) (doc : dict) (a : json) :
  file_at fs STATE_FILE = Some c ->
  readable fs STATE_FILE = true ->
  json_load c = Some (JObj doc) ->
  dict_get "alpha" doc = Some a ->
  alpha_out_of_range a = true ->
  (forall st, snd (startup_state fs) = Ok st ->
              get_path ["alpha"] st = Some a) /\
  (merge_ok (JObj doc) DEFAULTS = true ->
   exists st, snd (startup_state fs) = Ok st /\
              get_path ["alpha"] st = Some a) /\
  (forall fstr scale app f,
      get_path ["alpha"] (state (core app)) = Some a ->
      py_float fstr a = Ok f ->
      PrimFloat.is_nan f = false ->
      let r := init_alpha fstr scale app in
      snd r = Ok tt /\
      root_alpha (fst r) = f /\
      alpha_var (core (fst r)) = scale f /\
      state (core (fst r)) = state (core app) /\
      files (core (fst r)) = files (core app)) /\
  (forall app,
      can_save (core app) = true ->
      PrimFloat.is_nan (alpha_var (core app)) = false ->
      snd (on_alpha_change app) = Ok tt /\
      root_alpha (fst (on_alpha_change app)) = alpha_var (core app)) /\
  (forall w,
      get_path ["alpha"] (state w) = Some a ->
      can_save w = true ->
      let w' := fst (save_all w) in
      snd (save_all w) = Ok tt /\
      get_path ["alpha"] (state w') = Some (JFloat (alpha_var w)) /\
      file_at (files w') STATE_FILE = Some (json_dump (state w'))).
Proof.
  intros Hfs Hr Hc Ha Hout.
  assert (Hstart : snd (startup_state fs) = deep_merge (JObj doc) DEFAULTS).
  { unfold startup_state.
    rewrite (load_state_existing fs STATE_FILE c Hfs Hr), Hc. reflexivity. }
  assert (Hkeep : forall st, deep_merge (JObj doc) DEFAULTS = Ok st ->
                             get_path ["alpha"] st = Some a).
  { intros st Hst.
    destruct (deep_merge_preserved _ _ _ Hst ["alpha"] a) as [v' [Hv' Hc']].
    - simpl. rewrite Ha. reflexivity.
    - destruct a; simpl in Hout, Hc'; try discriminate; subst v'; exact Hv'. }
  rewrite Hstart. split; [exact Hkeep|]. split; [|split; [|split]].
  - intros Hok.
    destruct (deep_merge_returns DEFAULTS eq_refl _ Hok) as [st Hst].
    exists st. split; [exact Hst|exact (Hkeep st Hst)].
  - intros fstr scale app f Hv Hf Hn. cbv zeta.
    rewrite (init_alpha_run fstr scale app a f Hv Hf Hn). cbn [fst snd].
    destruct app. repeat split.
  - intros app Hcan Hn. unfold can_save in Hcan.
    apply andb_prop in Hcan as [Hcan Hwr]. apply andb_prop in Hcan as [Hs Hb].
    destruct (border_var (core app)) as [b|] eqn:Eb; [|discriminate].
    destruct (on_alpha_change_run app Hs Hn) as [st1 [Hs1 Hrun]].
    destruct (on_core_save_all
                (set_root_alpha (alpha_var (core app))
                   (set_core (set_state st1 (core app)) app)) b Hs1 Eb Hwr)
      as [st' [E _]].
    rewrite Hrun, E. split; reflexivity.
  - intros w _ Hcan. cbv zeta. unfold can_save in Hcan.
    apply andb_prop in Hcan as [Hcan Hwr]. apply andb_prop in Hcan as [Hs Hb].
    destruct (border_var w) as [b|] eqn:Eb; [|discriminate].
    destruct (save_all_ok w b Hs Eb Hwr) as [st' [E [_ [_ Hf]]]].
    rewrite E. cbn [fst snd]. widget_setters.
    destruct Hf as (_ & _ & _ & _ & _ & _ & Hal & _).
    split; [reflexivity|]. split; [exact Hal|].
    apply save_state_at; exact Hwr.
Qed.

Lemma persisted_alpha_preserved_witness :
  exists st,
    snd (startup_state low_alpha_files) = Ok st /\
    get_path ["alpha"] st = Some (JFloat float_0_3).
Proof.
  apply (persisted_alpha_preserved low_alpha_files (json_dump partial_doc)
           [ ("alpha", JFloat float_0_3);
             ("colors", JObj [ ("text", JStr "#000000") ]) ]
           (JFloat float_0_3)); reflexivity.
Defined.

(** C6, counterexample: the state file holds the opacity 0.3.  Startup
    loads it and keeps it in the state, the window is given 0.3, and the
    slider, whose range begins at 0.5, leaves 0.5 in its variable.  The
    first save then stores 0.5: the state and the state file hold 0.5
    where the file held 0.3. *)
Lemma persisted_alpha_overwritten_by_save :
  exists st a,
    startup_state low_alpha_files = (low_alpha_files, Ok st) /\
    get_path ["alpha"] st = Some (JFloat float_0_3) /\
    init_alpha (fun _ => Err ValueError) (scale_fit 0.5 1.0)
      (sample_app_with st low_alpha_files) = (a, Ok tt) /\
    root_alpha a = float_0_3 /\
    alpha_var (core a) = 0.5%float /\
    get_path ["alpha"] (state (core a)) = Some (JFloat float_0_3) /\
    snd (save_all (core a)) = Ok tt /\
    get_path ["alpha"] (state (fst (save_all (core a))))
    = Some (JFloat 0.5%float) /\
    snd (load_state (files (fst (save_all (core a)))) STATE_FILE)
    = Ok (state (fst (save_all (core a)))).
Proof.
  exists (match snd (startup_state low_alpha_files) with
          | Ok st => st
          | Err _ => JNull
          end).
  exists (fst (init_alpha (fun _ => Err ValueError) (scale_fit 0.5 1.0)
                 (sample_app_with
                    (match snd (startup_state low_alpha_files) with
                     | Ok st => st
                     | Err _ => JNull
                     end) low_alpha_files))).
  split; [vm_compute; reflexivity|].
  split; [vm_compute; reflexivity|].
  split; [vm_compute; reflexivity|].
  split; [vm_compute; reflexivity|].
  split; [vm_compute; reflexivity|].
  split; [vm_compute; reflexivity|].
  split; [vm_compute; reflexivity|].
  split; vm_compute; reflexivity.
Qed.
